(** * FLock miner (miner.py): scheduling, refresh gate, submission builder
      and commit retry loop, as a shallow embedding.

    The Python script is modelled as state-passing code over a [world]
    (file system, counters of the ambient clock / random source / ledger,
    and the trace of observable events).  Exceptions are values of [exn];
    a computation returns a [result] together with the world it leaves. *)

From Stdlib Require Import ZArith Lia Ascii String List Permutation DecimalString
  DecimalZ.
From stdpp Require Import base option list strings gmap.

Local Open Scope Z_scope.

(** ** Python strings: [str.strip], [str.split] and [int(str)] *)

Module PyStr.

(** A Python [str] is held as its UTF-8 encoding, which is how the
    operating system hands the command line to the interpreter; a byte that
    belongs to no valid sequence stands for the lone surrogate
    U+DC00 + byte (the [surrogateescape] handler of [sys.argv]). *)

Definition is_cont (b : N) : bool := ((0x80 <=? b) && (b <=? 0xBF))%N.

(** Range of the second byte after the lead byte [b0] of a sequence of
    three, and of four. *)
Definition second_of_three (b0 b1 : N) : bool :=
  (if b0 =? 0xE0 then (0xA0 <=? b1) && (b1 <=? 0xBF)
   else if b0 =? 0xED then (0x80 <=? b1) && (b1 <=? 0x9F)
   else is_cont b1)%N.

Definition second_of_four (b0 b1 : N) : bool :=
  (if b0 =? 0xF0 then (0x90 <=? b1) && (b1 <=? 0xBF)
   else if b0 =? 0xF4 then (0x80 <=? b1) && (b1 <=? 0x8F)
   else is_cont b1)%N.

(** The code points of a string. *)
Fixpoint decode (s : string) : list N :=
  match s with
  | EmptyString => []
  | String c0 s1 =>
      let b0 := N_of_ascii c0 in
      if (b0 <? 0x80)%N then b0 :: decode s1
      else
        let lone := (0xDC00 + b0)%N :: decode s1 in
        match s1 with
        | EmptyString => lone
        | String c1 s2 =>
            let b1 := N_of_ascii c1 in
            if ((0xC2 <=? b0) && (b0 <=? 0xDF))%N then
              if is_cont b1
              then ((b0 - 0xC0) * 64 + (b1 - 0x80))%N :: decode s2
              else lone
            else
              match s2 with
              | EmptyString => lone
              | String c2 s3 =>
                  let b2 := N_of_ascii c2 in
                  if ((0xE0 <=? b0) && (b0 <=? 0xEF))%N then
                    if second_of_three b0 b1 && is_cont b2
                    then ((b0 - 0xE0) * 4096 + (b1 - 0x80) * 64 + (b2 - 0x80))%N
                         :: decode s3
                    else lone
                  else
                    match s3 with
                    | EmptyString => lone
                    | String c3 s4 =>
                        let b3 := N_of_ascii c3 in
                        if ((0xF0 <=? b0) && (b0 <=? 0xF4))%N
                           && second_of_four b0 b1 && is_cont b2 && is_cont b3
                        then ((b0 - 0xF0) * 262144 + (b1 - 0x80) * 4096
                              + (b2 - 0x80) * 64 + (b3 - 0x80))%N :: decode s4
                        else lone
                    end
              end
        end
  end.

(** [str.isspace] on a code point (Unicode 14.0, the database of
    CPython 3.11). *)
Definition is_space (c : N) : bool :=
  ((0x09 <=? c) && (c <=? 0x0D) || (0x1C <=? c) && (c <=? 0x20)
   || (c =? 0x85) || (c =? 0xA0) || (c =? 0x1680)
   || (0x2000 <=? c) && (c <=? 0x200A)
   || (c =? 0x2028) || (c =? 0x2029) || (c =? 0x202F) || (c =? 0x205F)
   || (c =? 0x3000))%N.

(** C's [isspace] in the C locale ([Py_ISSPACE]), which is what the parser
    of [int] skips. *)
Definition is_c_space (c : N) : bool :=
  ((0x09 <=? c) && (c <=? 0x0D) || (c =? 0x20))%N.

Fixpoint lstrip (blank : N -> bool) (s : list N) : list N :=
  match s with
  | [] => []
  | c :: s' => if blank c then lstrip blank s' else s
  end.

Fixpoint rstrip (blank : N -> bool) (s : list N) : list N :=
  match s with
  | [] => []
  | c :: s' =>
      match rstrip blank s' with
      | [] => if blank c then [] else [c]
      | r => c :: r
      end
  end.

(** [s.strip()] on the code points of [s]. *)
Definition strip (s : list N) : list N := rstrip is_space (lstrip is_space s).

(** [s.split(sep)] for a one-character separator: never the empty list. *)
Fixpoint split (sep : ascii) (s : string) : list string :=
  match s with
  | EmptyString => [EmptyString]
  | String c s' =>
      if Ascii.eqb c sep then EmptyString :: split sep s'
      else match split sep s' with
           | h :: t => String c h :: t
           | [] => [String c EmptyString]
           end
  end.

(** The same on code points. *)
Fixpoint split_points (sep : N) (s : list N) : list (list N) :=
  match s with
  | [] => [[]]
  | c :: s' =>
      if (c =? sep)%N then [] :: split_points sep s'
      else match split_points sep s' with
           | h :: t => (c :: h) :: t
           | [] => [[c]]
           end
  end.

(** The digit zero of each run of ten decimal digits of Unicode 14.0. *)
Definition decimal_zeros : list N :=
  [0x30; 0x660; 0x6F0; 0x7C0; 0x966; 0x9E6; 0xA66; 0xAE6; 0xB66; 0xBE6;
   0xC66; 0xCE6; 0xD66; 0xDE6; 0xE50; 0xED0; 0xF20; 0x1040; 0x1090; 0x17E0;
   0x1810; 0x1946; 0x19D0; 0x1A80; 0x1A90; 0x1B50; 0x1BB0; 0x1C40; 0x1C50;
   0xA620; 0xA8D0; 0xA900; 0xA9D0; 0xA9F0; 0xAA50; 0xABF0; 0xFF10; 0x104A0;
   0x10D30; 0x11066; 0x110F0; 0x11136; 0x111D0; 0x112F0; 0x11450; 0x114D0;
   0x11650; 0x116C0; 0x11730; 0x118E0; 0x11950; 0x11C50; 0x11D50; 0x11DA0;
   0x16A60; 0x16AC0; 0x16B50; 0x1D7CE; 0x1D7D8; 0x1D7E2; 0x1D7EC; 0x1D7F6;
   0x1E140; 0x1E2F0; 0x1E950; 0x1FBF0]%N.

(** [Py_UNICODE_TODECIMAL] *)
Definition decimal (c : N) : option N :=
  (fun zero => c - zero)%N
    <$> List.find (fun zero => (zero <=? c) && (c <? zero + 10))%N decimal_zeros.

(** What [int] makes of each character before it parses
    ([_PyUnicode_TransformDecimalAndSpaceToASCII]): blanks become a space,
    decimal digits their ASCII digit, any other character beyond ASCII a
    question mark. *)
Definition to_ascii (c : N) : N :=
  if (c <? 127)%N then c
  else if is_space c then 0x20%N
  else match decimal c with
       | Some d => (0x30 + d)%N
       | None => 0x3F%N
       end.

Definition digit_of (c : N) : option Z :=
  if ((0x30 <=? c) && (c <=? 0x39))%N then Some (Z.of_N c - 48) else None.

(** Decimal digits, with single underscores allowed between two digits;
    [after_digit] tells whether the previous character was a digit, and
    [count] how many digits were read. *)
Fixpoint parse_digits (acc : Z) (count : N) (after_digit : bool) (s : list N)
  : option (Z * N) :=
  match s with
  | [] => if after_digit then Some (acc, count) else None
  | c :: s' =>
      match digit_of c with
      | Some d => parse_digits (10 * acc + d) (count + 1) true s'
      | None =>
          if (c =? 0x5F)%N && after_digit
          then parse_digits acc count false s'
          else None
      end
  end.

(** [sys.int_info.default_max_str_digits] *)
Definition MAX_STR_DIGITS : N := 4300.

Definition parse_number (s : list N) : option Z :=
  match parse_digits 0 0 false s with
  | Some (z, count) => if (count <=? MAX_STR_DIGITS)%N then Some z else None
  | None => None
  end.

(** [int(s)] in base ten on the code points of [s]; [None] stands for
    [ValueError]. *)
Definition int_of_points (s : list N) : option Z :=
  match rstrip is_c_space (lstrip is_c_space (map to_ascii s)) with
  | 0x2B%N :: r => parse_number r
  | 0x2D%N :: r => Z.opp <$> parse_number r
  | t => parse_number t
  end.

Definition py_int (s : string) : option Z := int_of_points (decode s).

End PyStr.

(** [str(n)] for a Python integer. *)
Definition str_of_int (n : Z) : string := NilZero.string_of_int (Z.to_int n).

(** ** The proleptic Gregorian calendar of [datetime] *)

Module Calendar.

Definition MINYEAR : Z := 1.
Definition MAXYEAR : Z := 9999.

Definition is_leap (year : Z) : bool :=
  (year mod 4 =? 0) && (negb (year mod 100 =? 0) || (year mod 400 =? 0)).

(** [_DAYS_IN_MONTH], with February of a leap year. *)
Definition days_in_month (year month : Z) : Z :=
  if (month =? 2) && is_leap year then 29
  else match month with
       | 1 => 31 | 2 => 28 | 3 => 31 | 4 => 30 | 5 => 31 | 6 => 30
       | 7 => 31 | 8 => 31 | 9 => 30 | 10 => 31 | 11 => 30 | 12 => 31
       | _ => 0
       end.

(** Days before January 1st of [year]. *)
Definition days_before_year (year : Z) : Z :=
  let y := year - 1 in
  y * 365 + y / 4 - y / 100 + y / 400.

(** Days of [year] before the first of [month]. *)
Definition days_before_month (year month : Z) : Z :=
  match month with
  | 1 => 0 | 2 => 31 | 3 => 59 | 4 => 90 | 5 => 120 | 6 => 151
  | 7 => 181 | 8 => 212 | 9 => 243 | 10 => 273 | 11 => 304 | 12 => 334
  | _ => 0
  end + (if (2 <? month) && is_leap year then 1 else 0).

Record date := mkdate { year : Z; month : Z; day : Z }.

Record time := mktime { hour : Z; minute : Z; second : Z; microsecond : Z }.

Record datetime := mkdatetime { date_of : date; time_of : time }.

(** [date.toordinal()]: 0001-01-01 is day 1. *)
Definition toordinal (d : date) : Z :=
  days_before_year (year d) + days_before_month (year d) (month d) + day d.

Definition date_ok (d : date) : bool :=
  (MINYEAR <=? year d) && (year d <=? MAXYEAR) &&
  (1 <=? month d) && (month d <=? 12) &&
  (1 <=? day d) && (day d <=? days_in_month (year d) (month d)).

Definition time_ok (t : time) : bool :=
  (0 <=? hour t) && (hour t <=? 23) &&
  (0 <=? minute t) && (minute t <=? 59) &&
  (0 <=? second t) && (second t <=? 59) &&
  (0 <=? microsecond t) && (microsecond t <=? 999999).

Definition datetime_ok (x : datetime) : bool :=
  date_ok (date_of x) && time_ok (time_of x).

(** [date.max], the last day a [date] can hold. *)
Definition date_max : date := mkdate 9999 12 31.

(** Comparison of two objects field by field, as [_cmp] on the tuples
    [(year, month, day)] and [(hour, minute, second, microsecond)]. *)
Definition lex (c1 c2 : comparison) : comparison :=
  match c1 with Eq => c2 | _ => c1 end.

Definition date_cmp (a b : date) : comparison :=
  lex (year a ?= year b) (lex (month a ?= month b) (day a ?= day b)).

Definition time_cmp (a b : time) : comparison :=
  lex (hour a ?= hour b)
    (lex (minute a ?= minute b)
       (lex (second a ?= second b) (microsecond a ?= microsecond b))).

Definition datetime_cmp (a b : datetime) : comparison :=
  lex (date_cmp (date_of a) (date_of b)) (time_cmp (time_of a) (time_of b)).

(** [a <= b] and [a < b] on datetimes. *)
Definition datetime_le (a b : datetime) : bool :=
  match datetime_cmp a b with Gt => false | _ => true end.

Definition datetime_lt (a b : datetime) : bool :=
  match datetime_cmp a b with Lt => true | _ => false end.

(** [datetime.combine(d, t)] *)
Definition combine (d : date) (t : time) : datetime := mkdatetime d t.

(** The calendar day after [d]: what [d + timedelta(days=1)] denotes when
    it is representable ([toordinal_tomorrow] below relates it to the
    ordinal); [None] stands for [OverflowError] past [date.max]. *)
Definition tomorrow (d : date) : option date :=
  if day d <? days_in_month (year d) (month d)
  then Some (mkdate (year d) (month d) (day d + 1))
  else if month d <? 12
       then Some (mkdate (year d) (month d + 1) 1)
       else if year d <? MAXYEAR
            then Some (mkdate (year d + 1) 1 1)
            else None.

(** [x + timedelta(days=1)] on a datetime: the time of day is kept. *)
Definition add_one_day (x : datetime) : option datetime :=
  (fun d => mkdatetime d (time_of x)) <$> tomorrow (date_of x).

Definition micros_of_time (t : time) : Z :=
  ((hour t * 60 + minute t) * 60 + second t) * 1000000 + microsecond t.

Definition MICROS_PER_DAY : Z := 86400 * 1000000.

(** [(a - b)] as a number of microseconds: the exact value of which
    [timedelta.total_seconds()] is the quotient by 10^6. *)
Definition micros_between (a b : datetime) : Z :=
  (toordinal (date_of a) - toordinal (date_of b)) * MICROS_PER_DAY
  + (micros_of_time (time_of a) - micros_of_time (time_of b)).

(** Zero-filled decimal rendering on [w] digits, most significant first. *)
Definition digit_char (d : Z) : ascii := ascii_of_N (48 + Z.to_N d).

Fixpoint zfill (w : nat) (n : Z) : string :=
  match w with
  | O => EmptyString
  | S w' => String (digit_char (n / 10 ^ Z.of_nat w' mod 10)) (zfill w' n)
  end.

(** The number of decimal digits of a year; a [date] holds the years 1 to
    9999. *)
Definition year_digits (y : Z) : nat :=
  if y <? 10 then 1 else if y <? 100 then 2 else if y <? 1000 then 3 else 4.

(** [x.strftime("%Y%m%d%H")] as the C library of Linux renders it: the
    year in decimal without padding (three digits for the year 999), then
    two digits of month, of day and of hour. *)
Definition strftime_YmdH (x : datetime) : string :=
  zfill (year_digits (year (date_of x))) (year (date_of x)) +:+
  zfill 2 (month (date_of x)) +:+
  zfill 2 (day (date_of x)) +:+ zfill 2 (hour (time_of x)).

End Calendar.

(** ** POSIX paths: [os.path.isabs], [os.path.join], [os.path.abspath] *)

Module PyPath.

Definition sep : ascii := "/"%char.

Definition isabs (p : string) : bool :=
  match p with String c _ => Ascii.eqb c sep | EmptyString => false end.

Fixpoint ends_with_sep (p : string) : bool :=
  match p with
  | EmptyString => false
  | String c EmptyString => Ascii.eqb c sep
  | String _ p' => ends_with_sep p'
  end.

(** [os.path.join(a, b)] *)
Definition join (a b : string) : string :=
  if isabs b then b
  else match a with
       | EmptyString => b
       | _ => if ends_with_sep a then a +:+ b else a +:+ String sep b
       end.

(** One step of the component loop of [normpath] on an absolute path; the
    components kept so far are held innermost first. *)
Definition norm_step (kept : list string) (comp : string) : list string :=
  if decide (comp = EmptyString) then kept
  else if decide (comp = ".") then kept
  else if decide (comp = "..") then tail kept
  else comp :: kept.

Definition norm_comps (comps : list string) : list string :=
  rev (fold_left norm_step comps []).

(** The components of the absolute, normalised path the operating system
    reaches from [p] when the working directory is [cwd] (an absolute
    path); symbolic links are not modelled. *)
Definition resolve (cwd p : string) : list string :=
  norm_comps (PyStr.split sep (join cwd p)).

Fixpoint render (comps : list string) : string :=
  match comps with
  | [] => EmptyString
  | c :: rest => String sep c +:+ render rest
  end.

(** [os.path.abspath(p)], as a string again. *)
Definition abspath (cwd p : string) : string :=
  match resolve cwd p with
  | [] => String sep EmptyString
  | comps => render comps
  end.

End PyPath.

(** ** Exceptions, results, events *)

(** Instances of Python's [Exception], which is what every [except Exception]
    clause of the script catches. *)
Inductive exn : Type :=
  | ValueError (msg : string)
  | OverflowError (msg : string)
  | FileNotFoundError (path : string)
  | ExternalError (cls msg : string).

(** Outcome of running a piece of the script: a value, an exception that
    propagates, or [OutOfFuel] when the bound given to an unbounded loop of
    the source is used up. *)
Inductive result (A : Type) : Type :=
  | Ok (a : A)
  | Raise (e : exn)
  | OutOfFuel.
Arguments Ok {A} a.
Arguments Raise {A} e.
Arguments OutOfFuel {A}.

(** [ModelId(namespace=..., commit=..., competition_id=...)] *)
Record ModelId := mkModelId {
  namespace : string;
  commit : string;
  competition_id : string
}.

(** The fields of [Competition.from_defaults()] the script reads. *)
Record Competition := mkCompetition { id : string; repo : string }.

(** What the script prints or logs, with the values it interpolates. *)
Inductive log_line : Type :=
  | L_force_download (namespace revision local_dir : string)
  | L_downloading (namespace revision local_dir : string)
  | L_snapshot_error (e : exn)
  | L_saving (path : string)
  | L_saved (path : string)
  | L_scheduled (run_at_dt : Calendar.datetime) (delta_micros : Z)
  | L_starting
  | L_eval_missing (path : string)
  | L_download_first
  | L_eval_exists (path : string)
  | L_submission_mode
  | L_uploaded (commit_id : string)
  | L_now_committing (m : ModelId)
  | L_committed
  | L_failed_advertise (e : exn)
  | L_retrying
  | L_run_finished (run_at : string).

(** Observable actions, in the order the script performs them. *)
Inductive event : Type :=
  | ELog (l : log_line)
  | ESleep (micros : Z)
  | ERmtree (dir : string)
  | EMakedirs (dir : string)
  | ESnapshotDownload (repo_id local_dir revision : string)
  | ERename (src dst : string)
  | ELoadJsonl (path : string)
  | EWriteFile (path : string) (lines : list string)
  | EGetRevision (namespace label : string)
  | EUpload (repo_id path : string)
  | EStoreModelMetadata (subnet_uid data : string).

(** The state the script acts on.  [fs] holds the regular files, keyed by
    the components of their absolute path, each as its sequence of lines;
    the counters say how many readings of the clock, draws of the random
    source and ledger calls were made so far. *)
Record world := mkworld {
  fs : gmap (list string) (list string);
  n_now : nat;
  n_rand : nat;
  n_announce : nat;
  trace : list event
}.

(** Parsed command line ([get_config]). *)
Record config := mkconfig {
  eval_data_dir : string;
  eval_file : string;
  submission_dir : string;
  submission_size : option Z;
  run_at : option string;
  hf_repo_id : string;
  netuid : string
}.

(** Seconds between two announce attempts ([time.sleep(120)]). *)
Definition RETRY_SECONDS : Z := 120.

Definition seconds (n : Z) : Z := n * 1000000.

(** ** State and exception monad *)

Definition M (A : Type) : Type := world -> result A * world.

Definition ret {A} (a : A) : M A := fun w => (Ok a, w).

Definition raise {A} (e : exn) : M A := fun w => (Raise e, w).

Definition out_of_fuel {A} : M A := fun w => (OutOfFuel, w).

Definition bind {A B} (c : M A) (k : A -> M B) : M B :=
  fun w =>
    match c w with
    | (Ok a, w') => k a w'
    | (Raise e, w') => (Raise e, w')
    | (OutOfFuel, w') => (OutOfFuel, w')
    end.

Notation "'let*' x := c 'in' k" := (bind c (fun x => k))
  (at level 10, x name, c at level 100, k at level 200).

(** [try: body except Exception as e: handler(e)] *)
Definition try_except {A} (body : M A) (handler : exn -> M A) : M A :=
  fun w =>
    match body w with
    | (Raise e, w') => handler e w'
    | r => r
    end.

Definition lift {A} (r : result A) : M A := fun w => (r, w).

Definition emit (e : event) : M unit :=
  fun w => (Ok tt, mkworld (fs w) (n_now w) (n_rand w) (n_announce w) (trace w ++ [e])).

Definition set_fs (f : gmap (list string) (list string)) : M unit :=
  fun w => (Ok tt, mkworld f (n_now w) (n_rand w) (n_announce w) (trace w)).

Definition get_fs : M (gmap (list string) (list string)) :=
  fun w => (Ok (fs w), w).

(** [print(...)], [bt.logging.info/success/error(...)] *)
Definition log (l : log_line) : M unit := emit (ELog l).

(** [time.sleep(secs)], the length given in microseconds. *)
Definition time_sleep (micros : Z) : M unit :=
  if micros <? 0 then raise (ValueError "sleep length must be non-negative")
  else emit (ESleep micros).

(** Exceptions propagate through pure expressions as well. *)
Global Instance result_ret : MRet result := fun _ a => Ok a.
Global Instance result_bind : MBind result := fun _ _ k r =>
  match r with
  | Ok a => k a
  | Raise e => Raise e
  | OutOfFuel => OutOfFuel
  end.

(** [int(s)] *)
Definition int (s : string) : result Z :=
  match PyStr.py_int s with
  | Some z => Ok z
  | None => Raise (ValueError ("invalid literal for int() with base 10: " +:+ s))
  end.

(** [int(p)] on a field given by its code points. *)
Definition int_of_field (p : list N) : result Z :=
  match PyStr.int_of_points p with
  | Some z => Ok z
  | None => Raise (ValueError "invalid literal for int() with base 10")
  end.

(** Conversion of an argument to a C [int], which is what the constructor
    of [datetime.time] takes: [None] when it fits, else the message of the
    [OverflowError] (C [long] being 64 bits wide). *)
Definition c_int_overflow (z : Z) : option string :=
  if (z <? - 2 ^ 63) || (2 ^ 63 <=? z)
  then Some "Python int too large to convert to C long"
  else if 2 ^ 31 <=? z then Some "signed integer is greater than maximum"
  else if z <? - 2 ^ 31 then Some "signed integer is less than minimum"
  else None.

(** [datetime.time(hour, minute, second)]: the three arguments are
    converted first, in this order, then checked for their ranges. *)
Definition dt_time (h m s : Z) : result Calendar.time :=
  match c_int_overflow h, c_int_overflow m, c_int_overflow s with
  | Some msg, _, _ | None, Some msg, _ | None, None, Some msg =>
      Raise (OverflowError msg)
  | None, None, None =>
      if negb ((0 <=? h) && (h <=? 23)) then Raise (ValueError "hour must be in 0..23")
      else if negb ((0 <=? m) && (m <=? 59))
      then Raise (ValueError "minute must be in 0..59")
      else if negb ((0 <=? s) && (s <=? 59))
      then Raise (ValueError "second must be in 0..59")
      else Ok (Calendar.mktime h m s 0)
  end.

(** [x[i], x[j] = x[j], x[i]] on a list. *)
Definition swap {A} (i j : nat) (x : list A) : list A :=
  match x !! i, x !! j with
  | Some a, Some b => <[j := a]> (<[i := b]> x)
  | _, _ => x
  end.

(** [eval_data[:k]] for a Python integer [k]: a negative [k] counts from
    the end. *)
Definition slice_to {A} (k : Z) (x : list A) : list A :=
  if 0 <=? k then take (Z.to_nat k) x
  else take (length x - Z.to_nat (- k))%nat x.

(** Lines 82-86 of [wait_until]: the instant of the next run. *)
Definition next_run (target : Calendar.time) (now : Calendar.datetime)
  : result Calendar.datetime :=
  let run_at_dt := Calendar.combine (Calendar.date_of now) target in
  if Calendar.datetime_le run_at_dt now then
    match Calendar.add_one_day run_at_dt with
    | Some r => Ok r
    | None => Raise (OverflowError "date value out of range")
    end
  else Ok run_at_dt.

(** The parsing part of [wait_until] (lines 75-81); 0x3A is the colon. *)
Definition parse_run_at (run_at : string) : result Calendar.time :=
  let parts := PyStr.split_points 0x3A (PyStr.strip (PyStr.decode run_at)) in
  match parts with
  | [p0; p1] =>
      h ← int_of_field p0; m ← int_of_field p1; dt_time h m 0
  | [p0; p1; p2] =>
      h ← int_of_field p0; m ← int_of_field p1; s ← int_of_field p2; dt_time h m s
  | _ => Raise (ValueError "--run-at must be HH:MM or HH:MM:SS")
  end.

(** ** File-system updates *)

Definition strictly_below (d k : list string) : Prop := d `prefix_of` k /\ k <> d.

Global Instance strictly_below_dec d k : Decision (strictly_below d k).
Proof. unfold strictly_below. apply _. Defined.

(** Removal of everything below directory [d]. *)
Definition purge (d : list string) (f : gmap (list string) (list string))
  : gmap (list string) (list string) :=
  filter (fun kv => ~ strictly_below d (fst kv)) f.

(** Files (relative components, lines) laid down under directory [d]. *)
Definition place (d : list string) (files : list (list string * list string))
    (f : gmap (list string) (list string)) : gmap (list string) (list string) :=
  foldr (fun rc m => <[d ++ fst rc := snd rc]> m) f files.

(** ** The script *)

Section Miner.

(** The records of a dataset are opaque JSON values. *)
Context {record : Type}.

(** The collaborators the script calls and the ambient sources it reads.
    None of them is defined in miner.py. *)
Record env := mkenv {
  (** [os.getcwd()], an absolute path *)
  env_cwd : string;
  (** the successive readings of [datetime.now()] *)
  env_clock : nat -> Calendar.datetime;
  (** the successive raw draws behind [random]'s [_randbelow] *)
  env_random : nat -> nat;
  (** [flockoff.validator.validator_utils.load_jsonl] on the lines of a file *)
  env_load_jsonl : list string -> result (list record);
  (** [json.dumps(item, sort_keys=True)] *)
  env_dumps : record -> string;
  (** [api.snapshot_download(repo_id, revision)]: the files it leaves under
      [local_dir] (relative components, lines) and the exception it ends
      with, if any *)
  env_snapshot_download :
    string -> string -> list (list string * list string) * option exn;
  (** [Competition.from_defaults()] *)
  env_competition : Competition;
  (** [constants.eval_commit] *)
  env_eval_commit : string;
  (** [get_hg_revision(namespace, label)] *)
  env_get_hg_revision : string -> string -> result string;
  (** [bt.logging], [bt.wallet], [bt.subtensor] set-up *)
  env_bittensor : result unit;
  (** [subtensor.metagraph(netuid)] *)
  env_metagraph : Z -> result unit;
  (** [assert_registered(wallet, metagraph)] *)
  env_assert_registered : result unit;
  (** [model.upload_data(repo_id, path)] on the lines found at [path] *)
  env_upload_data : string -> string -> option (list string) -> result string;
  (** [ModelId.to_compressed_str()] *)
  env_to_compressed_str : ModelId -> string;
  (** [chain.store_model_metadata(..., subnet_uid, data)]: outcome of the
      k-th call made to the ledger *)
  env_store_model_metadata : nat -> string -> string -> result unit
}.

Variable E : env.

(** *** Ambient sources *)

(** [datetime.now()] *)
Definition datetime_now : M Calendar.datetime :=
  fun w => (Ok (env_clock E (n_now w)),
            mkworld (fs w) (S (n_now w)) (n_rand w) (n_announce w) (trace w)).

(** [random._randbelow(n)], for [n > 0]: some number below [n]. *)
Definition randbelow (n : nat) : M nat :=
  fun w => (Ok (env_random E (n_rand w) mod n)%nat,
            mkworld (fs w) (n_now w) (S (n_rand w)) (n_announce w) (trace w)).

(** The loop of [random.shuffle]:
    [for i in reversed(range(1, len(x))): j = randbelow(i + 1); swap]. *)
Fixpoint shuffle_from (i : nat) (x : list record) : M (list record) :=
  match i with
  | O => ret x
  | S i' => let* j := randbelow (S i) in shuffle_from i' (swap i j x)
  end.

Definition random_shuffle (x : list record) : M (list record) :=
  shuffle_from (length x - 1)%nat x.

(** *** File system *)

Definition key (p : string) : list string := PyPath.resolve (env_cwd E) p.

(** [os.path.exists(p)] for a regular file. *)
Definition os_path_exists (p : string) : M bool :=
  fun w => (Ok (bool_decide (is_Some (fs w !! key p))), w).

(** [shutil.rmtree(d, ignore_errors=True)]: everything below [d] goes; on
    a regular file the call fails and the failure is ignored. *)
Definition shutil_rmtree (d : string) : M unit :=
  let* _ := emit (ERmtree d) in
  let* f := get_fs in
  set_fs (purge (key d) f).

(** [os.makedirs(d, exist_ok=True)].  Directories hold no data here, and
    those the script is configured with are taken to be free for creation:
    the errors of a regular file standing at [d] or above it
    ([FileExistsError], [NotADirectoryError]) are left out. *)
Definition os_makedirs (d : string) : M unit := emit (EMakedirs d).

(** [os.rename(src, dst)] *)
Definition os_rename (src dst : string) : M unit :=
  let* _ := emit (ERename src dst) in
  let* f := get_fs in
  match f !! key src with
  | None => raise (FileNotFoundError src)
  | Some lines => set_fs (<[key dst := lines]> (delete (key src) f))
  end.

(** [load_jsonl(path)] *)
Definition load_jsonl (path : string) : M (list record) :=
  let* _ := emit (ELoadJsonl path) in
  let* f := get_fs in
  match f !! key path with
  | None => raise (FileNotFoundError path)
  | Some lines => lift (env_load_jsonl E lines)
  end.

(** [json.dumps(item, sort_keys=True) + "\n"] *)
Definition jsonl_line (item : record) : string :=
  env_dumps E item +:+ String "010" EmptyString.

(** [with open(path, "w") as f: for item in items: f.write(jsonl_line(item))] *)
Definition write_jsonl (path : string) (items : list record) : M unit :=
  let lines := map jsonl_line items in
  let* _ := emit (EWriteFile path lines) in
  let* f := get_fs in
  set_fs (<[key path := lines]> f).

(** [api.snapshot_download(repo_id, local_dir, revision, repo_type="dataset")] *)
Definition snapshot_download (repo_id local_dir revision : string) : M unit :=
  let* _ := emit (ESnapshotDownload repo_id local_dir revision) in
  let* f := get_fs in
  let '(files, failure) := env_snapshot_download E repo_id revision in
  let* _ := set_fs (place (key local_dir) files f) in
  match failure with
  | Some e => raise e
  | None => ret tt
  end.

(** *** download_dataset (lines 22-40) *)

(** Lines 25-26: the directory made absolute. *)
Definition absolute (local_dir : string) : string :=
  if negb (PyPath.isabs local_dir)
  then PyPath.abspath (env_cwd E) local_dir else local_dir.

Definition download_dataset (namespace revision local_dir : string) (force : bool)
  : M unit :=
  let local_dir := absolute local_dir in
  let* _ := (if force then
          let* _ := log (L_force_download namespace revision local_dir) in
          shutil_rmtree local_dir
        else ret tt) in
  let* _ := os_makedirs local_dir in
  let* _ := log (L_downloading namespace revision local_dir) in
  try_except
    (snapshot_download namespace local_dir revision)
    (fun e => log (L_snapshot_error e)).

(** *** load_dataset (lines 44-54) *)

Definition get_hg_revision (namespace label : string) : M string :=
  let* _ := emit (EGetRevision namespace label) in
  lift (env_get_hg_revision E namespace label).

Definition load_dataset (eval_data_dir eval_file : string) : M unit :=
  let competition := env_competition E in
  let eval_namespace := repo competition in
  let* main_commit_id := get_hg_revision eval_namespace (env_eval_commit E) in
  let* _ := download_dataset eval_namespace main_commit_id eval_data_dir true in
  os_rename (PyPath.join eval_data_dir "data.jsonl")
            (PyPath.join eval_data_dir eval_file).

(** *** make_submission (lines 56-70) *)

Definition submission_file_name (date : string) (submission_size : option Z) : string :=
  match submission_size with
  | Some k => "submission_" +:+ date +:+ "_" +:+ str_of_int k +:+ ".jsonl"
  | None => "submission_" +:+ date +:+ ".jsonl"
  end.

Definition make_submission
    (eval_data_dir eval_file submission_dir : string) (submission_size : option Z)
  : M string :=
  let* eval_data := load_jsonl (PyPath.join eval_data_dir eval_file) in
  let* eval_data := random_shuffle eval_data in
  let eval_data :=
    match submission_size with
    | Some k => slice_to k eval_data
    | None => eval_data
    end in
  let* _ := os_makedirs submission_dir in
  let* now := datetime_now in
  let date := Calendar.strftime_YmdH now in
  let submission_file := submission_file_name date submission_size in
  let* _ := log (L_saving (PyPath.join submission_dir submission_file)) in
  let* _ := write_jsonl (PyPath.join submission_dir submission_file) eval_data in
  let* _ := log (L_saved (PyPath.join submission_dir submission_file)) in
  ret (PyPath.join submission_dir submission_file).

(** *** wait_until (lines 72-89) *)

Definition wait_until (run_at : string) : M unit :=
  let* target := lift (parse_run_at run_at) in
  let* now := datetime_now in
  let* run_at_dt := lift (next_run target now) in
  let delta := Calendar.micros_between run_at_dt now in
  let* _ := log (L_scheduled run_at_dt delta) in
  time_sleep delta.

(** *** main (lines 124-176) *)

Definition store_model_metadata (subnet_uid data : string) : M unit :=
  fun w =>
    (env_store_model_metadata E (n_announce w) subnet_uid data,
     mkworld (fs w) (n_now w) (n_rand w) (S (n_announce w))
             (trace w ++ [EStoreModelMetadata subnet_uid data])).

Definition upload_data (repo_id path : string) : M string :=
  let* _ := emit (EUpload repo_id path) in
  let* f := get_fs in
  lift (env_upload_data E repo_id path (f !! key path)).

(** One turn of the [while True] loop of lines 162-176: [true] when the
    turn ends in [break]. *)
Definition commit_attempt (subnet_uid : string) (m : ModelId) : M bool :=
  try_except
    (let* _ := store_model_metadata subnet_uid (env_to_compressed_str E m) in
     let* _ := log L_committed in
     ret true)
    (fun e =>
       let* _ := log (L_failed_advertise e) in
       let* _ := log L_retrying in
       let* _ := time_sleep (seconds RETRY_SECONDS) in
       ret false).

Fixpoint commit_loop (fuel : nat) (subnet_uid : string) (m : ModelId) : M unit :=
  match fuel with
  | O => out_of_fuel
  | S fuel' =>
      let* finished := commit_attempt subnet_uid m in
      if finished : bool then ret tt else commit_loop fuel' subnet_uid m
  end.

Definition eval_file_name (now : string) : string :=
  "eval_data_" +:+ now +:+ ".jsonl".

(** Lines 136-143: the refresh gate. *)
Definition refresh_gate (cfg : config) : M string :=
  let* now := datetime_now in
  let now := Calendar.strftime_YmdH now in
  let eval_file := eval_file_name now in
  let* found := os_path_exists (PyPath.join (eval_data_dir cfg) eval_file) in
  let* _ := (if negb found then
          let* _ := log (L_eval_missing (PyPath.join (eval_data_dir cfg) eval_file)) in
          let* _ := log L_download_first in
          load_dataset (eval_data_dir cfg) eval_file
        else
          log (L_eval_exists (PyPath.join (eval_data_dir cfg) eval_file))) in
  ret eval_file.

Definition main (fuel : nat) (cfg : config) : M unit :=
  let* _ := lift (env_bittensor E) in
  let* uid := lift (int (netuid cfg)) in
  let* _ := lift (env_metagraph E uid) in
  let* _ := log L_starting in
  let* _ := lift (env_assert_registered E) in
  let* eval_file := refresh_gate cfg in
  let* _ := log L_submission_mode in
  let* submission_file_path :=
    make_submission (eval_data_dir cfg) eval_file (submission_dir cfg) None in
  let* commit_id := upload_data (hf_repo_id cfg) submission_file_path in
  let* _ := log (L_uploaded commit_id) in
  let competition := env_competition E in
  let model_id_with_commit :=
    mkModelId (hf_repo_id cfg) commit_id (id competition) in
  let* _ := log (L_now_committing model_id_with_commit) in
  commit_loop fuel (netuid cfg) model_id_with_commit.

(** *** The entry point (lines 179-187) *)

Fixpoint daily_loop (fuel : nat) (cfg : config) (at_ : string) : M unit :=
  match fuel with
  | O => out_of_fuel
  | S fuel' =>
      let* _ := wait_until at_ in
      let* _ := main fuel cfg in
      let* _ := log (L_run_finished at_) in
      daily_loop fuel' cfg at_
  end.

Definition script (fuel : nat) (cfg : config) : M unit :=
  match run_at cfg with
  | Some at_ =>
      if decide (at_ = EmptyString) then main fuel cfg
      else daily_loop fuel cfg at_
  | None => main fuel cfg
  end.

End Miner.

Arguments env : clear implicits.

(** The world a run starts from: a file system and nothing observed yet. *)
Definition initial_world (f : gmap (list string) (list string)) : world :=
  mkworld f 0 0 0 [].

(** ** Vocabulary of the properties *)

(** Two instants of the same calendar hour. *)
Definition same_calendar_hour (x y : Calendar.datetime) : Prop :=
  Calendar.date_of x = Calendar.date_of y /\
  Calendar.hour (Calendar.time_of x) = Calendar.hour (Calendar.time_of y).

Definition in_range (lo hi z : Z) : bool := (lo <=? z) && (z <=? hi).

(** The fields of a schedule: the string without the blanks around it,
    cut at its colons, each field read by [int] ([None] when it is no
    integer). *)
Definition schedule_fields (s : string) : list (option Z) :=
  map PyStr.int_of_points
    (PyStr.split_points 0x3A (PyStr.strip (PyStr.decode s))).

(** A schedule is well formed when it is made of two or three fields
    separated by colons, each an integer for [int], the hour within 0..23,
    the minute and the second within 0..59. *)
Definition well_formed_schedule (s : string) : bool :=
  match schedule_fields s with
  | [Some h; Some m] => in_range 0 23 h && in_range 0 59 m
  | [Some h; Some m; Some sec] =>
      in_range 0 23 h && in_range 0 59 m && in_range 0 59 sec
  | _ => false
  end.

(** The errors a schedule can end with: [ValueError], or [OverflowError]
    when one of its fields is an integer that no C [int] holds. *)
Definition schedule_error (s : string) (e : exn) : Prop :=
  match e with
  | ValueError _ => True
  | OverflowError _ =>
      exists z, Some z ∈ schedule_fields s /\ in_range (- 2 ^ 31) (2 ^ 31 - 1) z = false
  | _ => False
  end.

(** The events of an announce attempt that fails with [e], and of one that
    succeeds. *)
Definition retry_events (uid payload : string) (e : exn) : list event :=
  [EStoreModelMetadata uid payload; ELog (L_failed_advertise e);
   ELog L_retrying; ESleep (seconds RETRY_SECONDS)].

Definition success_events (uid payload : string) : list event :=
  [EStoreModelMetadata uid payload; ELog L_committed].

(** The events of the retry loop when the attempts fail with [errs], in
    this order, and the next one succeeds. *)
Definition commit_trace (uid payload : string) (errs : list exn) : list event :=
  concat (map (retry_events uid payload) errs) ++ success_events uid payload.

Definition is_announce (e : event) : bool :=
  match e with EStoreModelMetadata _ _ => true | _ => false end.

Definition is_sleep (e : event) : bool :=
  match e with ESleep _ => true | _ => false end.

Definition is_write (e : event) : bool :=
  match e with EWriteFile _ _ => true | _ => false end.

Definition is_upload (e : event) : bool :=
  match e with EUpload _ _ => true | _ => false end.

(** The records written, given the shuffled dataset and the size asked. *)
Definition written_items {A} (size : option Z) (shuffled : list A) : list A :=
  match size with
  | Some k => slice_to k shuffled
  | None => shuffled
  end.

(** A file name: one non-empty path component other than "." and "..". *)
Fixpoint no_sep (s : string) : bool :=
  match s with
  | EmptyString => true
  | String c s' => negb (Ascii.eqb c PyPath.sep) && no_sep s'
  end.

Definition plain_name (f : string) : bool :=
  no_sep f && bool_decide (f <> EmptyString) &&
  bool_decide (f <> ".") && bool_decide (f <> "..").

(** The line [download_dataset] prints when the snapshot download fails. *)
Definition failure_log (failure : option exn) : list event :=
  match failure with
  | Some e => [ELog (L_snapshot_error e)]
  | None => []
  end.

(** [c], started in [w], adds to the trace only events satisfying [P]. *)
Definition emits_at {A} (c : M A) (w : world) (P : event -> Prop) : Prop :=
  exists new, trace (snd (c w)) = trace w ++ new /\ Forall P new.

Definition is_commit_event (e : event) : Prop :=
  match e with
  | EStoreModelMetadata _ _ | ELog _ | ESleep _ => True
  | _ => False
  end.

Definition is_gate_event (dir path : string) (e : event) : Prop :=
  match e with
  | ELog _ | EGetRevision _ _ | ERmtree _ | EMakedirs _
  | ESnapshotDownload _ _ _ => True
  | ERename src dst => src = PyPath.join dir "data.jsonl" /\ dst = path
  | _ => False
  end.

Definition is_submission_event (in_path sdir out_path : string) (e : event) : Prop :=
  match e with
  | ELog _ => True
  | ELoadJsonl p => p = in_path
  | EMakedirs d => d = sdir
  | EWriteFile p _ => p = out_path
  | _ => False
  end.

(** The actions of a dataset refresh ([load_dataset], [download_dataset]). *)
Definition is_fetch (e : event) : bool :=
  match e with
  | EGetRevision _ _ | ERmtree _ | ESnapshotDownload _ _ _ | ERename _ _ => true
  | _ => false
  end.

(** What a run may name, given the path of the eval file built from the
    reading of the clock taken in [main], and the key of the reading taken
    in [make_submission]: the submission file is named after that key, with
    or without a size. *)
Definition names_follow_clock (eval_path sdir k2 : string) (e : event) : Prop :=
  match e with
  | ELoadJsonl p => p = eval_path
  | ERename _ dst => dst = eval_path
  | EWriteFile p _ | EUpload _ p =>
      exists size, p = PyPath.join sdir (submission_file_name k2 size)
  | _ => True
  end.

Section Vocabulary.
Context {record : Type} (E : env record).

(** The period key a reading of the clock in [w] would give. *)
Definition period_key (w : world) : string :=
  Calendar.strftime_YmdH (env_clock E (n_now w)).

(** What a run may do when the eval file of the period holds [lines]:
    no action of a refresh, the file at [path] is the one loaded, and what
    is written is a rearrangement of its records. *)
Definition uses_existing_file (path : string) (lines : list string) (e : event) : Prop :=
  is_fetch e = false /\
  match e with
  | ELoadJsonl p => p = path
  | EWriteFile _ out =>
      exists data shuffled,
        env_load_jsonl E lines = Ok data /\ shuffled ≡ₚ data /\
        out = map (jsonl_line E) shuffled
  | _ => True
  end.
End Vocabulary.

(** ** Sample runs *)

Module Sample.

Definition at_ (y mo d h mi s : Z) : Calendar.datetime :=
  Calendar.mkdatetime (Calendar.mkdate y mo d) (Calendar.mktime h mi s 0).

(** A miner whose collaborators all answer; records are JSON texts.  The
    clock, the outcomes of the ledger and of the snapshot download vary. *)
Definition miner_env
    (clock : nat -> Calendar.datetime)
    (ledger : nat -> result unit)
    (snapshot : list (list string * list string) * option exn) : env string :=
  {| env_cwd := "/home/miner";
     env_clock := clock;
     env_random := fun k => (7 * k + 3)%nat;
     env_load_jsonl := fun lines => Ok lines;
     env_dumps := fun r => r;
     env_snapshot_download := fun _ _ => snapshot;
     env_competition := mkCompetition "1" "flock-io/eval-data";
     env_eval_commit := "main";
     env_get_hg_revision := fun _ _ => Ok "abc123";
     env_bittensor := Ok tt;
     env_metagraph := fun _ => Ok tt;
     env_assert_registered := Ok tt;
     env_upload_data := fun _ _ _ => Ok "c0ffee";
     env_to_compressed_str := fun m =>
       namespace m +:+ ":" +:+ commit m +:+ ":" +:+ competition_id m;
     env_store_model_metadata := fun k _ _ => ledger k |}.

Definition accepting (k : nat) : result unit := Ok tt.

(** A ledger that rejects the first two calls. *)
Definition too_soon : exn := ExternalError "Exception" "too soon".

Definition twice_rejecting (k : nat) : result unit :=
  match k with
  | 0%nat | 1%nat => Raise too_soon
  | _ => Ok tt
  end.

Definition no_snapshot : list (list string * list string) * option exn := ([], None).

Definition failed_snapshot : list (list string * list string) * option exn :=
  ([], Some (ExternalError "ConnectionError" "unreachable")).

Definition cfg (size : option Z) : config :=
  mkconfig "data/eval_data" "data.jsonl" "data/submissions" size None
           "miner/submissions" "96".

Definition eval_key (name : string) : list string :=
  ["home"; "miner"; "data"; "eval_data"; name].

Definition submission_key (name : string) : list string :=
  ["home"; "miner"; "data"; "submissions"; name].

(** One o'clock sharp, all day. *)
Definition one_pm : Calendar.datetime := at_ 2026 11 4 13 0 0.

Definition steady (k : nat) : Calendar.datetime := one_pm.

(** A clock read just before and just after two o'clock. *)
Definition across_the_hour (k : nat) : Calendar.datetime :=
  match k with
  | O => at_ 2026 11 4 13 59 59
  | _ => at_ 2026 11 4 14 0 5
  end.

(** Noon of the last day a [date] can hold. *)
Definition last_noon : Calendar.datetime := at_ 9999 12 31 12 0 0.

Definition four_records : list string := ["{a}"; "{b}"; "{c}"; "{d}"].

(** The eval file of the one-o'clock period, with four records. *)
Definition small_fs : gmap (list string) (list string) :=
  {[ eval_key "eval_data_2026110413.jsonl" := four_records ]}.

(** Only files of earlier periods and notes are there. *)
Definition stale_fs : gmap (list string) (list string) :=
  {[ eval_key "eval_data_2026110412.jsonl" := four_records;
     eval_key "notes.txt" := ["keep"] ]}.

(** The eval file of the period holds ten thousand records. *)
Definition ten_thousand : list string := replicate (100 * 100) "{}".

Definition large_fs : gmap (list string) (list string) :=
  {[ eval_key "eval_data_2026110413.jsonl" := ten_thousand ]}.

End Sample.

(** ** Vocabulary of the further properties *)

Definition is_rmtree (e : event) : bool :=
  match e with ERmtree _ => true | _ => false end.

(** What the retry loop may do, for the announce of [payload] on subnet
    [uid]: the ledger call with these very arguments, its three status
    lines, and the pause of [RETRY_SECONDS]. *)
Definition is_retry_event (uid payload : string) (e : event) : Prop :=
  match e with
  | EStoreModelMetadata u d => u = uid /\ d = payload
  | ESleep t => t = seconds RETRY_SECONDS
  | ELog l => l = L_committed \/ l = L_retrying \/ exists x, l = L_failed_advertise x
  | _ => False
  end.

(** Neither a ledger call nor a pause. *)
Definition before_announce (e : event) : Prop :=
  is_announce e = false /\ is_sleep e = false.

(** [c], started in [w], has added only events satisfying [P] whenever it
    ends with an exception. *)
Definition raises_after {A} (c : M A) (w : world) (P : event -> Prop) : Prop :=
  forall e w', c w = (Raise e, w') ->
  exists new, trace w' = trace w ++ new /\ Forall P new.

(** The schedule formats the command line documents: HH:MM and HH:MM:SS. *)
Definition format_HM (h m : Z) : string :=
  Calendar.zfill 2 h +:+ ":" +:+ Calendar.zfill 2 m.

Definition format_HMS (h m s : Z) : string :=
  Calendar.zfill 2 h +:+ ":" +:+ Calendar.zfill 2 m +:+ ":" +:+ Calendar.zfill 2 s.

(** ** Further sample runs *)

Module MoreSamples.

(** A snapshot that delivers [data.jsonl] with four records. *)
Definition fresh_snapshot : list (list string * list string) * option exn :=
  ([(["data.jsonl"], Sample.four_records)], None).

(** A download that breaks off after [data.jsonl] was written. *)
Definition interrupted_snapshot : list (list string * list string) * option exn :=
  ([(["data.jsonl"], ["{a}"])], Some (ExternalError "ConnectionError" "reset")).

(** A ledger that rejects every call. *)
Definition always_rejecting (k : nat) : result unit := Raise Sample.too_soon.

(** An earlier submission lies beside the stale eval files. *)
Definition busy_fs : gmap (list string) (list string) :=
  <[ Sample.submission_key "submission_2026110412.jsonl" := ["{a}"] ]> Sample.stale_fs.

(** A miner whose repository refuses the upload. *)
Definition refused : exn := ExternalError "HfHubHTTPError" "403 Forbidden".

Definition miner_env_no_upload : env string :=
  {| env_cwd := "/home/miner";
     env_clock := Sample.steady;
     env_random := fun k => (7 * k + 3)%nat;
     env_load_jsonl := fun lines => Ok lines;
     env_dumps := fun r => r;
     env_snapshot_download := fun _ _ => Sample.no_snapshot;
     env_competition := mkCompetition "1" "flock-io/eval-data";
     env_eval_commit := "main";
     env_get_hg_revision := fun _ _ => Ok "abc123";
     env_bittensor := Ok tt;
     env_metagraph := fun _ => Ok tt;
     env_assert_registered := Ok tt;
     env_upload_data := fun _ _ _ => Raise refused;
     env_to_compressed_str := fun m =>
       namespace m +:+ ":" +:+ commit m +:+ ":" +:+ competition_id m;
     env_store_model_metadata := fun k _ _ => Ok tt |}.

(** A miner whose revision lookup fails. *)
Definition unknown_revision : exn := ExternalError "RevisionNotFoundError" "main".

Definition miner_env_no_revision : env string :=
  {| env_cwd := "/home/miner";
     env_clock := Sample.steady;
     env_random := fun k => (7 * k + 3)%nat;
     env_load_jsonl := fun lines => Ok lines;
     env_dumps := fun r => r;
     env_snapshot_download := fun _ _ => Sample.no_snapshot;
     env_competition := mkCompetition "1" "flock-io/eval-data";
     env_eval_commit := "main";
     env_get_hg_revision := fun _ _ => Raise unknown_revision;
     env_bittensor := Ok tt;
     env_metagraph := fun _ => Ok tt;
     env_assert_registered := Ok tt;
     env_upload_data := fun _ _ _ => Ok "c0ffee";
     env_to_compressed_str := fun m =>
       namespace m +:+ ":" +:+ commit m +:+ ":" +:+ competition_id m;
     env_store_model_metadata := fun k _ _ => Ok tt |}.

(** A clock read at the start and at the end of one hour. *)
Definition within_the_hour (k : nat) : Calendar.datetime :=
  match k with
  | O => Sample.at_ 2026 11 4 13 0 0
  | _ => Sample.at_ 2026 11 4 13 59 59
  end.

(** A clock read in the last hour of the year 999 and in the first of the
    year 1000. *)
Definition turn_of_1000 (k : nat) : Calendar.datetime :=
  match k with
  | O => Sample.at_ 999 12 31 23 0 0
  | _ => Sample.at_ 1000 1 1 0 0 0
  end.

(** The world after one reading of the clock and nothing else. *)
Definition second_reading : world := mkworld ∅ 1 0 0 [].

(** A subnet identifier that is no number. *)
Definition cfg_bad_netuid : config :=
  mkconfig "data/eval_data" "data.jsonl" "data/submissions" None None
           "miner/submissions" "ninety-six".

(** A run scheduled daily at [at_]. *)
Definition scheduled (at_ : string) : config :=
  mkconfig "data/eval_data" "data.jsonl" "data/submissions" None (Some at_)
           "miner/submissions" "96".

End MoreSamples.

(** * Properties *)

(** Unfolding of the monadic plumbing. *)
Ltac mrun :=
  repeat progress
    (unfold bind, ret, raise, lift, log, emit, try_except, get_fs, set_fs;
     cbn [fs n_now n_rand n_announce trace fst snd]).

(** The world after a step that is known to have returned. *)
Ltac after_step H w' :=
  apply (f_equal snd) in H; unfold lift, log, emit in H; cbn [snd] in H; subst w'.

Import Calendar PyPath.

(** ** Strings in lexicographic order *)

Lemma string_app_nil (b : string) : EmptyString +:+ b = b.
Proof. reflexivity. Qed.

Lemma string_app_cons (c : ascii) (a b : string) :
  String c a +:+ b = String c (a +:+ b).
Proof. reflexivity. Qed.

Lemma string_length_app (a b : string) :
  String.length (a +:+ b) = (String.length a + String.length b)%nat.
Proof.
  induction a as [|c a IH]; [reflexivity|].
  rewrite string_app_cons. cbn [String.length]. rewrite IH. reflexivity.
Qed.

Lemma string_app_inv_tail (a b s : string) : a +:+ s = b +:+ s -> a = b.
Proof.
  revert b. induction a as [|c a IH]; intros [|c' b] H.
  - reflexivity.
  - apply (f_equal String.length) in H.
    rewrite string_app_nil, string_app_cons in H. cbn [String.length] in H.
    rewrite string_length_app in H. lia.
  - apply (f_equal String.length) in H.
    rewrite string_app_nil, string_app_cons in H. cbn [String.length] in H.
    rewrite string_length_app in H. lia.
  - rewrite !string_app_cons in H. injection H as -> H. f_equal. apply IH. exact H.
Qed.

Lemma string_compare_app (a1 a2 b1 b2 : string) :
  String.length a1 = String.length a2 ->
  String.compare (a1 +:+ b1) (a2 +:+ b2)
  = lex (String.compare a1 a2) (String.compare b1 b2).
Proof.
  revert a2. induction a1 as [|c a1 IH]; intros [|c2 a2] Hlen; cbn in Hlen;
    try discriminate.
  - reflexivity.
  - rewrite !string_app_cons. cbn [String.compare].
    destruct (Ascii.compare c c2); cbn [lex];
      [apply IH; congruence | reflexivity | reflexivity].
Qed.

Lemma string_compare_refl_iff (a b : string) :
  String.compare a b = Eq <-> a = b.
Proof.
  split; [apply String.compare_eq_iff|].
  intros ->. induction b as [|c b IH]; simpl; [reflexivity|].
  unfold Ascii.compare. rewrite N.compare_refl. exact IH.
Qed.

Lemma digit_char_compare (d1 d2 : Z) :
  0 <= d1 < 10 -> 0 <= d2 < 10 ->
  Ascii.compare (digit_char d1) (digit_char d2) = (d1 ?= d2).
Proof.
  intros H1 H2. unfold Ascii.compare, digit_char.
  rewrite !N_ascii_embedding by lia.
  rewrite <- N2Z.inj_compare, !N2Z.inj_add, !Z2N.id by lia.
  destruct (Z.compare_spec d1 d2) as [H|H|H];
    [apply Z.compare_eq_iff | apply Z.compare_lt_iff | apply Z.compare_gt_iff]; lia.
Qed.

Lemma zfill_length (w : nat) (n : Z) : String.length (zfill w n) = w.
Proof. induction w as [|w IH]; simpl; congruence. Qed.

(** On [w] digits, the order of the renderings is the order of the numbers. *)
Lemma zfill_compare (w : nat) (a b : Z) :
  0 <= a -> 0 <= b ->
  String.compare (zfill w a) (zfill w b)
  = (a mod 10 ^ Z.of_nat w ?= b mod 10 ^ Z.of_nat w).
Proof.
  intros Ha Hb. induction w as [|w IH].
  - simpl. rewrite !Z.mod_1_r. reflexivity.
  - cbn [zfill String.compare].
    assert (Hp : 0 < 10 ^ Z.of_nat w) by (apply Z.pow_pos_nonneg; lia).
    rewrite digit_char_compare by (apply Z.mod_pos_bound; lia).
    rewrite IH.
    replace (Z.of_nat (S w)) with (Z.of_nat w + 1) by lia.
    rewrite Z.pow_add_r, Z.pow_1_r by lia.
    rewrite !(Z.mul_comm (10 ^ Z.of_nat w) 10).
    rewrite !(Z.mul_comm 10 (10 ^ Z.of_nat w)).
    rewrite !Z.rem_mul_r by lia.
    set (P := 10 ^ Z.of_nat w) in *.
    pose proof (Z.mod_pos_bound a P Hp). pose proof (Z.mod_pos_bound b P Hp).
    pose proof (Z.mod_pos_bound (a / P) 10 ltac:(lia)).
    pose proof (Z.mod_pos_bound (b / P) 10 ltac:(lia)).
    destruct (Z.compare_spec (a / P mod 10) (b / P mod 10)) as [He|Hl|Hg].
    + rewrite He. destruct (Z.compare_spec (a mod P) (b mod P));
        symmetry; [apply Z.compare_eq_iff | apply Z.compare_lt_iff | apply Z.compare_gt_iff]; nia.
    + symmetry; apply Z.compare_lt_iff; nia.
    + symmetry; apply Z.compare_gt_iff; nia.
Qed.

Lemma days_in_month_le_31 (y m : Z) : days_in_month y m <= 31.
Proof.
  unfold days_in_month. destruct ((m =? 2) && is_leap y); [lia|].
  destruct m as [|p|p]; try lia.
  do 4 (destruct p as [p|p|]; try lia).
Qed.

Lemma datetime_ok_bounds (x : datetime) :
  datetime_ok x = true ->
  1 <= year (date_of x) <= 9999 /\ 1 <= month (date_of x) <= 12 /\
  1 <= day (date_of x) <= days_in_month (year (date_of x)) (month (date_of x)) /\
  0 <= hour (time_of x) <= 23 /\ 0 <= minute (time_of x) <= 59 /\
  0 <= second (time_of x) <= 59 /\ 0 <= microsecond (time_of x) <= 999999.
Proof.
  unfold datetime_ok, date_ok, time_ok, MINYEAR, MAXYEAR.
  rewrite !andb_true_iff, !Z.leb_le. lia.
Qed.

(** A year has the digits it is written on. *)
Lemma year_below_power (y : Z) :
  1 <= y <= 9999 -> y < 10 ^ Z.of_nat (year_digits y).
Proof.
  intros Hy. unfold year_digits.
  destruct (Z.ltb_spec y 10); [change (10 ^ Z.of_nat 1) with 10; lia|].
  destruct (Z.ltb_spec y 100); [change (10 ^ Z.of_nat 2) with 100; lia|].
  destruct (Z.ltb_spec y 1000); [change (10 ^ Z.of_nat 3) with 1000; lia|].
  change (10 ^ Z.of_nat 4) with 10000. lia.
Qed.

Lemma strftime_YmdH_length (x : datetime) :
  String.length (strftime_YmdH x) = (year_digits (year (date_of x)) + 6)%nat.
Proof.
  unfold strftime_YmdH. rewrite !string_length_app, !zfill_length. reflexivity.
Qed.

(** Between years written on the same number of digits, the order of two
    period keys is the order of (year, month, day, hour). *)
Lemma strftime_YmdH_compare (x y : datetime) :
  datetime_ok x = true -> datetime_ok y = true ->
  year_digits (year (date_of x)) = year_digits (year (date_of y)) ->
  String.compare (strftime_YmdH x) (strftime_YmdH y)
  = lex (year (date_of x) ?= year (date_of y))
      (lex (month (date_of x) ?= month (date_of y))
         (lex (day (date_of x) ?= day (date_of y))
            (hour (time_of x) ?= hour (time_of y)))).
Proof.
  intros Hx Hy Hlen.
  apply datetime_ok_bounds in Hx, Hy.
  pose proof (days_in_month_le_31 (year (date_of x)) (month (date_of x))).
  pose proof (days_in_month_le_31 (year (date_of y)) (month (date_of y))).
  pose proof (year_below_power (year (date_of x)) ltac:(lia)) as Bx.
  pose proof (year_below_power (year (date_of y)) ltac:(lia)) as By.
  unfold strftime_YmdH. rewrite Hlen in *.
  rewrite !string_compare_app by (rewrite !zfill_length; reflexivity).
  rewrite !zfill_compare by lia.
  change (10 ^ Z.of_nat 2) with 100.
  rewrite !Z.mod_small by lia. reflexivity.
Qed.

(** Keys of the same hour are equal, keys of different hours differ, and
    between years written on the same number of digits a later reading
    never gives a smaller key. *)
Lemma strftime_YmdH_order (x y : datetime) :
  datetime_ok x = true -> datetime_ok y = true ->
  (same_calendar_hour x y -> strftime_YmdH x = strftime_YmdH y) /\
  (~ same_calendar_hour x y -> strftime_YmdH x <> strftime_YmdH y) /\
  (year_digits (year (date_of x)) = year_digits (year (date_of y)) ->
   datetime_le x y = true ->
   String.leb (strftime_YmdH x) (strftime_YmdH y) = true).
Proof.
  intros Hx Hy. split; [|split].
  - intros [Hd Hh]. unfold strftime_YmdH. rewrite Hd, Hh. reflexivity.
  - intros Hne Heq. apply Hne.
    assert (Hlen : year_digits (year (date_of x)) = year_digits (year (date_of y))).
    { apply (f_equal String.length) in Heq.
      rewrite !strftime_YmdH_length in Heq. lia. }
    apply string_compare_refl_iff in Heq.
    rewrite strftime_YmdH_compare in Heq by assumption.
    unfold same_calendar_hour.
    destruct x as [[y1 m1 d1] t1], y as [[y2 m2 d2] t2]; cbn in *.
    destruct (Z.compare_spec y1 y2); cbn in Heq; try discriminate.
    destruct (Z.compare_spec m1 m2); cbn in Heq; try discriminate.
    destruct (Z.compare_spec d1 d2); cbn in Heq; try discriminate.
    apply Z.compare_eq_iff in Heq. split; congruence.
  - intros Hlen Hle. unfold String.leb.
    rewrite strftime_YmdH_compare by assumption.
    unfold datetime_le, datetime_cmp, date_cmp, time_cmp in Hle.
    destruct (year (date_of x) ?= year (date_of y)); cbn in *; try done.
    destruct (month (date_of x) ?= month (date_of y)); cbn in *; try done.
    destruct (day (date_of x) ?= day (date_of y)); cbn in *; try done.
    destruct (hour (time_of x) ?= hour (time_of y)); cbn in *; done.
Qed.

(** ** Calendar arithmetic *)
Lemma is_leap_spec (y : Z) :
  is_leap y = true <-> y mod 4 = 0 /\ (y mod 100 <> 0 \/ y mod 400 = 0).
Proof.
  unfold is_leap.
  rewrite andb_true_iff, orb_true_iff, negb_true_iff, !Z.eqb_eq, Z.eqb_neq.
  reflexivity.
Qed.

Lemma days_before_year_succ (y : Z) :
  days_before_year (y + 1)
  = days_before_year y + (if is_leap y then 366 else 365).
Proof.
  unfold days_before_year.
  replace (y + 1 - 1) with y by lia.
  destruct (is_leap y) eqn:Hl.
  - apply is_leap_spec in Hl. Z.to_euclidean_division_equations. lia.
  - assert (Hn : ~ (y mod 4 = 0 /\ (y mod 100 <> 0 \/ y mod 400 = 0))).
    { rewrite <- is_leap_spec. congruence. }
    Z.to_euclidean_division_equations. lia.
Qed.

Lemma days_before_month_succ (y m : Z) :
  1 <= m < 12 ->
  days_before_month y (m + 1) = days_before_month y m + days_in_month y m.
Proof.
  intros Hm. unfold days_before_month, days_in_month.
  assert (Hc : m = 1 \/ m = 2 \/ m = 3 \/ m = 4 \/ m = 5 \/ m = 6 \/ m = 7 \/
               m = 8 \/ m = 9 \/ m = 10 \/ m = 11) by lia.
  destruct (is_leap y);
    repeat (destruct Hc as [->|Hc]; [reflexivity|]); subst; reflexivity.
Qed.

Lemma days_before_december (y : Z) :
  days_before_month y 12 + days_in_month y 12
  = if is_leap y then 366 else 365.
Proof. unfold days_before_month, days_in_month. destruct (is_leap y); reflexivity. Qed.

Lemma days_in_month_ge_28 (y m : Z) :
  1 <= m <= 12 -> 28 <= days_in_month y m.
Proof.
  intros Hm. unfold days_in_month.
  destruct ((m =? 2) && is_leap y); [lia|].
  assert (Hc : m = 1 \/ m = 2 \/ m = 3 \/ m = 4 \/ m = 5 \/ m = 6 \/ m = 7 \/
               m = 8 \/ m = 9 \/ m = 10 \/ m = 11 \/ m = 12) by lia.
  repeat (destruct Hc as [H|Hc]; [rewrite H; lia|]). rewrite Hc; lia.
Qed.

Lemma date_ok_bounds (d : date) :
  date_ok d = true ->
  1 <= year d <= 9999 /\ 1 <= month d <= 12 /\
  1 <= day d <= days_in_month (year d) (month d).
Proof.
  unfold date_ok, MINYEAR, MAXYEAR. rewrite !andb_true_iff, !Z.leb_le. lia.
Qed.

(** [tomorrow] is the date whose ordinal is one more: the date that
    [date.fromordinal(d.toordinal() + 1)] denotes. *)
Lemma toordinal_tomorrow (d d' : date) :
  date_ok d = true -> tomorrow d = Some d' ->
  toordinal d' = toordinal d + 1.
Proof.
  intros Hok Ht. apply date_ok_bounds in Hok as (Hy & Hm & Hd).
  unfold tomorrow, MAXYEAR in Ht. unfold toordinal.
  destruct (Z.ltb_spec (day d) (days_in_month (year d) (month d))).
  { inversion Ht; subst; cbn. lia. }
  destruct (Z.ltb_spec (month d) 12).
  { inversion Ht; subst; cbn [year month day].
    rewrite days_before_month_succ by lia. lia. }
  destruct (Z.ltb_spec (year d) 9999); [|discriminate].
  inversion Ht; subst; cbn [year month day].
  assert (Hm12 : month d = 12) by lia. rewrite Hm12 in *.
  rewrite days_before_year_succ.
  pose proof (days_before_december (year d)).
  change (days_before_month (year d + 1) 1) with 0. lia.
Qed.

Lemma tomorrow_date_ok (d d' : date) :
  date_ok d = true -> tomorrow d = Some d' -> date_ok d' = true.
Proof.
  intros Hok Ht. apply date_ok_bounds in Hok as (Hy & Hm & Hd).
  unfold tomorrow, MAXYEAR in Ht.
  unfold date_ok, MINYEAR, MAXYEAR. rewrite !andb_true_iff, !Z.leb_le.
  destruct (Z.ltb_spec (day d) (days_in_month (year d) (month d))).
  { inversion Ht; subst; cbn. lia. }
  destruct (Z.ltb_spec (month d) 12).
  { inversion Ht; subst; cbn [year month day].
    pose proof (days_in_month_ge_28 (year d) (month d + 1)). lia. }
  destruct (Z.ltb_spec (year d) 9999); [|discriminate].
  inversion Ht; subst; cbn [year month day].
  unfold days_in_month; cbn. lia.
Qed.

(** A valid date other than [date.max] has a next day. *)
Lemma tomorrow_is_Some (d : date) :
  date_ok d = true -> d <> date_max -> exists d', tomorrow d = Some d'.
Proof.
  intros Hok Hne. apply date_ok_bounds in Hok as (Hy & Hm & Hd).
  unfold tomorrow, MAXYEAR.
  destruct (Z.ltb_spec (day d) (days_in_month (year d) (month d))); [eauto|].
  destruct (Z.ltb_spec (month d) 12); [eauto|].
  destruct (Z.ltb_spec (year d) 9999); [eauto|].
  exfalso. apply Hne. destruct d as [y m dd]; cbn in *.
  assert (m = 12) by lia. subst m.
  assert (y = 9999) by lia. subst y.
  change (days_in_month 9999 12) with 31 in *.
  unfold date_max. f_equal. lia.
Qed.

Lemma time_ok_bounds (t : time) :
  time_ok t = true ->
  0 <= hour t <= 23 /\ 0 <= minute t <= 59 /\
  0 <= second t <= 59 /\ 0 <= microsecond t <= 999999.
Proof. unfold time_ok. rewrite !andb_true_iff, !Z.leb_le. lia. Qed.

Lemma micros_of_time_bounds (t : time) :
  time_ok t = true -> 0 <= micros_of_time t < MICROS_PER_DAY.
Proof.
  intros H. apply time_ok_bounds in H. unfold micros_of_time, MICROS_PER_DAY. lia.
Qed.

(** Comparing two times of day field by field is comparing the
    microseconds elapsed since midnight. *)
Lemma time_cmp_micros (a b : time) :
  time_ok a = true -> time_ok b = true ->
  time_cmp a b = (micros_of_time a ?= micros_of_time b).
Proof.
  intros Ha Hb. apply time_ok_bounds in Ha, Hb.
  unfold time_cmp, micros_of_time.
  destruct (Z.compare_spec (hour a) (hour b)); cbn [lex];
    [| symmetry; apply Z.compare_lt_iff; lia | symmetry; apply Z.compare_gt_iff; lia].
  destruct (Z.compare_spec (minute a) (minute b)); cbn [lex];
    [| symmetry; apply Z.compare_lt_iff; lia | symmetry; apply Z.compare_gt_iff; lia].
  destruct (Z.compare_spec (second a) (second b)); cbn [lex];
    [| symmetry; apply Z.compare_lt_iff; lia | symmetry; apply Z.compare_gt_iff; lia].
  destruct (Z.compare_spec (microsecond a) (microsecond b));
    symmetry; [apply Z.compare_eq_iff | apply Z.compare_lt_iff | apply Z.compare_gt_iff]; lia.
Qed.

Lemma date_cmp_refl (d : date) : date_cmp d d = Eq.
Proof. unfold date_cmp. rewrite !Z.compare_refl. reflexivity. Qed.

(** A date is before its next day, field by field. *)
Lemma date_cmp_tomorrow (d d' : date) :
  date_ok d = true -> tomorrow d = Some d' -> date_cmp d d' = Lt.
Proof.
  intros Hok Ht. apply date_ok_bounds in Hok as (Hy & Hm & Hd).
  unfold tomorrow in Ht. unfold date_cmp.
  destruct (Z.ltb_spec (day d) (days_in_month (year d) (month d))).
  { inversion Ht; subst; cbn [year month day]. rewrite !Z.compare_refl. cbn.
    apply Z.compare_lt_iff. lia. }
  destruct (Z.ltb_spec (month d) 12).
  { inversion Ht; subst; cbn [year month day]. rewrite !Z.compare_refl. cbn.
    assert (Hl : (month d ?= month d + 1) = Lt) by (apply Z.compare_lt_iff; lia).
    rewrite Hl. reflexivity. }
  destruct (year d <? MAXYEAR); [|discriminate].
  inversion Ht; subst; cbn [year month day].
  assert (Hl : (year d ?= year d + 1) = Lt) by (apply Z.compare_lt_iff; lia).
  rewrite Hl. reflexivity.
Qed.

(** ** TimeGate *)

Lemma c_int_overflow_spec (z : Z) :
  match c_int_overflow z with
  | None => in_range (- 2 ^ 31) (2 ^ 31 - 1) z = true
  | Some _ => in_range (- 2 ^ 31) (2 ^ 31 - 1) z = false
  end.
Proof.
  unfold c_int_overflow, in_range.
  destruct (Z.ltb_spec z (- 2 ^ 63)), (Z.leb_spec (2 ^ 63) z); cbn [orb]; try lia.
  destruct (Z.leb_spec (2 ^ 31) z); [lia|].
  destruct (Z.ltb_spec z (- 2 ^ 31)); lia.
Qed.

Lemma c_int_overflow_small (z : Z) : 0 <= z <= 59 -> c_int_overflow z = None.
Proof.
  intros Hz. pose proof (c_int_overflow_spec z) as H.
  destruct (c_int_overflow z); [|reflexivity]. unfold in_range in H. lia.
Qed.

Lemma dt_time_ok (h m s : Z) (t : time) :
  dt_time h m s = Ok t -> t = mktime h m s 0 /\ time_ok t = true.
Proof.
  unfold dt_time, time_ok.
  destruct (c_int_overflow h); [discriminate|].
  destruct (c_int_overflow m); [discriminate|].
  destruct (c_int_overflow s); [discriminate|].
  destruct ((0 <=? h) && (h <=? 23)) eqn:Hh; cbn [negb]; [|discriminate].
  destruct ((0 <=? m) && (m <=? 59)) eqn:Hm; cbn [negb]; [|discriminate].
  destruct ((0 <=? s) && (s <=? 59)) eqn:Hs; cbn [negb]; [|discriminate].
  intros [= <-]. split; [reflexivity|]. cbn.
  apply andb_true_iff in Hh as [-> ->], Hm as [-> ->], Hs as [-> ->]. reflexivity.
Qed.

(** [datetime.time] returns on arguments within their ranges, and on no
    others; it raises [OverflowError] only on an argument that no C [int]
    holds. *)
Lemma dt_time_outcome (h m s : Z) :
  if in_range 0 23 h && in_range 0 59 m && in_range 0 59 s
  then dt_time h m s = Ok (mktime h m s 0)
  else exists e, dt_time h m s = Raise e /\
       match e with
       | ValueError _ => True
       | OverflowError _ =>
           exists z, z ∈ [h; m; s] /\ in_range (- 2 ^ 31) (2 ^ 31 - 1) z = false
       | _ => False
       end.
Proof.
  unfold dt_time.
  pose proof (c_int_overflow_spec h) as Oh.
  pose proof (c_int_overflow_spec m) as Om.
  pose proof (c_int_overflow_spec s) as Os.
  assert (Hin : forall z, in_range 0 23 z = true \/ in_range 0 59 z = true ->
                          in_range (- 2 ^ 31) (2 ^ 31 - 1) z = true)
    by (unfold in_range; lia).
  destruct (c_int_overflow h) as [msg|].
  { destruct (in_range 0 23 h) eqn:Rh; [rewrite Hin in Oh by auto; discriminate|].
    cbn [andb]. eexists. split; [reflexivity|]. exists h. split; [set_solver | exact Oh]. }
  destruct (c_int_overflow m) as [msg|].
  { destruct (in_range 0 59 m) eqn:Rm; [rewrite Hin in Om by auto; discriminate|].
    rewrite andb_false_r. cbn [andb].
    eexists. split; [reflexivity|]. exists m. split; [set_solver | exact Om]. }
  destruct (c_int_overflow s) as [msg|].
  { destruct (in_range 0 59 s) eqn:Rs; [rewrite Hin in Os by auto; discriminate|].
    rewrite andb_false_r.
    eexists. split; [reflexivity|]. exists s. split; [set_solver | exact Os]. }
  unfold in_range.
  destruct ((0 <=? h) && (h <=? 23)); cbn [negb andb];
    [|eexists; split; [reflexivity | exact I]].
  destruct ((0 <=? m) && (m <=? 59)); cbn [negb andb];
    [|eexists; split; [reflexivity | exact I]].
  destruct ((0 <=? s) && (s <=? 59)); cbn [negb andb];
    [reflexivity | eexists; split; [reflexivity | exact I]].
Qed.

Lemma result_bind_Ok {A B} (r : result A) (k : A -> result B) (b : B) :
  (r ≫= k) = Ok b -> exists a, r = Ok a /\ k a = Ok b.
Proof. destruct r; cbn; intros; try discriminate; eauto. Qed.

(** A schedule string that parses denotes a valid time of day. *)
Lemma parse_run_at_time_ok (s : string) (t : time) :
  parse_run_at s = Ok t -> time_ok t = true.
Proof.
  unfold parse_run_at.
  destruct (PyStr.split_points 58 (PyStr.strip (PyStr.decode s)))
    as [|p0 [|p1 [|p2 [|p3 ps]]]];
    try discriminate; intros H.
  - apply result_bind_Ok in H as (h & _ & H).
    apply result_bind_Ok in H as (m & _ & H).
    apply dt_time_ok in H as [_ H]. exact H.
  - apply result_bind_Ok in H as (h & _ & H).
    apply result_bind_Ok in H as (m & _ & H).
    apply result_bind_Ok in H as (sec & _ & H).
    apply dt_time_ok in H as [_ H]. exact H.
Qed.

(** The instant computed by lines 82-86 is strictly after [now], unless the
    roll-over to the next day leaves the range of [date]. *)
Lemma next_run_future (target : time) (now : datetime) :
  time_ok target = true -> datetime_ok now = true ->
  (date_of now <> date_max \/
   datetime_le (combine (date_of now) target) now = false) ->
  exists r,
    next_run target now = Ok r /\
    datetime_lt now r = true /\
    0 < micros_between r now /\
    time_of r = target /\
    (datetime_le (combine (date_of now) target) now = true ->
     tomorrow (date_of now) = Some (date_of r) /\
     micros_between r (combine (date_of now) target) = MICROS_PER_DAY) /\
    (datetime_le (combine (date_of now) target) now = false ->
     r = combine (date_of now) target).
Proof.
  intros Ht Hnow Hcond.
  apply andb_true_iff in Hnow as [Hd Hn].
  pose proof (micros_of_time_bounds _ Ht) as Bt.
  pose proof (micros_of_time_bounds _ Hn) as Bn.
  unfold next_run.
  destruct (datetime_le (combine (date_of now) target) now) eqn:Hle.
  - destruct Hcond as [Hne|]; [|discriminate].
    destruct (tomorrow_is_Some _ Hd Hne) as [d' Hd'].
    unfold add_one_day. cbn [combine date_of time_of]. rewrite Hd'. cbn [fmap option_fmap option_map].
    pose proof (toordinal_tomorrow _ _ Hd Hd') as Hord.
    pose proof (date_cmp_tomorrow _ _ Hd Hd') as Hcmp.
    eexists; split; [reflexivity|].
    unfold datetime_lt, datetime_cmp, micros_between. cbn [date_of time_of combine].
    rewrite Hcmp. cbn [lex]. rewrite Hord.
    repeat split; try lia; try discriminate.
  - eexists; split; [reflexivity|].
    unfold datetime_le, datetime_lt, datetime_cmp in *.
    cbn [date_of time_of combine] in *.
    rewrite date_cmp_refl in *. cbn [lex] in *.
    rewrite time_cmp_micros in * by assumption.
    unfold micros_between. cbn [date_of time_of combine].
    destruct (Z.compare_spec (micros_of_time target) (micros_of_time (time_of now)));
      try discriminate.
    assert (Hlt : (micros_of_time (time_of now) ?= micros_of_time target) = Lt)
      by (apply Z.compare_lt_iff; lia).
    rewrite Hlt. repeat split; try lia; try discriminate.
Qed.

(** The well-formed schedules are those that parse, to the time their
    fields denote; every other schedule ends with a [schedule_error]. *)
Lemma parse_run_at_outcome (s : string) :
  if well_formed_schedule s
  then exists t, parse_run_at s = Ok t
  else exists e, parse_run_at s = Raise e /\ schedule_error s e.
Proof.
  unfold well_formed_schedule, schedule_error, schedule_fields, parse_run_at,
    int_of_field.
  destruct (PyStr.split_points 58 (PyStr.strip (PyStr.decode s)))
    as [|p0 [|p1 [|p2 [|p3 ps]]]]; cbn [map].
  - eexists; split; [reflexivity | exact I].
  - destruct (PyStr.int_of_points p0); eexists; split; reflexivity || exact I.
  - destruct (PyStr.int_of_points p0) as [h|];
      [|eexists; split; [reflexivity | exact I]].
    destruct (PyStr.int_of_points p1) as [m|];
      [|eexists; split; [reflexivity | exact I]].
    cbn [mbind result_bind].
    pose proof (dt_time_outcome h m 0) as Hd.
    change (in_range 0 59 0) with true in Hd. rewrite andb_true_r in Hd.
    destruct (in_range 0 23 h && in_range 0 59 m); [eauto|].
    destruct Hd as (e & He & Hcls). exists e. split; [exact He|].
    destruct e; try exact Hcls. destruct Hcls as (z & Hz & Hbig).
    exists z. split; [|exact Hbig].
    apply elem_of_cons in Hz as [->|Hz]; [set_solver|].
    apply elem_of_cons in Hz as [->|Hz]; [set_solver|].
    apply list_elem_of_singleton in Hz. subst z. discriminate Hbig.
  - destruct (PyStr.int_of_points p0) as [h|];
      [|eexists; split; [reflexivity | exact I]].
    destruct (PyStr.int_of_points p1) as [m|];
      [|eexists; split; [reflexivity | exact I]].
    destruct (PyStr.int_of_points p2) as [sec|];
      [|eexists; split; [reflexivity | exact I]].
    cbn [mbind result_bind].
    pose proof (dt_time_outcome h m sec) as Hd.
    destruct (in_range 0 23 h && in_range 0 59 m && in_range 0 59 sec); [eauto|].
    destruct Hd as (e & He & Hcls). exists e. split; [exact He|].
    destruct e; try exact Hcls. destruct Hcls as (z & Hz & Hbig).
    exists z. split; [|exact Hbig].
    apply elem_of_cons in Hz as [->|Hz]; [set_solver|].
    apply elem_of_cons in Hz as [->|Hz]; [set_solver|].
    apply list_elem_of_singleton in Hz. subst z. set_solver.
  - repeat match goal with
           | |- context [match PyStr.int_of_points ?p with _ => _ end] =>
               destruct (PyStr.int_of_points p)
           end;
      eexists; split; reflexivity || exact I.
Qed.

Section TimeGate.
Context {record : Type} (E : env record).

(** C3, as amended.  For a schedule string that parses and a clock reading
    [now] whose roll-over to the next day is representable (the date is not
    9999-12-31, or the target of the day is still ahead), [wait_until]
    computes an instant [r] strictly after [now]; when the target of the day
    is at or before [now] (equality included) [r] is that target exactly one
    day (24 hours) later, otherwise it is the target of the day; the process
    then sleeps for [r - now], a positive length. *)
Theorem wait_until_next_run (s : string) (target : time) (w : world) :
  let now := env_clock E (n_now w) in
  let today := combine (date_of now) target in
  parse_run_at s = Ok target ->
  datetime_ok now = true ->
  (date_of now <> date_max \/ datetime_le today now = false) ->
  exists r,
    next_run target now = Ok r /\
    datetime_lt now r = true /\
    (datetime_le today now = true ->
     time_of r = target /\
     tomorrow (date_of now) = Some (date_of r) /\
     micros_between r today = MICROS_PER_DAY) /\
    (datetime_le today now = false -> r = today) /\
    0 < micros_between r now /\
    wait_until E s w
    = (Ok tt,
       mkworld (fs w) (S (n_now w)) (n_rand w) (n_announce w)
         (trace w ++ [ELog (L_scheduled r (micros_between r now));
                      ESleep (micros_between r now)])).
Proof.
  intros now today Hp Hnow Hcond.
  pose proof (parse_run_at_time_ok _ _ Hp) as Ht.
  destruct (next_run_future target now Ht Hnow Hcond)
    as (r & Hr & Hlt & Hpos & Htime & Hroll & Hsame).
  exists r.
  split; [exact Hr|]. split; [exact Hlt|].
  split; [intros H; destruct (Hroll H); auto|].
  split; [exact Hsame|]. split; [exact Hpos|].
  unfold wait_until, bind, lift, datetime_now, log, emit, time_sleep.
  rewrite Hp. cbn [n_now fs n_rand n_announce trace].
  fold now. rewrite Hr.
  destruct (Z.ltb_spec (micros_between r now) 0); [lia|].
  unfold emit. cbn [n_now fs n_rand n_announce trace].
  rewrite <- app_assoc. reflexivity.
Qed.

(** C4.  A malformed schedule makes [wait_until] raise in the very state it
    was called in: the clock was not read, nothing was logged, and no sleep
    took place.  The error is [ValueError], except for a field that is an
    integer too large for a C [int], on which the constructor of the time
    of day raises [OverflowError]. *)
Theorem wait_until_malformed (s : string) (w : world) :
  well_formed_schedule s = false ->
  exists e, wait_until E s w = (Raise e, w) /\ schedule_error s e.
Proof.
  intros Hbad. pose proof (parse_run_at_outcome s) as H. rewrite Hbad in H.
  destruct H as (e & He & Hcls). exists e. split; [|exact Hcls].
  unfold wait_until, bind, lift. rewrite He. reflexivity.
Qed.

(** Conversely the well-formed strings are exactly those that parse. *)
Lemma well_formed_schedule_parses (s : string) :
  well_formed_schedule s = true <-> exists t, parse_run_at s = Ok t.
Proof.
  pose proof (parse_run_at_outcome s) as H.
  destruct (well_formed_schedule s); split; auto; [discriminate|].
  intros [t Ht]. destruct H as (e & He & _). rewrite He in Ht. discriminate Ht.
Qed.
End TimeGate.

(** ** CommitRetrier *)

Section Retrier.
Context {record : Type} (E : env record).

Lemma commit_attempt_fails (uid : string) (m : ModelId) (e : exn) (w : world) :
  env_store_model_metadata E (n_announce w) uid (env_to_compressed_str E m) = Raise e ->
  commit_attempt E uid m w
  = (Ok false,
     mkworld (fs w) (n_now w) (n_rand w) (S (n_announce w))
       (trace w ++ retry_events uid (env_to_compressed_str E m) e)).
Proof.
  intros H.
  unfold commit_attempt, try_except, bind, store_model_metadata, time_sleep. rewrite H.
  change (seconds RETRY_SECONDS <? 0) with false. mrun.
  rewrite <- !app_assoc. reflexivity.
Qed.

Lemma commit_attempt_succeeds (uid : string) (m : ModelId) (w : world) :
  env_store_model_metadata E (n_announce w) uid (env_to_compressed_str E m) = Ok tt ->
  commit_attempt E uid m w
  = (Ok true,
     mkworld (fs w) (n_now w) (n_rand w) (S (n_announce w))
       (trace w ++ success_events uid (env_to_compressed_str E m))).
Proof.
  intros H.
  unfold commit_attempt, try_except, bind, store_model_metadata. rewrite H.
  mrun. rewrite <- !app_assoc. reflexivity.
Qed.

Lemma commit_loop_trace (uid : string) (m : ModelId) (errs : list exn) :
  forall (w : world) (fuel : nat),
  (forall i e, errs !! i = Some e ->
     env_store_model_metadata E (n_announce w + i) uid (env_to_compressed_str E m)
     = Raise e) ->
  env_store_model_metadata E (n_announce w + length errs) uid
    (env_to_compressed_str E m) = Ok tt ->
  (length errs < fuel)%nat ->
  commit_loop E fuel uid m w
  = (Ok tt,
     mkworld (fs w) (n_now w) (n_rand w) (n_announce w + length errs + 1)
       (trace w ++ commit_trace uid (env_to_compressed_str E m) errs)).
Proof.
  induction errs as [|e errs IH]; intros w fuel Hfail Hok Hfuel.
  - destruct fuel as [|fuel]; [cbn in Hfuel; lia|].
    cbn [commit_loop]. unfold bind.
    cbn [length] in Hok. rewrite Nat.add_0_r in Hok.
    rewrite (commit_attempt_succeeds _ _ _ Hok). unfold ret.
    cbn [length]. rewrite Nat.add_0_r, Nat.add_1_r. reflexivity.
  - destruct fuel as [|fuel]; [cbn in Hfuel; lia|].
    cbn [commit_loop]. unfold bind.
    pose proof (Hfail 0%nat e eq_refl) as H0. rewrite Nat.add_0_r in H0.
    rewrite (commit_attempt_fails _ _ _ _ H0).
    rewrite IH; cbn [n_announce fs n_now n_rand trace length] in *.
    + unfold commit_trace. cbn [map concat].
      rewrite <- !app_assoc. f_equal. f_equal. lia.
    + intros i e' Hi. replace (S (n_announce w) + i)%nat with (n_announce w + S i)%nat by lia.
      apply Hfail. exact Hi.
    + replace (S (n_announce w) + length errs)%nat
        with (n_announce w + S (length errs))%nat by lia. exact Hok.
    + lia.
Qed.

Lemma commit_trace_announces (uid payload : string) (errs : list exn) :
  filter (fun e => is_announce e = true) (commit_trace uid payload errs)
  = replicate (S (length errs)) (EStoreModelMetadata uid payload).
Proof.
  unfold commit_trace. induction errs as [|e errs IH]; [reflexivity|].
  cbn [map concat length]. rewrite <- app_assoc.
  change (retry_events uid payload e ++ ?l)
    with (EStoreModelMetadata uid payload :: ELog (L_failed_advertise e) ::
          ELog L_retrying :: ESleep (seconds RETRY_SECONDS) :: l).
  rewrite filter_cons_True by reflexivity.
  rewrite !filter_cons_False by (cbn; discriminate).
  rewrite IH. reflexivity.
Qed.

Lemma commit_trace_sleeps (uid payload : string) (errs : list exn) :
  filter (fun e => is_sleep e = true) (commit_trace uid payload errs)
  = replicate (length errs) (ESleep (seconds RETRY_SECONDS)).
Proof.
  unfold commit_trace. induction errs as [|e errs IH]; [reflexivity|].
  cbn [map concat length]. rewrite <- app_assoc.
  change (retry_events uid payload e ++ ?l)
    with (EStoreModelMetadata uid payload :: ELog (L_failed_advertise e) ::
          ELog L_retrying :: ESleep (seconds RETRY_SECONDS) :: l).
  rewrite !filter_cons_False by (cbn; discriminate).
  rewrite filter_cons_True by reflexivity.
  rewrite IH. reflexivity.
Qed.

(** A ledger that rejects every call keeps the loop going for as long as
    it is observed: it neither returns nor raises. *)
Lemma commit_loop_never_gives_up (uid : string) (m : ModelId) (fuel : nat) :
  forall w : world,
  (forall k, exists e,
     env_store_model_metadata E k uid (env_to_compressed_str E m) = Raise e) ->
  fst (commit_loop E fuel uid m w) = OutOfFuel /\
  n_announce (snd (commit_loop E fuel uid m w)) = (n_announce w + fuel)%nat.
Proof.
  induction fuel as [|fuel IH]; intros w Hfail.
  - cbn. split; [reflexivity | lia].
  - cbn [commit_loop]. unfold bind.
    destruct (Hfail (n_announce w)) as [e He].
    rewrite (commit_attempt_fails _ _ _ _ He).
    destruct (IH (mkworld (fs w) (n_now w) (n_rand w) (S (n_announce w))
       (trace w ++ retry_events uid (env_to_compressed_str E m) e)) Hfail) as [H1 H2].
    split; [exact H1|]. rewrite H2. cbn. lia.
Qed.
End Retrier.

(** ** Shuffling *)

Lemma swap_length {A} (i j : nat) (x : list A) : length (swap i j x) = length x.
Proof.
  unfold swap. destruct (x !! i), (x !! j); rewrite ?length_insert; reflexivity.
Qed.

(** Exchanging two positions reads the list through a transposition. *)
Lemma swap_lookup {A} (i j k : nat) (x : list A) :
  (i < length x)%nat -> (j < length x)%nat ->
  swap i j x !! k
  = x !! (if decide (k = j) then i else if decide (k = i) then j else k).
Proof.
  intros Hi Hj. unfold swap.
  destruct (lookup_lt_is_Some_2 x i Hi) as [a Ha].
  destruct (lookup_lt_is_Some_2 x j Hj) as [b Hb].
  rewrite Ha, Hb.
  destruct (decide (k = j)) as [->|Hkj].
  - rewrite list_lookup_insert_eq by (rewrite length_insert; exact Hj).
    symmetry; exact Ha.
  - rewrite list_lookup_insert_ne by congruence.
    destruct (decide (k = i)) as [->|Hki].
    + rewrite list_lookup_insert_eq by exact Hi. symmetry; exact Hb.
    + rewrite list_lookup_insert_ne by congruence. reflexivity.
Qed.

Lemma swap_Permutation {A} (i j : nat) (x : list A) : swap i j x ≡ₚ x.
Proof.
  destruct (decide (i < length x)%nat) as [Hi|Hi].
  2: { unfold swap. rewrite (lookup_ge_None_2 x i) by lia. reflexivity. }
  destruct (decide (j < length x)%nat) as [Hj|Hj].
  2: { unfold swap. rewrite (lookup_ge_None_2 x j) by lia.
       destruct (x !! i); reflexivity. }
  apply Permutation_inj. split; [apply swap_length|].
  exists (fun k => if decide (k = j) then i else if decide (k = i) then j else k).
  split.
  - intros k1 k2.
    repeat (case_decide; subst); intros; subst; congruence.
  - intros k. apply swap_lookup; assumption.
Qed.

Section Builder.
Context {record : Type} (E : env record).

(** [random.shuffle] rearranges the list and only consumes randomness. *)
Lemma shuffle_from_spec (i : nat) :
  forall (x : list record) (w : world),
  exists y,
    shuffle_from E i x w
    = (Ok y, mkworld (fs w) (n_now w) (n_rand w + i) (n_announce w) (trace w))
    /\ y ≡ₚ x.
Proof.
  induction i as [|i IH]; intros x w.
  - exists x. cbn. unfold ret. rewrite Nat.add_0_r. destruct w; split; reflexivity.
  - cbn [shuffle_from]. unfold bind, randbelow.
    destruct (IH (swap (S i) (env_random E (n_rand w) mod S (S i)) x)
                (mkworld (fs w) (n_now w) (S (n_rand w)) (n_announce w) (trace w)))
      as (y & Hy & Hp).
    exists y. rewrite Hy. cbn [fs n_now n_rand n_announce trace]. split.
    + replace (n_rand w + S i)%nat with (S (n_rand w) + i)%nat by lia.
      reflexivity.
    + rewrite Hp. apply swap_Permutation.
Qed.

Lemma random_shuffle_spec (x : list record) (w : world) :
  exists y,
    random_shuffle E x w
    = (Ok y, mkworld (fs w) (n_now w) (n_rand w + (length x - 1)) (n_announce w) (trace w))
    /\ y ≡ₚ x.
Proof. apply shuffle_from_spec. Qed.

(** What [make_submission] does when the eval file is there and loads. *)
Lemma make_submission_spec
    (dir file sdir : string) (size : option Z) (w : world)
    (lines : list string) (data : list record) :
  fs w !! key E (PyPath.join dir file) = Some lines ->
  env_load_jsonl E lines = Ok data ->
  exists shuffled,
    let path := PyPath.join sdir
                  (submission_file_name
                     (Calendar.strftime_YmdH (env_clock E (n_now w))) size) in
    let out := map (jsonl_line E) (written_items size shuffled) in
    shuffled ≡ₚ data /\
    make_submission E dir file sdir size w
    = (Ok path,
       mkworld (<[key E path := out]> (fs w)) (S (n_now w))
         (n_rand w + (length data - 1)) (n_announce w)
         (trace w ++ [ELoadJsonl (PyPath.join dir file); EMakedirs sdir;
                      ELog (L_saving path); EWriteFile path out;
                      ELog (L_saved path)])).
Proof.
  intros Hfile Hload.
  destruct (random_shuffle_spec data
              (mkworld (fs w) (n_now w) (n_rand w) (n_announce w)
                 (trace w ++ [ELoadJsonl (PyPath.join dir file)])))
    as (shuffled & Hsh & Hperm).
  exists shuffled. cbn zeta. split; [exact Hperm|].
  unfold make_submission, load_jsonl, os_makedirs, write_jsonl, datetime_now.
  mrun. rewrite Hfile. mrun. rewrite Hload. rewrite Hsh. mrun.
  rewrite <- !app_assoc. unfold written_items. destruct size; reflexivity.
Qed.

Lemma slice_to_nat {A} (k : nat) (x : list A) : slice_to (Z.of_nat k) x = take k x.
Proof.
  unfold slice_to. destruct (Z.leb_spec 0 (Z.of_nat k)); [|lia].
  rewrite Nat2Z.id. reflexivity.
Qed.

Lemma filter_take_length {A} (P : A -> Prop) `{!forall a, Decision (P a)}
    (k : nat) (x : list A) :
  (length (filter P (take k x)) <= length (filter P x))%nat.
Proof.
  rewrite <- (take_drop k x) at 2. rewrite filter_app, length_app. lia.
Qed.

(** C5.  [make_submission] on a dataset of [n] records: with a cap
    [k <= n] the file written holds exactly [k] records, each from the
    dataset, none more often than the dataset holds it; with no cap it holds
    [n] records, a permutation of the dataset.  The only change made to the
    file system is the submission file itself. *)
Theorem submission_builder
    (dir file sdir : string) (w : world)
    (lines : list string) (data : list record) :
  fs w !! key E (PyPath.join dir file) = Some lines ->
  env_load_jsonl E lines = Ok data ->
  (forall k : nat, (k <= length data)%nat ->
     exists written path w',
       make_submission E dir file sdir (Some (Z.of_nat k)) w = (Ok path, w') /\
       fs w' = <[key E path := map (jsonl_line E) written]> (fs w) /\
       (forall p, key E p <> key E path -> fs w' !! key E p = fs w !! key E p) /\
       length written = k /\
       (forall r, r ∈ written -> r ∈ data) /\
       written ⊆+ data /\
       (forall P : record -> bool,
          length (filter (fun r => P r = true) written)
          <= length (filter (fun r => P r = true) data))%nat) /\
  (exists written path w',
     make_submission E dir file sdir None w = (Ok path, w') /\
     fs w' = <[key E path := map (jsonl_line E) written]> (fs w) /\
     (forall p, key E p <> key E path -> fs w' !! key E p = fs w !! key E p) /\
     length written = length data /\
     written ≡ₚ data).
Proof.
  intros Hfile Hload. split.
  - intros k Hk.
    destruct (make_submission_spec dir file sdir (Some (Z.of_nat k)) w lines data
                Hfile Hload) as (shuffled & Hperm & Hrun).
    cbn [written_items] in Hrun. rewrite slice_to_nat in Hrun.
    assert (Hsub : take k shuffled ⊆+ data).
    { rewrite <- Hperm. apply sublist_submseteq, sublist_take. }
    eexists (take k shuffled), _, _. split; [exact Hrun|].
    split; [reflexivity|].
    split; [intros p Hp; cbn [fs]; apply lookup_insert_ne; congruence|].
    split; [|split; [|split]].
    + apply length_take_le. rewrite (Permutation_length Hperm). exact Hk.
    + intros r Hr. eapply elem_of_submseteq; eassumption.
    + exact Hsub.
    + intros P. etransitivity; [apply filter_take_length|].
      rewrite Hperm. reflexivity.
  - destruct (make_submission_spec dir file sdir None w lines data Hfile Hload)
      as (shuffled & Hperm & Hrun).
    cbn [written_items] in Hrun.
    eexists shuffled, _, _. split; [exact Hrun|].
    split; [reflexivity|].
    split; [intros p Hp; cbn [fs]; apply lookup_insert_ne; congruence|].
    split; [apply Permutation_length|]; exact Hperm.
Qed.
End Builder.

(** ** Paths *)

Lemma string_app_nil_r (a : string) : a +:+ EmptyString = a.
Proof. induction a as [|c a IH]; [reflexivity|]. rewrite string_app_cons, IH. reflexivity. Qed.

Lemma string_app_assoc (a b c : string) : (a +:+ b) +:+ c = a +:+ (b +:+ c).
Proof.
  induction a as [|x a IH]; [reflexivity|].
  rewrite !string_app_cons, IH. reflexivity.
Qed.

Lemma split_no_sep (f : string) : no_sep f = true -> PyStr.split sep f = [f].
Proof.
  induction f as [|c f IH]; [reflexivity|]. cbn [no_sep PyStr.split].
  intros [Hc Hf]%andb_true_iff. apply negb_true_iff in Hc. rewrite Hc.
  rewrite (IH Hf). reflexivity.
Qed.

Lemma split_not_nil (s : string) : PyStr.split sep s <> [].
Proof.
  destruct s as [|c s]; cbn; [discriminate|].
  destruct (Ascii.eqb c sep); [discriminate|].
  destruct (PyStr.split sep s); discriminate.
Qed.

(** Splitting around a separator. *)
Lemma split_app_sep (a b : string) :
  PyStr.split sep (a +:+ String sep b) = PyStr.split sep a ++ PyStr.split sep b.
Proof.
  induction a as [|c a IH].
  - rewrite string_app_nil. cbn [PyStr.split]. rewrite Ascii.eqb_refl.
    reflexivity.
  - rewrite string_app_cons. cbn [PyStr.split].
    destruct (Ascii.eqb c sep).
    + rewrite IH. reflexivity.
    + rewrite IH. pose proof (split_not_nil a).
      destruct (PyStr.split sep a) as [|h t]; [congruence|]. reflexivity.
Qed.

Lemma ends_with_sep_split (a : string) :
  ends_with_sep a = true -> exists a', a = a' +:+ String sep EmptyString.
Proof.
  induction a as [|c a IH]; [discriminate|].
  destruct a as [|c' a].
  - cbn. intros ->%Ascii.eqb_eq. exists EmptyString. reflexivity.
  - intros H. destruct (IH H) as [a' Ha']. exists (String c a').
    rewrite string_app_cons, <- Ha'. reflexivity.
Qed.

Lemma fold_norm_step_app (l1 l2 : list string) (acc : list string) :
  fold_left norm_step (l1 ++ l2) acc = fold_left norm_step l2 (fold_left norm_step l1 acc).
Proof. apply fold_left_app. Qed.

Lemma norm_comps_snoc_plain (l : list string) (f : string) :
  plain_name f = true -> norm_comps (l ++ [f]) = norm_comps l ++ [f].
Proof.
  unfold plain_name, norm_comps. rewrite !andb_true_iff, !bool_decide_eq_true.
  intros (((_ & H1) & H2) & H3).
  rewrite fold_left_app. cbn [fold_left]. unfold norm_step at 1.
  repeat case_decide; try congruence. reflexivity.
Qed.

Lemma norm_comps_snoc_empty (l : list string) :
  norm_comps (l ++ [EmptyString]) = norm_comps l.
Proof.
  unfold norm_comps. rewrite fold_left_app. cbn [fold_left]. unfold norm_step at 1.
  case_decide; [reflexivity | congruence].
Qed.

Lemma plain_name_not_abs (f : string) : plain_name f = true -> isabs f = false.
Proof.
  unfold plain_name. rewrite !andb_true_iff, !bool_decide_eq_true.
  intros (((H0 & H1) & _) & _). destruct f as [|c f]; [congruence|].
  cbn in *. apply andb_true_iff in H0 as [H0 _]. apply negb_true_iff in H0. exact H0.
Qed.

Lemma plain_name_no_sep (f : string) : plain_name f = true -> no_sep f = true.
Proof. unfold plain_name. rewrite !andb_true_iff. tauto. Qed.

(** Joining a file name to a directory adds one component. *)
Lemma norm_comps_join (a f : string) :
  plain_name f = true ->
  norm_comps (PyStr.split sep (join a f)) = norm_comps (PyStr.split sep a) ++ [f].
Proof.
  intros Hf. unfold join. rewrite (plain_name_not_abs f Hf).
  pose proof (split_no_sep f (plain_name_no_sep f Hf)) as Hsf.
  destruct a as [|c a].
  - rewrite Hsf. cbn. unfold norm_comps. cbn [fold_left]. unfold norm_step.
    revert Hf. unfold plain_name. rewrite !andb_true_iff, !bool_decide_eq_true.
    intros (((_ & H1) & H2) & H3). repeat case_decide; try congruence. reflexivity.
  - destruct (ends_with_sep (String c a)) eqn:He.
    + destruct (ends_with_sep_split _ He) as [a' Ha']. rewrite Ha'.
      rewrite string_app_assoc. rewrite string_app_cons, string_app_nil.
      rewrite !split_app_sep, Hsf. cbn [PyStr.split].
      rewrite norm_comps_snoc_empty. apply norm_comps_snoc_plain. exact Hf.
    + rewrite split_app_sep, Hsf. apply norm_comps_snoc_plain. exact Hf.
Qed.

Lemma ends_with_sep_app (a d : string) :
  d <> EmptyString -> ends_with_sep (a +:+ d) = ends_with_sep d.
Proof.
  intros Hd. induction a as [|c a IH]; [reflexivity|].
  rewrite string_app_cons. cbn [ends_with_sep].
  destruct (a +:+ d) eqn:Happ.
  - destruct a; [rewrite string_app_nil in Happ; congruence | discriminate].
  - exact IH.
Qed.

Lemma isabs_app (d x : string) : d <> EmptyString -> isabs (d +:+ x) = isabs d.
Proof. destruct d; [congruence | reflexivity]. Qed.

Lemma app_not_empty_r (a d : string) : d <> EmptyString -> a +:+ d <> EmptyString.
Proof. destruct a; [rewrite string_app_nil; auto | discriminate]. Qed.

Lemma app_not_empty_l (a d : string) : a <> EmptyString -> a +:+ d <> EmptyString.
Proof. destruct a; [congruence | discriminate]. Qed.

(** [join(cwd, join(d, f)) = join(join(cwd, d), f)] for a file name [f]. *)
Lemma join_assoc_plain (cwd d f : string) :
  plain_name f = true -> join cwd (join d f) = join (join cwd d) f.
Proof.
  intros Hf. pose proof (plain_name_not_abs f Hf) as Hnf.
  assert (Hfe : f <> EmptyString).
  { revert Hf. unfold plain_name. rewrite !andb_true_iff, !bool_decide_eq_true. tauto. }
  destruct d as [|c d].
  - (* d = "" *)
    assert (H1 : join EmptyString f = f) by (unfold join; rewrite Hnf; reflexivity).
    rewrite H1.
    destruct cwd as [|c0 cwd0]; [reflexivity|].
    set (C := String c0 cwd0) in *.
    assert (H2 : join C EmptyString
                 = if ends_with_sep C then C else C +:+ String sep EmptyString).
    { unfold join, C. cbn [isabs]. fold C.
      destruct (ends_with_sep C); [apply string_app_nil_r | reflexivity]. }
    rewrite H2. destruct (ends_with_sep C) eqn:He; [reflexivity|].
    unfold join. rewrite Hnf. unfold C at 1. fold C. rewrite He.
    destruct (C +:+ String sep EmptyString) eqn:Hs; [discriminate|].
    rewrite <- Hs. rewrite ends_with_sep_app by discriminate. cbn [ends_with_sep].
    rewrite Ascii.eqb_refl. rewrite string_app_assoc. reflexivity.
  - set (D := String c d) in *.
    assert (HD : D <> EmptyString) by discriminate.
    assert (Hdf : join D f = if ends_with_sep D then D +:+ f else D +:+ String sep f).
    { unfold join. rewrite Hnf. reflexivity. }
    destruct (isabs D) eqn:Habs.
    + (* absolute directory *)
      assert (Hj : join cwd D = D) by (unfold join; rewrite Habs; reflexivity).
      rewrite Hj. unfold join at 1.
      assert (Ha : isabs (join D f) = true).
      { rewrite Hdf. destruct (ends_with_sep D); rewrite isabs_app; assumption. }
      rewrite Ha. reflexivity.
    + assert (Ha : isabs (join D f) = false).
      { rewrite Hdf. destruct (ends_with_sep D); rewrite isabs_app; assumption. }
      assert (H1 : forall y, isabs y = false ->
                join cwd y = match cwd with
                             | EmptyString => y
                             | _ => if ends_with_sep cwd then cwd +:+ y
                                    else cwd +:+ String sep y
                             end).
      { intros y Hy. unfold join. rewrite Hy. reflexivity. }
      rewrite (H1 _ Ha), (H1 _ Habs). clear H1.
      destruct cwd as [|c0 cwd0]; [reflexivity|].
      set (C := String c0 cwd0) in *.
      assert (HC : C <> EmptyString) by discriminate.
      assert (Hgen : forall X : string, X <> EmptyString ->
                ends_with_sep X = ends_with_sep D ->
                join X f = if ends_with_sep D then X +:+ f else X +:+ String sep f).
      { intros X HX HeX. unfold join. rewrite Hnf, HeX.
        destruct X; [congruence|]. reflexivity. }
      destruct (ends_with_sep C) eqn:HeC.
      * rewrite (Hgen (C +:+ D)).
        2: apply app_not_empty_l; exact HC.
        2: apply ends_with_sep_app; exact HD.
        rewrite Hdf. destruct (ends_with_sep D); rewrite string_app_assoc; reflexivity.
      * rewrite (Hgen (C +:+ String sep D)).
        2: apply app_not_empty_l; exact HC.
        2: { rewrite (ends_with_sep_app C (String sep D)) by discriminate.
             cbn [ends_with_sep]. fold D. unfold D at 1. reflexivity. }
        rewrite Hdf.
        destruct (ends_with_sep D); rewrite string_app_assoc, string_app_cons; reflexivity.
Qed.

(** [os.path.join(d, f)] is the entry [f] of directory [d]. *)
Lemma resolve_join (cwd d f : string) :
  plain_name f = true -> resolve cwd (join d f) = resolve cwd d ++ [f].
Proof.
  intros Hf. unfold resolve. rewrite join_assoc_plain by exact Hf.
  apply norm_comps_join. exact Hf.
Qed.

Lemma split_all_no_sep (s : string) :
  Forall (fun c => no_sep c = true) (PyStr.split sep s).
Proof.
  induction s as [|c s IH]; cbn [PyStr.split].
  - repeat constructor.
  - destruct (Ascii.eqb c sep) eqn:Hc.
    + constructor; [reflexivity | exact IH].
    + destruct (PyStr.split sep s) as [|h t].
      * repeat constructor. cbn. rewrite Hc. reflexivity.
      * inversion IH; subst. constructor; [|assumption].
        cbn. rewrite Hc. assumption.
Qed.

Lemma norm_step_plain (kept : list string) (c : string) :
  no_sep c = true ->
  Forall (fun c => plain_name c = true) kept ->
  Forall (fun c => plain_name c = true) (norm_step kept c).
Proof.
  intros Hc Hk. unfold norm_step. repeat case_decide; try assumption.
  - destruct kept; [constructor | inversion Hk; assumption].
  - constructor; [|assumption]. unfold plain_name.
    rewrite Hc, !bool_decide_eq_true_2 by assumption. reflexivity.
Qed.

Lemma fold_norm_step_plain (comps kept : list string) :
  Forall (fun c => no_sep c = true) comps ->
  Forall (fun c => plain_name c = true) kept ->
  Forall (fun c => plain_name c = true) (fold_left norm_step comps kept).
Proof.
  revert kept. induction comps as [|c comps IH]; intros kept Hc Hk; [exact Hk|].
  inversion Hc; subst. cbn [fold_left]. apply IH; [assumption|].
  apply norm_step_plain; assumption.
Qed.

(** The components of a resolved path are file names. *)
Lemma resolve_plain (cwd p : string) :
  Forall (fun c => plain_name c = true) (resolve cwd p).
Proof.
  unfold resolve, norm_comps. apply Forall_rev.
  apply fold_norm_step_plain; [apply split_all_no_sep | constructor].
Qed.

Lemma split_render (comps : list string) :
  comps <> [] -> Forall (fun c => no_sep c = true) comps ->
  PyStr.split sep (render comps) = EmptyString :: comps.
Proof.
  induction comps as [|c comps IH]; [congruence|]. intros _ Hall.
  inversion Hall as [|? ? Hc Hrest]; subst.
  cbn [render]. rewrite string_app_cons. cbn [PyStr.split].
  rewrite Ascii.eqb_refl. f_equal.
  destruct comps as [|c2 comps].
  - cbn [render]. rewrite string_app_nil_r. apply split_no_sep. exact Hc.
  - specialize (IH ltac:(discriminate) Hrest).
    cbn [render] in *. rewrite string_app_cons in *.
    rewrite split_app_sep, (split_no_sep c Hc).
    cbn [PyStr.split] in IH. rewrite Ascii.eqb_refl in IH.
    injection IH as IH. rewrite IH. reflexivity.
Qed.

Lemma fold_norm_step_plain_id (comps kept : list string) :
  Forall (fun c => plain_name c = true) comps ->
  fold_left norm_step comps kept = rev comps ++ kept.
Proof.
  revert kept. induction comps as [|c comps IH]; intros kept Hall; [reflexivity|].
  inversion Hall as [|? ? Hc Hrest]; subst. cbn [fold_left rev].
  rewrite IH by assumption. rewrite <- app_assoc. cbn [app]. f_equal.
  revert Hc. unfold plain_name, norm_step.
  rewrite !andb_true_iff, !bool_decide_eq_true. intros (((_ & H1) & H2) & H3).
  repeat case_decide; congruence.
Qed.

Lemma plain_all_no_sep (comps : list string) :
  Forall (fun c => plain_name c = true) comps ->
  Forall (fun c => no_sep c = true) comps.
Proof.
  intros H. eapply Forall_impl; [exact H|]. intros c. apply plain_name_no_sep.
Qed.

(** [abspath] names the directory it was computed from. *)
Lemma resolve_abspath (cwd p : string) :
  resolve cwd (abspath cwd p) = resolve cwd p.
Proof.
  pose proof (resolve_plain cwd p) as Hplain.
  unfold abspath. destruct (resolve cwd p) as [|c comps] eqn:Hr.
  - reflexivity.
  - unfold resolve at 1.
    assert (Habs : join cwd (render (c :: comps)) = render (c :: comps)).
    { unfold join. cbn [render]. rewrite string_app_cons. cbn [isabs].
      rewrite Ascii.eqb_refl. reflexivity. }
    rewrite Habs, split_render; [|discriminate|apply plain_all_no_sep; exact Hplain].
    unfold norm_comps.
    change (fold_left norm_step (EmptyString :: c :: comps) [])
      with (fold_left norm_step (c :: comps) []).
    rewrite fold_norm_step_plain_id by exact Hplain.
    rewrite app_nil_r. apply rev_involutive.
Qed.

(** The directory [download_dataset] works on is the one it was given. *)
Lemma resolve_local_dir (cwd d : string) :
  resolve cwd (if negb (isabs d) then abspath cwd d else d) = resolve cwd d.
Proof. destruct (isabs d); cbn [negb]; [reflexivity | apply resolve_abspath]. Qed.

(** ** File-system updates *)

Lemma purge_below (d k : list string) (f : gmap (list string) (list string)) :
  strictly_below d k -> purge d f !! k = None.
Proof.
  intros Hb. unfold purge. apply map_lookup_filter_None. right.
  intros v _ Hn. apply Hn. exact Hb.
Qed.

Lemma purge_elsewhere (d k : list string) (f : gmap (list string) (list string)) :
  ~ strictly_below d k -> purge d f !! k = f !! k.
Proof.
  intros Hb. unfold purge. destruct (f !! k) as [v|] eqn:Hk.
  - apply map_lookup_filter_Some. split; [exact Hk | exact Hb].
  - apply map_lookup_filter_None. left. exact Hk.
Qed.

Lemma place_elsewhere (d k : list string) (files : list (list string * list string))
    (f : gmap (list string) (list string)) :
  (forall rc, rc ∈ files -> d ++ fst rc <> k) -> place d files f !! k = f !! k.
Proof.
  unfold place. induction files as [|rc files IH]; intros Hk; [reflexivity|].
  cbn [foldr]. rewrite lookup_insert_ne.
  - apply IH. intros rc' Hin. apply Hk. right. exact Hin.
  - apply Hk. left.
Qed.

Lemma strictly_below_snoc (d : list string) (f : string) : strictly_below d (d ++ [f]).
Proof.
  split; [apply prefix_app_r; reflexivity|].
  intros H. apply (f_equal length) in H. rewrite length_app in H. cbn in H. lia.
Qed.

Section Fetch.
Context {record : Type} (E : env record).

Lemma key_absolute (d : string) : key E (absolute E d) = key E d.
Proof. apply resolve_local_dir. Qed.

Lemma key_join (d f : string) :
  plain_name f = true -> key E (PyPath.join d f) = key E d ++ [f].
Proof. apply resolve_join. Qed.

(** [download_dataset] with [force=True], whatever the snapshot does. *)
Lemma download_dataset_forced (ns rev dir : string) (w : world)
    (files : list (list string * list string)) (failure : option exn) :
  env_snapshot_download E ns rev = (files, failure) ->
  download_dataset E ns rev dir true w
  = (Ok tt,
     mkworld (place (key E dir) files (purge (key E dir) (fs w)))
       (n_now w) (n_rand w) (n_announce w)
       (trace w ++
        [ELog (L_force_download ns rev (absolute E dir));
         ERmtree (absolute E dir); EMakedirs (absolute E dir);
         ELog (L_downloading ns rev (absolute E dir));
         ESnapshotDownload ns (absolute E dir) rev] ++ failure_log failure)).
Proof.
  intros Hs.
  unfold download_dataset, shutil_rmtree, os_makedirs, snapshot_download.
  mrun. rewrite Hs. rewrite key_absolute. mrun.
  destruct failure as [e|]; mrun; cbn [failure_log];
    rewrite <- !app_assoc; reflexivity.
Qed.

Lemma download_dataset_unforced (ns rev dir : string) (w : world)
    (files : list (list string * list string)) (failure : option exn) :
  env_snapshot_download E ns rev = (files, failure) ->
  download_dataset E ns rev dir false w
  = (Ok tt,
     mkworld (place (key E dir) files (fs w))
       (n_now w) (n_rand w) (n_announce w)
       (trace w ++
        [EMakedirs (absolute E dir);
         ELog (L_downloading ns rev (absolute E dir));
         ESnapshotDownload ns (absolute E dir) rev] ++ failure_log failure)).
Proof.
  intros Hs.
  unfold download_dataset, shutil_rmtree, os_makedirs, snapshot_download.
  mrun. rewrite Hs. rewrite key_absolute. mrun.
  destruct failure as [e|]; mrun; cbn [failure_log];
    rewrite <- !app_assoc; reflexivity.
Qed.

Lemma os_rename_missing (src dst : string) (w : world) :
  fs w !! key E src = None ->
  os_rename E src dst w
  = (Raise (FileNotFoundError src),
     mkworld (fs w) (n_now w) (n_rand w) (n_announce w)
       (trace w ++ [ERename src dst])).
Proof. intros H. unfold os_rename. mrun. rewrite H. reflexivity. Qed.

Lemma os_rename_present (src dst : string) (w : world) (lines : list string) :
  fs w !! key E src = Some lines ->
  os_rename E src dst w
  = (Ok tt,
     mkworld (<[key E dst := lines]> (delete (key E src) (fs w)))
       (n_now w) (n_rand w) (n_announce w)
       (trace w ++ [ERename src dst])).
Proof. intros H. unfold os_rename. mrun. rewrite H. reflexivity. Qed.

(** [load_dataset], once the revision is known: a forced download, then
    the rename. *)
Lemma load_dataset_spec (dir file rev : string) (w : world)
    (files : list (list string * list string)) (failure : option exn) :
  let ns := repo (env_competition E) in
  env_get_hg_revision E ns (env_eval_commit E) = Ok rev ->
  env_snapshot_download E ns rev = (files, failure) ->
  load_dataset E dir file w
  = os_rename E (PyPath.join dir "data.jsonl") (PyPath.join dir file)
      (mkworld (place (key E dir) files (purge (key E dir) (fs w)))
         (n_now w) (n_rand w) (n_announce w)
         (trace w ++
          [EGetRevision ns (env_eval_commit E);
           ELog (L_force_download ns rev (absolute E dir));
           ERmtree (absolute E dir); EMakedirs (absolute E dir);
           ELog (L_downloading ns rev (absolute E dir));
           ESnapshotDownload ns (absolute E dir) rev] ++ failure_log failure)).
Proof.
  intros ns Hrev Hs. unfold load_dataset, get_hg_revision. fold ns.
  unfold bind at 1. unfold bind at 1. unfold emit, lift.
  rewrite Hrev. unfold bind at 1.
  rewrite (download_dataset_forced ns rev dir _ files failure Hs).
  cbn [fs n_now n_rand n_announce trace]. rewrite <- !app_assoc. reflexivity.
Qed.

Lemma data_jsonl_plain : plain_name "data.jsonl" = true.
Proof. reflexivity. Qed.

(** C9.  [download_dataset] returns normally whatever the snapshot download
    does, and logs the exception when there is one; the failure shows only
    afterwards: when the download left no [data.jsonl], the rename of
    [load_dataset] raises [FileNotFoundError]. *)
Theorem download_failure_surfaces_downstream
    (ns rev dir : string) (force : bool) (w : world) :
  (exists w',
     download_dataset E ns rev dir force w = (Ok tt, w') /\
     forall e, snd (env_snapshot_download E ns rev) = Some e ->
               last (trace w') = Some (ELog (L_snapshot_error e))) /\
  (forall (file rev' : string) files e,
     env_get_hg_revision E (repo (env_competition E)) (env_eval_commit E) = Ok rev' ->
     env_snapshot_download E (repo (env_competition E)) rev' = (files, Some e) ->
     (forall rc, rc ∈ files -> fst rc <> ["data.jsonl"]) ->
     exists w',
       load_dataset E dir file w
       = (Raise (FileNotFoundError (PyPath.join dir "data.jsonl")), w') /\
       last (trace w')
       = Some (ERename (PyPath.join dir "data.jsonl") (PyPath.join dir file)) /\
       ELog (L_snapshot_error e) ∈ trace w').
Proof.
  split.
  - destruct (env_snapshot_download E ns rev) as [files failure] eqn:Hs.
    destruct force.
    + rewrite (download_dataset_forced ns rev dir w files failure Hs).
      eexists; split; [reflexivity|]. cbn [snd trace]. intros e ->.
      cbn [failure_log]. rewrite !app_assoc. apply last_snoc.
    + rewrite (download_dataset_unforced ns rev dir w files failure Hs).
      eexists; split; [reflexivity|]. cbn [snd trace]. intros e ->.
      cbn [failure_log]. rewrite !app_assoc. apply last_snoc.
  - intros file rev' files e Hrev Hs Hfiles.
    rewrite (load_dataset_spec dir file rev' w files (Some e) Hrev Hs).
    rewrite os_rename_missing.
    + eexists; split; [reflexivity|]. cbn [trace]. split.
      * apply last_snoc.
      * cbn [failure_log]. rewrite !elem_of_app. left. right. right.
        apply list_elem_of_singleton. reflexivity.
    + cbn [fs]. rewrite key_join by reflexivity.
      rewrite place_elsewhere.
      * apply purge_below, strictly_below_snoc.
      * intros rc Hin Heq. apply app_inv_head in Heq. exact (Hfiles rc Hin Heq).
Qed.
End Fetch.

(** ** Period keys as file names *)

Lemma no_sep_app (a b : string) :
  no_sep a = true -> no_sep b = true -> no_sep (a +:+ b) = true.
Proof.
  intros Ha Hb. induction a as [|c a IH]; [exact Hb|].
  rewrite string_app_cons. cbn [no_sep] in *.
  apply andb_true_iff in Ha as [Hc Ha]. rewrite Hc, (IH Ha). reflexivity.
Qed.

Lemma digit_char_not_sep (d : Z) :
  0 <= d < 10 -> Ascii.eqb (Calendar.digit_char d) sep = false.
Proof.
  intros Hd.
  assert (Hc : d = 0 \/ d = 1 \/ d = 2 \/ d = 3 \/ d = 4 \/ d = 5 \/ d = 6 \/
               d = 7 \/ d = 8 \/ d = 9) by lia.
  repeat (destruct Hc as [->|Hc]; [reflexivity|]). subst. reflexivity.
Qed.

Lemma zfill_no_sep (w : nat) (n : Z) : no_sep (Calendar.zfill w n) = true.
Proof.
  induction w as [|w IH]; [reflexivity|]. cbn [Calendar.zfill no_sep].
  rewrite digit_char_not_sep by (apply Z.mod_pos_bound; lia). exact IH.
Qed.

Lemma string_of_uint_no_sep (d : Decimal.uint) :
  no_sep (NilZero.string_of_uint d) = true.
Proof.
  assert (H : forall u, no_sep (NilEmpty.string_of_uint u) = true).
  { induction u as [| u IH | u IH | u IH | u IH | u IH | u IH | u IH | u IH | u IH | u IH];
      [reflexivity|..]; cbn [NilEmpty.string_of_uint no_sep]; rewrite IH; reflexivity. }
  destruct d; [reflexivity|..]; apply H.
Qed.

Lemma str_of_int_no_sep (n : Z) : no_sep (str_of_int n) = true.
Proof.
  unfold str_of_int. destruct (Z.to_int n); cbn [NilZero.string_of_int no_sep];
    [|cbn [negb Ascii.eqb Bool.eqb andb sep]]; apply string_of_uint_no_sep.
Qed.

Lemma to_int_not_nil (n : Z) :
  Z.to_int n <> Decimal.Pos Decimal.Nil /\ Z.to_int n <> Decimal.Neg Decimal.Nil.
Proof.
  split; intros H; pose proof (of_to n) as Hn; rewrite H in Hn; cbn in Hn;
    subst n; discriminate H.
Qed.

(** [str] tells integers apart. *)
Lemma str_of_int_inj (a b : Z) : str_of_int a = str_of_int b -> a = b.
Proof.
  unfold str_of_int. intros H.
  apply (f_equal NilZero.int_of_string) in H.
  destruct (to_int_not_nil a) as [Ha1 Ha2], (to_int_not_nil b) as [Hb1 Hb2].
  rewrite !NilZero.isi in H by assumption.
  injection H as H. rewrite <- (of_to a), <- (of_to b), H. reflexivity.
Qed.

(** A period key is made of digits. *)
Lemma strftime_YmdH_no_sep (x : Calendar.datetime) :
  no_sep (Calendar.strftime_YmdH x) = true.
Proof.
  unfold Calendar.strftime_YmdH.
  repeat apply no_sep_app; apply zfill_no_sep.
Qed.

Lemma plain_name_intro (f : string) :
  no_sep f = true -> f <> EmptyString -> f <> "." -> f <> ".." ->
  plain_name f = true.
Proof.
  intros H0 H1 H2 H3. unfold plain_name.
  rewrite H0, !bool_decide_eq_true_2 by assumption. reflexivity.
Qed.

(** Eval files and submission files are entries of their directories. *)
Lemma eval_file_name_plain (k : string) :
  no_sep k = true -> plain_name (eval_file_name k) = true.
Proof.
  intros Hk. apply plain_name_intro; try discriminate.
  unfold eval_file_name. repeat apply no_sep_app; [reflexivity | exact Hk | reflexivity].
Qed.

Lemma submission_file_name_plain (k : string) :
  no_sep k = true -> plain_name (submission_file_name k None) = true.
Proof.
  intros Hk. apply plain_name_intro; try discriminate.
  unfold submission_file_name. repeat apply no_sep_app; [reflexivity | exact Hk | reflexivity].
Qed.

(** The eval file and the submission file of a run are different files,
    wherever the two directories are. *)
Lemma eval_and_submission_keys_differ (cwd dir sdir k1 k2 : string) :
  no_sep k1 = true -> no_sep k2 = true ->
  resolve cwd (join dir (eval_file_name k1))
  <> resolve cwd (join sdir (submission_file_name k2 None)).
Proof.
  intros H1 H2.
  rewrite !resolve_join
    by (apply eval_file_name_plain || apply submission_file_name_plain; assumption).
  intros Heq. apply app_inj_tail in Heq as [_ Heq]. discriminate Heq.
Qed.

Section Gate.
Context {record : Type} (E : env record).

Lemma os_path_exists_eq (p : string) (w : world) :
  os_path_exists E p w = (Ok (bool_decide (is_Some (fs w !! key E p))), w).
Proof. reflexivity. Qed.

(** The gate when the eval file of the period is there: nothing but a
    reading of the clock and a status line. *)
Lemma refresh_gate_present (cfg : config) (w : world) (lines : list string) :
  let path := join (eval_data_dir cfg) (eval_file_name (period_key E w)) in
  fs w !! key E path = Some lines ->
  refresh_gate E cfg w
  = (Ok (eval_file_name (period_key E w)),
     mkworld (fs w) (S (n_now w)) (n_rand w) (n_announce w)
       (trace w ++ [ELog (L_eval_exists path)])).
Proof.
  intros path Hf. unfold refresh_gate, datetime_now, os_path_exists.
  mrun. fold (period_key E w). fold path. rewrite Hf.
  rewrite bool_decide_eq_true_2 by eauto. cbn [negb]. mrun. reflexivity.
Qed.

(** The gate when it is missing: [load_dataset] runs. *)
Lemma refresh_gate_missing (cfg : config) (w : world) :
  let file := eval_file_name (period_key E w) in
  let path := join (eval_data_dir cfg) file in
  fs w !! key E path = None ->
  refresh_gate E cfg w
  = (let* _ := load_dataset E (eval_data_dir cfg) file in ret file)
      (mkworld (fs w) (S (n_now w)) (n_rand w) (n_announce w)
         (trace w ++ [ELog (L_eval_missing path); ELog L_download_first])).
Proof.
  intros file path Hf. unfold refresh_gate, datetime_now, os_path_exists.
  unfold bind at 1. cbn [fs n_now n_rand n_announce trace].
  fold (period_key E w). fold file. fold path.
  unfold bind at 1. cbn [fs n_now n_rand n_announce trace]. rewrite Hf.
  rewrite bool_decide_eq_false_2 by (intros [? ?]; discriminate). cbn [negb].
  unfold bind at 1. unfold bind at 1. unfold bind at 1. unfold log, emit.
  cbn [fs n_now n_rand n_announce trace]. rewrite <- !app_assoc. reflexivity.
Qed.

(** C10.  When the eval file of the period is missing, the refresh runs
    with [force=True]: [rmtree] of the eval-data directory comes first,
    then [makedirs], then the snapshot download; every file that was below
    the directory, eval files of earlier periods included, is gone before
    the files of the snapshot are laid down. *)
Theorem forced_refresh_purges (cfg : config) (w : world) (rev : string)
    (files : list (list string * list string)) (failure : option exn) :
  let file := eval_file_name (period_key E w) in
  let dir := eval_data_dir cfg in
  let ns := repo (env_competition E) in
  fs w !! key E (join dir file) = None ->
  env_get_hg_revision E ns (env_eval_commit E) = Ok rev ->
  env_snapshot_download E ns rev = (files, failure) ->
  exists w1,
    refresh_gate E cfg w
    = (let* _ := os_rename E (join dir "data.jsonl") (join dir file) in ret file) w1 /\
    trace w1
    = trace w ++
      [ELog (L_eval_missing (join dir file)); ELog L_download_first;
       EGetRevision ns (env_eval_commit E);
       ELog (L_force_download ns rev (absolute E dir));
       ERmtree (absolute E dir); EMakedirs (absolute E dir);
       ELog (L_downloading ns rev (absolute E dir));
       ESnapshotDownload ns (absolute E dir) rev] ++ failure_log failure /\
    key E (absolute E dir) = key E dir /\
    fs w1 = place (key E dir) files (purge (key E dir) (fs w)) /\
    (forall k, strictly_below (key E dir) k ->
               purge (key E dir) (fs w) !! k = None) /\
    (forall old : Calendar.datetime,
       purge (key E dir) (fs w)
         !! key E (join dir (eval_file_name (Calendar.strftime_YmdH old))) = None) /\
    (forall k, strictly_below (key E dir) k ->
               (forall rc, rc ∈ files -> key E dir ++ fst rc <> k) ->
               fs w1 !! k = None).
Proof.
  intros file dir ns Hmiss Hrev Hs.
  rewrite (refresh_gate_missing cfg w Hmiss). fold file dir.
  unfold bind at 1.
  rewrite (load_dataset_spec E dir file rev _ files failure Hrev Hs).
  cbn [fs n_now n_rand n_announce trace]. fold ns.
  eexists. split; [reflexivity|].
  cbn [fs trace]. split; [rewrite <- !app_assoc; reflexivity|].
  split; [apply key_absolute|]. split; [reflexivity|].
  split; [intros k Hk; apply purge_below; exact Hk|]. split.
  - intros old. apply purge_below.
    rewrite key_join by (apply eval_file_name_plain, strftime_YmdH_no_sep).
    apply strictly_below_snoc.
  - intros k Hk Hfiles. rewrite place_elsewhere by exact Hfiles.
    apply purge_below. exact Hk.
Qed.
End Gate.

(** ** Events of a run *)

Lemma emits_at_silent {A} (c : M A) (w : world) (P : event -> Prop) :
  trace (snd (c w)) = trace w -> emits_at c w P.
Proof. intros H. exists []. rewrite app_nil_r. split; [exact H | constructor]. Qed.

Lemma emits_at_these {A} (c : M A) (w : world) (P : event -> Prop) (new : list event) :
  trace (snd (c w)) = trace w ++ new -> Forall P new -> emits_at c w P.
Proof. intros H HP. exists new. split; assumption. Qed.

Lemma emits_at_bind {A B} (c : M A) (k : A -> M B) (w : world) (P : event -> Prop) :
  emits_at c w P ->
  (forall a w', c w = (Ok a, w') -> emits_at (k a) w' P) ->
  emits_at (bind c k) w P.
Proof.
  intros (new1 & H1 & HP1) Hk. unfold emits_at, bind.
  destruct (c w) as [[a|e|] w'] eqn:Hc; cbn [snd] in *.
  - destruct (Hk a w' eq_refl) as (new2 & H2 & HP2).
    exists (new1 ++ new2). rewrite H2, H1, app_assoc.
    split; [reflexivity | apply Forall_app; split; assumption].
  - exists new1. split; assumption.
  - exists new1. split; assumption.
Qed.

Lemma emits_at_weaken {A} (c : M A) (w : world) (P Q : event -> Prop) :
  (forall e, P e -> Q e) -> emits_at c w P -> emits_at c w Q.
Proof.
  intros HPQ (new & H & HP). exists new. split; [exact H|].
  eapply Forall_impl; [exact HP | exact HPQ].
Qed.

Section Run.
Context {record : Type} (E : env record).

Lemma commit_attempt_events (uid : string) (m : ModelId) (w : world) :
  emits_at (commit_attempt E uid m) w is_commit_event.
Proof.
  destruct (env_store_model_metadata E (n_announce w) uid (env_to_compressed_str E m))
    as [[]|e|] eqn:Hs.
  - eapply emits_at_these;
      [rewrite (commit_attempt_succeeds E uid m w Hs); reflexivity|].
    repeat constructor.
  - eapply emits_at_these;
      [rewrite (commit_attempt_fails E uid m e w Hs); reflexivity|].
    repeat constructor.
  - eapply emits_at_these;
      [unfold commit_attempt, try_except, bind, store_model_metadata;
       rewrite Hs; reflexivity|].
    repeat constructor.
Qed.

Lemma commit_loop_events (uid : string) (m : ModelId) (fuel : nat) :
  forall w, emits_at (commit_loop E fuel uid m) w is_commit_event.
Proof.
  induction fuel as [|fuel IH]; intros w.
  - apply emits_at_silent. reflexivity.
  - cbn [commit_loop]. apply emits_at_bind.
    + apply commit_attempt_events.
    + intros [|] w' _; [apply emits_at_silent; reflexivity | apply IH].
Qed.

(** *** The refresh gate, whatever happens *)

Lemma failure_log_gate (dir path : string) (failure : option exn) :
  Forall (is_gate_event dir path) (failure_log failure).
Proof. destruct failure; repeat constructor. Qed.

Lemma refresh_gate_outcome (cfg : config) (w : world) :
  let file := eval_file_name (period_key E w) in
  let path := join (eval_data_dir cfg) file in
  exists r w',
    refresh_gate E cfg w = (r, w') /\
    (forall a, r = Ok a -> a = file) /\
    n_now w' = S (n_now w) /\
    exists new, trace w' = trace w ++ new /\
                Forall (is_gate_event (eval_data_dir cfg) path) new.
Proof.
  intros file path.
  destruct (fs w !! key E path) as [lines|] eqn:Hf.
  - rewrite (refresh_gate_present E cfg w lines Hf).
    eexists _, _. split; [reflexivity|]. split; [intros a [= <-]; reflexivity|].
    split; [reflexivity|]. eexists. split; [reflexivity|]. repeat constructor.
  - rewrite (refresh_gate_missing E cfg w Hf). fold file path.
    unfold bind at 1.
    destruct (env_get_hg_revision E (repo (env_competition E)) (env_eval_commit E))
      as [rev|e|] eqn:Hrev.
    + destruct (env_snapshot_download E (repo (env_competition E)) rev)
        as [files failure] eqn:Hs.
      rewrite (load_dataset_spec E _ file rev _ files failure Hrev Hs).
      cbn [fs n_now n_rand n_announce trace].
      match goal with |- context [os_rename E ?s ?d ?w0] =>
        destruct (fs w0 !! key E s) as [ls|] eqn:Hd;
          [rewrite (os_rename_present E s d w0 ls Hd)
          |rewrite (os_rename_missing E s d w0 Hd)]
      end.
      * eexists _, _. split; [reflexivity|]. split; [intros a [= <-]; reflexivity|].
        split; [reflexivity|]. cbn [trace]. eexists. split.
        { rewrite <- !app_assoc. reflexivity. }
        repeat (apply Forall_cons; split; [cbn; auto|]).
        apply Forall_app. split; [apply failure_log_gate|].
        repeat constructor.
      * eexists _, _. split; [reflexivity|]. split; [intros a [=]|].
        split; [reflexivity|]. cbn [trace]. eexists. split.
        { rewrite <- !app_assoc. reflexivity. }
        repeat (apply Forall_cons; split; [cbn; auto|]).
        apply Forall_app. split; [apply failure_log_gate|].
        repeat constructor.
    + unfold load_dataset, get_hg_revision. mrun. rewrite Hrev.
      eexists _, _. split; [reflexivity|]. split; [intros a [=]|].
      split; [reflexivity|]. cbn [trace]. eexists. split.
      { rewrite <- !app_assoc. reflexivity. }
      repeat constructor.
    + unfold load_dataset, get_hg_revision. mrun. rewrite Hrev.
      eexists _, _. split; [reflexivity|]. split; [intros a [=]|].
      split; [reflexivity|]. cbn [trace]. eexists. split.
      { rewrite <- !app_assoc. reflexivity. }
      repeat constructor.
Qed.

(** *** The submission builder, whatever happens *)

Lemma make_submission_outcome
    (dir file sdir : string) (size : option Z) (w : world) :
  let out_path := join sdir (submission_file_name (period_key E w) size) in
  exists r w',
    make_submission E dir file sdir size w = (r, w') /\
    (forall p, r = Ok p -> p = out_path) /\
    exists new, trace w' = trace w ++ new /\
                Forall (is_submission_event (join dir file) sdir out_path) new.
Proof.
  intros out_path.
  destruct (fs w !! key E (join dir file)) as [lines|] eqn:Hf.
  - destruct (env_load_jsonl E lines) as [data|e|] eqn:Hl.
    + destruct (make_submission_spec E dir file sdir size w lines data Hf Hl)
        as (shuffled & _ & Hrun). cbn zeta in Hrun. rewrite Hrun.
      eexists _, _. split; [reflexivity|]. split; [intros p [= <-]; reflexivity|].
      eexists. split; [reflexivity|]. repeat constructor.
    + unfold make_submission, load_jsonl. mrun. rewrite Hf. mrun. rewrite Hl.
      eexists _, _. split; [reflexivity|]. split; [intros p [=]|].
      eexists. split; [reflexivity|]. repeat constructor.
    + unfold make_submission, load_jsonl. mrun. rewrite Hf. mrun. rewrite Hl.
      eexists _, _. split; [reflexivity|]. split; [intros p [=]|].
      eexists. split; [reflexivity|]. repeat constructor.
  - unfold make_submission, load_jsonl. mrun. rewrite Hf.
    eexists _, _. split; [reflexivity|]. split; [intros p [=]|].
    eexists. split; [reflexivity|]. repeat constructor.
Qed.

(** *** A run of [main] *)

Lemma emits_at_lift {A} (r : result A) (w : world) (P : event -> Prop) :
  emits_at (lift r) w P.
Proof. apply emits_at_silent. reflexivity. Qed.

Lemma emits_at_log (l : log_line) (w : world) (P : event -> Prop) :
  P (ELog l) -> emits_at (log l) w P.
Proof. intros H. eapply emits_at_these; [reflexivity | repeat constructor; exact H]. Qed.

(** The events of a run are those of the gate, of the builder, of the
    upload and of the commit loop, with status lines in between. *)
Lemma main_emits (fuel : nat) (cfg : config) (w : world) (P : event -> Prop) :
  (forall l, P (ELog l)) ->
  (forall u d, P (EStoreModelMetadata u d)) ->
  (forall t, P (ESleep t)) ->
  (forall w1, fs w1 = fs w -> n_now w1 = n_now w ->
     emits_at (refresh_gate E cfg) w1 P /\
     forall file w2, refresh_gate E cfg w1 = (Ok file, w2) ->
     forall w3, fs w3 = fs w2 -> n_now w3 = n_now w2 ->
       emits_at (make_submission E (eval_data_dir cfg) file (submission_dir cfg) None) w3 P /\
       forall p w4,
         make_submission E (eval_data_dir cfg) file (submission_dir cfg) None w3
         = (Ok p, w4) ->
         P (EUpload (hf_repo_id cfg) p)) ->
  emits_at (main E fuel cfg) w P.
Proof.
  intros Hlog Hstore Hsleep Hrest. unfold main.
  apply emits_at_bind; [apply emits_at_lift|]. intros ? w1 Hs; after_step Hs w1.
  apply emits_at_bind; [apply emits_at_lift|]. intros uid w1 Hs; after_step Hs w1.
  apply emits_at_bind; [apply emits_at_lift|]. intros ? w1 Hs; after_step Hs w1.
  apply emits_at_bind; [apply emits_at_log, Hlog|]. intros ? w1 Hs; after_step Hs w1.
  apply emits_at_bind; [apply emits_at_lift|]. intros ? w1 Hs; after_step Hs w1.
  match goal with |- emits_at _ ?w0 _ =>
    destruct (Hrest w0 eq_refl eq_refl) as [Hgate Hnext] end.
  apply emits_at_bind; [exact Hgate|]. intros file w3 Hg.
  apply emits_at_bind; [apply emits_at_log, Hlog|]. intros ? w4 Hs; after_step Hs w4.
  match goal with |- emits_at _ ?w0 _ =>
    destruct (Hnext file w3 Hg w0 eq_refl eq_refl) as [Hsub Hup] end.
  apply emits_at_bind; [exact Hsub|]. intros p w5 Hm.
  apply emits_at_bind.
  { eapply emits_at_these; [unfold upload_data; mrun; reflexivity|].
    repeat constructor. eapply Hup. exact Hm. }
  intros commit_id w6 _.
  apply emits_at_bind; [apply emits_at_log, Hlog|]. intros _ w7 _.
  apply emits_at_bind; [apply emits_at_log, Hlog|]. intros _ w8 _.
  eapply emits_at_weaken; [|apply commit_loop_events].
  intros [] He; cbn in He; try contradiction; auto.
Qed.

(** C6.  When the eval file of the current period exists, a run performs
    no action of a dataset refresh (no revision lookup, no [rmtree], no
    snapshot download, no rename); the only file it loads is that eval
    file, and what it writes is a rearrangement of the records it holds. *)
Theorem refresh_gate_idempotent
    (fuel : nat) (cfg : config) (w : world) (lines : list string) :
  let path := join (eval_data_dir cfg) (eval_file_name (period_key E w)) in
  fs w !! key E path = Some lines ->
  exists new,
    trace (snd (main E fuel cfg w)) = trace w ++ new /\
    Forall (uses_existing_file E path lines) new.
Proof.
  intros path Hf. apply main_emits.
  - intros l. split; reflexivity.
  - intros u d. split; reflexivity.
  - intros t. split; reflexivity.
  - intros w1 Hfs Hnow.
    assert (Hk : period_key E w1 = period_key E w)
      by (unfold period_key; rewrite Hnow; reflexivity).
    assert (Hf1 : fs w1 !! key E (join (eval_data_dir cfg)
                                    (eval_file_name (period_key E w1))) = Some lines)
      by (rewrite Hk, Hfs; exact Hf).
    pose proof (refresh_gate_present E cfg w1 lines Hf1) as Hg.
    split.
    { eapply emits_at_these; [rewrite Hg; reflexivity|].
      repeat constructor. }
    intros file w2 Hg2. rewrite Hg in Hg2. injection Hg2 as <- <-.
    cbn [fs n_now]. intros w3 Hfs3 _.
    assert (Hf3 : fs w3 !! key E (join (eval_data_dir cfg)
                                    (eval_file_name (period_key E w1))) = Some lines)
      by (rewrite Hfs3; exact Hf1).
    rewrite Hk in *. fold path in Hf3.
    destruct (env_load_jsonl E lines) as [data|e|] eqn:Hl.
    + destruct (make_submission_spec E _ _ (submission_dir cfg) None w3 lines data Hf3 Hl)
        as (shuffled & Hperm & Hrun). cbn zeta in Hrun. split.
      * eapply emits_at_these; [rewrite Hrun; reflexivity|].
        repeat (apply Forall_cons; split; [split; [reflexivity|cbn; auto]|]);
          [|constructor].
        exists data, shuffled. rewrite Hl. auto.
      * intros p w4 _. split; reflexivity.
    + split; [|intros p w4 _; split; reflexivity].
      eapply emits_at_these;
        [unfold make_submission, load_jsonl; mrun; fold path; rewrite Hf3; mrun;
         rewrite Hl; reflexivity|].
      repeat constructor.
    + split; [|intros p w4 _; split; reflexivity].
      eapply emits_at_these;
        [unfold make_submission, load_jsonl; mrun; fold path; rewrite Hf3; mrun;
         rewrite Hl; reflexivity|].
      repeat constructor.
Qed.

(** C7, as amended.  The period key is the rendering of a reading of the
    clock: the refresh gate names the eval file after it and
    [make_submission] the submission file.  Two readings of the same
    calendar hour give the same key, two readings of different hours give
    different keys, and between readings whose years are written on the same
    number of digits (from the year 1000 on, for one) a later reading never
    gives a smaller key, keys being compared as Python compares strings. *)
Theorem period_key_properties
    (cfg : config) (size : option Z) (w1 w2 : world) :
  let x := env_clock E (n_now w1) in
  let y := env_clock E (n_now w2) in
  datetime_ok x = true -> datetime_ok y = true ->
  (forall file w', refresh_gate E cfg w1 = (Ok file, w') ->
     file = eval_file_name (period_key E w1)) /\
  (forall dir file p w',
     make_submission E dir file (submission_dir cfg) size w1 = (Ok p, w') ->
     p = join (submission_dir cfg) (submission_file_name (period_key E w1) size)) /\
  (x = y -> period_key E w1 = period_key E w2) /\
  (same_calendar_hour x y -> period_key E w1 = period_key E w2) /\
  (~ same_calendar_hour x y -> period_key E w1 <> period_key E w2) /\
  (year_digits (year (date_of x)) = year_digits (year (date_of y)) ->
   datetime_le x y = true ->
   String.leb (period_key E w1) (period_key E w2) = true).
Proof.
  intros x y Hx Hy.
  destruct (strftime_YmdH_order x y Hx Hy) as (Hsame & Hdiff & Hmono).
  split; [|split; [|split; [|split; [|split]]]].
  - intros file w' Hg.
    destruct (refresh_gate_outcome cfg w1) as (r & w0 & Hg0 & Hfile & _).
    rewrite Hg in Hg0. injection Hg0 as <- <-. apply Hfile. reflexivity.
  - intros dir file p w' Hm.
    destruct (make_submission_outcome dir file (submission_dir cfg) size w1)
      as (r & w0 & Hm0 & Hp & _).
    rewrite Hm in Hm0. injection Hm0 as <- <-. apply Hp. reflexivity.
  - unfold period_key. fold x y. congruence.
  - exact Hsame.
  - exact Hdiff.
  - exact Hmono.
Qed.

(** C8, as amended.  In a run the eval file is named after the key of the
    clock reading taken by [main], the submission file, with or without a
    size, after the key of the reading taken later inside
    [make_submission]; the two keys are the same whenever both readings
    fall in the same calendar hour. *)
Theorem file_names_follow_clock (fuel : nat) (cfg : config) (w : world) :
  let t1 := env_clock E (n_now w) in
  let t2 := env_clock E (S (n_now w)) in
  let k1 := Calendar.strftime_YmdH t1 in
  let k2 := Calendar.strftime_YmdH t2 in
  let eval_path := join (eval_data_dir cfg) (eval_file_name k1) in
  (exists new,
     trace (snd (main E fuel cfg w)) = trace w ++ new /\
     Forall (names_follow_clock eval_path (submission_dir cfg) k2) new) /\
  (forall dir file sdir size w3 p w4,
     make_submission E dir file sdir size w3 = (Ok p, w4) ->
     p = join sdir (submission_file_name (period_key E w3) size)) /\
  (same_calendar_hour t1 t2 -> k1 = k2).
Proof.
  intros t1 t2 k1 k2 eval_path. split; [|split].
  3: { intros [Hd Hh]. unfold k1, k2, Calendar.strftime_YmdH.
       rewrite Hd, Hh. reflexivity. }
  2: { intros dir file sdir size w3 p w4 Hm.
       destruct (make_submission_outcome dir file sdir size w3)
         as (r & w0 & Hm0 & Hp & _).
       rewrite Hm in Hm0. injection Hm0 as <- <-. apply Hp. reflexivity. }
  apply main_emits; try (intros; exact I).
  intros w1 Hfs Hnow.
  destruct (refresh_gate_outcome cfg w1) as (r & w2 & Hg & Hfile & Hn2 & new & Hnew & HP).
  assert (Hk : period_key E w1 = k1)
    by (unfold period_key, k1, t1; rewrite Hnow; reflexivity).
  rewrite Hk in *. fold eval_path in HP. split.
  { eapply emits_at_these; [rewrite Hg; exact Hnew|].
    eapply Forall_impl; [exact HP|].
    intros [] He; cbn in *; try exact I; try contradiction. apply He. }
  intros file w2' Hg'. rewrite Hg in Hg'. injection Hg' as -> <-.
  rewrite (Hfile file eq_refl). intros w3 _ Hn3.
  destruct (make_submission_outcome (eval_data_dir cfg)
              (eval_file_name k1) (submission_dir cfg) None w3)
    as (r3 & w4 & Hm & Hp & new3 & Hnew3 & HP3).
  assert (Hk3 : period_key E w3 = k2)
    by (unfold period_key, k2, t2; rewrite Hn3, Hn2, Hnow; reflexivity).
  rewrite Hk3 in *. fold eval_path in HP3. split.
  { eapply emits_at_these; [rewrite Hm; exact Hnew3|].
    eapply Forall_impl; [exact HP3|].
    intros [] He; cbn in *; try exact I; try contradiction;
      [exact He | exists None; exact He]. }
  intros p w5 Hm'. rewrite Hm in Hm'. injection Hm' as -> <-.
  cbn. exists None. apply Hp. reflexivity.
Qed.
End Run.

(** ** End to end *)

Section EndToEnd.
Context {record : Type} (E : env record).

(** C1.  When the ledger rejects the first [N] calls, with whatever
    exceptions [errs], and accepts the next one, the retry loop returns
    normally after exactly [N + 1] announce calls, all with the same
    serialized payload, with one sleep of 120 seconds after each failed
    call and none after the success.  This holds for every [N]. *)
Theorem commit_retrier
    (uid : string) (m : ModelId) (errs : list exn) (w : world) (fuel : nat) :
  let payload := env_to_compressed_str E m in
  (forall i e, errs !! i = Some e ->
     env_store_model_metadata E (n_announce w + i) uid payload = Raise e) ->
  env_store_model_metadata E (n_announce w + length errs) uid payload = Ok tt ->
  (length errs < fuel)%nat ->
  exists w',
    commit_loop E fuel uid m w = (Ok tt, w') /\
    trace w' = trace w ++ commit_trace uid payload errs /\
    n_announce w' = (n_announce w + length errs + 1)%nat /\
    filter (fun e => is_announce e = true) (commit_trace uid payload errs)
    = replicate (S (length errs)) (EStoreModelMetadata uid payload) /\
    filter (fun e => is_sleep e = true) (commit_trace uid payload errs)
    = replicate (length errs) (ESleep (120 * 1000000)) /\
    last (commit_trace uid payload errs) = Some (ELog L_committed).
Proof.
  intros payload Hfail Hok Hfuel.
  eexists. split; [apply commit_loop_trace; eassumption|].
  cbn [trace n_announce]. split; [reflexivity|]. split; [reflexivity|].
  split; [apply commit_trace_announces|]. split; [apply commit_trace_sleeps|].
  unfold commit_trace, success_events.
  rewrite last_app. reflexivity.
Qed.

(** A whole run when the eval file of the period is there and every
    collaborator answers: the ledger after rejecting with [errs]. *)
Lemma main_success
    (fuel : nat) (cfg : config) (w : world) (lines : list string)
    (data : list record) (uid : Z) (commit_id : string) (errs : list exn) :
  let path := join (eval_data_dir cfg) (eval_file_name (period_key E w)) in
  let sub_path :=
    join (submission_dir cfg)
      (submission_file_name (strftime_YmdH (env_clock E (S (n_now w)))) None) in
  let m := mkModelId (hf_repo_id cfg) commit_id (id (env_competition E)) in
  let payload := env_to_compressed_str E m in
  env_bittensor E = Ok tt ->
  PyStr.py_int (netuid cfg) = Some uid ->
  env_metagraph E uid = Ok tt ->
  env_assert_registered E = Ok tt ->
  fs w !! key E path = Some lines ->
  env_load_jsonl E lines = Ok data ->
  (forall content, env_upload_data E (hf_repo_id cfg) sub_path content = Ok commit_id) ->
  (forall i e, errs !! i = Some e ->
     env_store_model_metadata E (n_announce w + i) (netuid cfg) payload = Raise e) ->
  env_store_model_metadata E (n_announce w + length errs) (netuid cfg) payload = Ok tt ->
  (length errs < fuel)%nat ->
  exists shuffled,
    shuffled ≡ₚ data /\
    main E fuel cfg w
    = (Ok tt,
       mkworld (<[key E sub_path := map (jsonl_line E) shuffled]> (fs w))
         (S (S (n_now w))) (n_rand w + (length data - 1))
         (n_announce w + length errs + 1)
         (trace w ++
          [ELog L_starting; ELog (L_eval_exists path); ELog L_submission_mode;
           ELoadJsonl path; EMakedirs (submission_dir cfg);
           ELog (L_saving sub_path);
           EWriteFile sub_path (map (jsonl_line E) shuffled);
           ELog (L_saved sub_path);
           EUpload (hf_repo_id cfg) sub_path; ELog (L_uploaded commit_id);
           ELog (L_now_committing m)] ++
          commit_trace (netuid cfg) payload errs)).
Proof.
  intros path sub_path m payload Hbt Hint Hmg Hreg Hf Hl Hup Hfail Hok Hfuel.
  pose proof (refresh_gate_present E cfg
                (mkworld (fs w) (n_now w) (n_rand w) (n_announce w)
                   (trace w ++ [ELog L_starting])) lines Hf) as Hg.
  cbn zeta in Hg. cbn [fs n_now n_rand n_announce trace] in Hg.
  change (period_key E (mkworld (fs w) (n_now w) (n_rand w) (n_announce w)
                          (trace w ++ [ELog L_starting])))
    with (period_key E w) in Hg.
  fold path in Hg.
  destruct (make_submission_spec E (eval_data_dir cfg) (eval_file_name (period_key E w))
              (submission_dir cfg) None
              (mkworld (fs w) (S (n_now w)) (n_rand w) (n_announce w)
                 (trace w ++ [ELog L_starting; ELog (L_eval_exists path);
                              ELog L_submission_mode]))
              lines data Hf Hl)
    as (shuffled & Hperm & Hrun).
  cbn zeta in Hrun. cbn [written_items fs n_now n_rand n_announce trace] in Hrun.
  unfold period_key in Hrun. cbn [n_now] in Hrun.
  change (strftime_YmdH (env_clock E (n_now w))) with (period_key E w) in Hrun.
  fold path sub_path in Hrun.
  exists shuffled. split; [exact Hperm|].
  unfold main, int. rewrite Hint.
  unfold bind at 1. unfold lift at 1. rewrite Hbt.
  unfold bind at 1. unfold lift at 1.
  unfold bind at 1. unfold lift at 1. rewrite Hmg.
  unfold bind at 1. unfold log at 1, emit at 1.
  unfold bind at 1. unfold lift at 1. rewrite Hreg.
  unfold bind at 1. rewrite Hg.
  unfold bind at 1. unfold log at 1, emit at 1.
  cbn [fs n_now n_rand n_announce trace].
  rewrite <- !app_assoc. cbn [app].
  unfold bind at 1. rewrite Hrun.
  unfold bind at 1. unfold upload_data. mrun. rewrite Hup.
  fold m.
  match goal with |- commit_loop E fuel _ m ?w0 = _ =>
    rewrite (commit_loop_trace E (netuid cfg) m errs w0 fuel Hfail Hok Hfuel) end.
  cbn [fs n_now n_rand n_announce trace]. fold payload.
  rewrite <- !app_assoc. reflexivity.
Qed.
End EndToEnd.

(** ** The sample runs *)

(** C2.  A run with [--submission-size 500] on an eval file of 10000
    records: [main] never hands the size to [make_submission], so the one
    file written holds all 10000 records and carries no size suffix; one
    upload follows, and one announce of the serialized [ModelId]. *)
Theorem submission_cap_not_applied :
  let E := Sample.miner_env Sample.steady Sample.accepting Sample.no_snapshot in
  exists w' written,
    script E 1 (Sample.cfg (Some 500)) (initial_world Sample.large_fs) = (Ok tt, w') /\
    fs w' !! Sample.submission_key "submission_2026110413.jsonl" = Some written /\
    Z.of_nat (length written) = 10000 /\
    fs w' !! Sample.submission_key "submission_2026110413_500.jsonl" = None /\
    length (filter (fun e => is_write e = true) (trace w')) = 1%nat /\
    length (filter (fun e => is_upload e = true) (trace w')) = 1%nat /\
    filter (fun e => is_announce e = true) (trace w')
    = [EStoreModelMetadata "96" "miner/submissions:c0ffee:1"].
Proof.
  intros E.
  destruct (main_success E 1 (Sample.cfg (Some 500)) (initial_world Sample.large_fs)
              Sample.ten_thousand Sample.ten_thousand 96 "c0ffee" [])
    as (shuffled & Hperm & Hrun);
    try reflexivity; try (intros i e H; destruct i; discriminate H); try (cbn; lia).
  eexists _, _. split; [exact Hrun|]. cbn [fs trace].
  split; [apply lookup_insert_eq|].
  split.
  { rewrite length_map, (Permutation_length Hperm).
    unfold Sample.ten_thousand. rewrite length_replicate. reflexivity. }
  split.
  { rewrite lookup_insert_ne by discriminate. apply lookup_singleton_ne. discriminate. }
  repeat split; reflexivity.
Qed.

(** C3 as stated fails on 9999-12-31 at noon for a run scheduled at 10:00:
    adding one day raises [OverflowError] and no instant is computed. *)
Lemma next_run_overflows_on_last_day :
  let E := Sample.miner_env (fun _ => Sample.last_noon) Sample.accepting Sample.no_snapshot in
  parse_run_at "10:00" = Ok (mktime 10 0 0 0) /\
  datetime_ok Sample.last_noon = true /\
  next_run (mktime 10 0 0 0) Sample.last_noon
  = Raise (OverflowError "date value out of range") /\
  fst (wait_until E "10:00" (initial_world ∅))
  = Raise (OverflowError "date value out of range") /\
  ~ (exists r, next_run (mktime 10 0 0 0) Sample.last_noon = Ok r /\
               datetime_lt Sample.last_noon r = true).
Proof.
  intros E. repeat split; try reflexivity.
  intros (r & Hr & _). discriminate Hr.
Qed.

(** C8 as stated fails when the hour changes between the two readings of
    the clock: the eval file carries key 2026110413, the submission file key
    2026110414, and no single key names both. *)
Lemma keys_differ_across_the_hour :
  let E := Sample.miner_env Sample.across_the_hour Sample.accepting Sample.no_snapshot in
  let tr := trace (snd (main E 1 (Sample.cfg None) (initial_world Sample.small_fs))) in
  fst (main E 1 (Sample.cfg None) (initial_world Sample.small_fs)) = Ok tt /\
  ELoadJsonl (join "data/eval_data" (eval_file_name "2026110413")) ∈ tr /\
  (exists out,
     EWriteFile (join "data/submissions" (submission_file_name "2026110414" None)) out
     ∈ tr) /\
  ~ (exists k size out,
       ELoadJsonl (join "data/eval_data" (eval_file_name k)) ∈ tr /\
       EWriteFile (join "data/submissions" (submission_file_name k size)) out ∈ tr).
Proof.
  intros E tr.
  assert (Htr : exists out,
    tr = [ELog L_starting;
          ELog (L_eval_exists "data/eval_data/eval_data_2026110413.jsonl");
          ELog L_submission_mode;
          ELoadJsonl "data/eval_data/eval_data_2026110413.jsonl";
          EMakedirs "data/submissions";
          ELog (L_saving "data/submissions/submission_2026110414.jsonl");
          EWriteFile "data/submissions/submission_2026110414.jsonl" out;
          ELog (L_saved "data/submissions/submission_2026110414.jsonl");
          EUpload "miner/submissions" "data/submissions/submission_2026110414.jsonl";
          ELog (L_uploaded "c0ffee");
          ELog (L_now_committing (mkModelId "miner/submissions" "c0ffee" "1"));
          EStoreModelMetadata "96" "miner/submissions:c0ffee:1";
          ELog L_committed]).
  { eexists. vm_compute. reflexivity. }
  destruct Htr as [out Htr]. rewrite Htr. split; [vm_compute; reflexivity|].
  split; [do 3 right; left|]. split.
  { exists out. do 6 right. left. }
  intros (k & size & out' & Hl & Hw).
  assert (Hk1 : k = "2026110413").
  { repeat (apply elem_of_cons in Hl as [Hl|Hl]; [try discriminate Hl|]).
    - injection Hl as Hl. apply (string_app_inv_tail k "2026110413" ".jsonl"). exact Hl.
    - inversion Hl. }
  subst k.
  repeat (apply elem_of_cons in Hw as [Hw|Hw]; [try discriminate Hw|]).
  - injection Hw as Hw _. destruct size; vm_compute in Hw; discriminate Hw.
  - inversion Hw.
Qed.

(** C1 on a ledger that rejects two calls. *)
Lemma commit_retrier_witness :
  let E := Sample.miner_env Sample.steady Sample.twice_rejecting Sample.no_snapshot in
  let m := mkModelId "miner/submissions" "c0ffee" "1" in
  let errs := [Sample.too_soon; Sample.too_soon] in
  (forall i e, errs !! i = Some e ->
     env_store_model_metadata E (0 + i) "96" (env_to_compressed_str E m) = Raise e) /\
  env_store_model_metadata E (0 + length errs) "96" (env_to_compressed_str E m) = Ok tt /\
  (length errs < 3)%nat /\
  exists w',
    commit_loop E 3 "96" m (initial_world ∅) = (Ok tt, w') /\
    n_announce w' = 3%nat.
Proof.
  intros E m errs.
  assert (H1 : forall i e, errs !! i = Some e ->
     env_store_model_metadata E (0 + i) "96" (env_to_compressed_str E m) = Raise e).
  { intros [|[|i]] e He; cbn in He; inversion He; reflexivity. }
  assert (H2 : env_store_model_metadata E (0 + length errs) "96"
                 (env_to_compressed_str E m) = Ok tt) by reflexivity.
  assert (H3 : (length errs < 3)%nat) by (cbn; lia).
  split; [exact H1|]. split; [exact H2|]. split; [exact H3|].
  destruct (commit_retrier E "96" m errs (initial_world ∅) 3 H1 H2 H3)
    as (w' & Hrun & _ & Hn & _).
  exists w'. split; [exact Hrun | exact Hn].
Defined.

(** C3 at one o'clock for a run scheduled at 14:30. *)
Lemma wait_until_next_run_witness :
  let E := Sample.miner_env Sample.steady Sample.accepting Sample.no_snapshot in
  let target := mktime 14 30 0 0 in
  parse_run_at "14:30" = Ok target /\
  datetime_ok Sample.one_pm = true /\
  date_of Sample.one_pm <> date_max /\
  exists r,
    next_run target Sample.one_pm = Ok r /\
    datetime_lt Sample.one_pm r = true /\
    fst (wait_until E "14:30" (initial_world ∅)) = Ok tt.
Proof.
  intros E target.
  assert (H1 : parse_run_at "14:30" = Ok target) by (vm_compute; reflexivity).
  assert (H2 : datetime_ok (env_clock E (n_now (initial_world ∅))) = true)
    by (vm_compute; reflexivity).
  assert (H3 : date_of (env_clock E (n_now (initial_world ∅))) <> date_max)
    by (vm_compute; discriminate).
  split; [exact H1|]. split; [exact H2|]. split; [exact H3|].
  destruct (wait_until_next_run E "14:30" target (initial_world ∅) H1 H2 (or_introl H3))
    as (r & Hr & Hlt & _ & _ & _ & Hrun).
  exists r. split; [exact Hr|]. split; [exact Hlt|].
  rewrite Hrun. reflexivity.
Defined.

(** C4 on the schedule 25:00. *)
Lemma wait_until_malformed_witness :
  let E := Sample.miner_env Sample.steady Sample.accepting Sample.no_snapshot in
  well_formed_schedule "25:00" = false /\
  exists e,
    wait_until E "25:00" (initial_world ∅) = (Raise e, initial_world ∅) /\
    schedule_error "25:00" e.
Proof.
  intros E.
  assert (H : well_formed_schedule "25:00" = false) by (vm_compute; reflexivity).
  split; [exact H|].
  exact (wait_until_malformed E "25:00" (initial_world ∅) H).
Defined.

(** C5 on four records capped at two. *)
Lemma submission_builder_witness :
  let E := Sample.miner_env Sample.steady Sample.accepting Sample.no_snapshot in
  let w := initial_world Sample.small_fs in
  fs w !! key E (join "data/eval_data" "eval_data_2026110413.jsonl")
  = Some Sample.four_records /\
  env_load_jsonl E Sample.four_records = Ok Sample.four_records /\
  (2 <= length Sample.four_records)%nat /\
  exists written path w',
    make_submission E "data/eval_data" "eval_data_2026110413.jsonl"
      "data/submissions" (Some 2) w = (Ok path, w') /\
    length written = 2%nat /\
    written ⊆+ Sample.four_records.
Proof.
  intros E w.
  assert (H1 : fs w !! key E (join "data/eval_data" "eval_data_2026110413.jsonl")
               = Some Sample.four_records) by reflexivity.
  assert (H2 : env_load_jsonl E Sample.four_records = Ok Sample.four_records)
    by reflexivity.
  assert (H3 : (2 <= length Sample.four_records)%nat) by (cbn; lia).
  split; [exact H1|]. split; [exact H2|]. split; [exact H3|].
  destruct (submission_builder E "data/eval_data" "eval_data_2026110413.jsonl"
              "data/submissions" w Sample.four_records Sample.four_records H1 H2)
    as [Hcap _].
  destruct (Hcap 2%nat H3) as (written & path & w' & Hrun & _ & _ & Hlen & _ & Hsub & _).
  exists written, path, w'. split; [exact Hrun|]. split; [exact Hlen | exact Hsub].
Defined.

(** C6 on a run that finds its eval file. *)
Lemma refresh_gate_idempotent_witness :
  let E := Sample.miner_env Sample.steady Sample.accepting Sample.no_snapshot in
  let w := initial_world Sample.small_fs in
  let path := join "data/eval_data" (eval_file_name (period_key E w)) in
  fs w !! key E path = Some Sample.four_records /\
  exists new,
    trace (snd (main E 1 (Sample.cfg None) w)) = trace w ++ new /\
    Forall (uses_existing_file E path Sample.four_records) new.
Proof.
  intros E w path. split; [reflexivity|].
  exact (refresh_gate_idempotent E 1 (Sample.cfg None) w Sample.four_records eq_refl).
Defined.

(** C7 as stated fails across the turn of the year 1000: the key of
    0999-12-31 23h is 999123123, which Python orders after 1000010100, the
    key of the hour that follows. *)
Lemma period_key_not_monotone_before_1000 :
  let E := Sample.miner_env MoreSamples.turn_of_1000 Sample.accepting
             Sample.no_snapshot in
  let w1 := initial_world ∅ in
  let w2 := MoreSamples.second_reading in
  datetime_ok (env_clock E (n_now w1)) = true /\
  datetime_ok (env_clock E (n_now w2)) = true /\
  datetime_le (env_clock E (n_now w1)) (env_clock E (n_now w2)) = true /\
  period_key E w1 = "999123123" /\
  period_key E w2 = "1000010100" /\
  String.leb (period_key E w1) (period_key E w2) = false.
Proof. intros E w1 w2. repeat split; vm_compute; reflexivity. Qed.

(** C7 on two instants of the same hour. *)
Lemma period_key_properties_witness :
  let E := Sample.miner_env MoreSamples.within_the_hour Sample.accepting
             Sample.no_snapshot in
  let w1 := initial_world ∅ in
  let w2 := MoreSamples.second_reading in
  let x := env_clock E (n_now w1) in
  let y := env_clock E (n_now w2) in
  datetime_ok x = true /\ datetime_ok y = true /\
  same_calendar_hour x y /\
  year_digits (year (date_of x)) = year_digits (year (date_of y)) /\
  datetime_le x y = true /\
  period_key E w1 = period_key E w2 /\
  String.leb (period_key E w1) (period_key E w2) = true.
Proof.
  intros E w1 w2 x y.
  assert (H1 : datetime_ok x = true) by (vm_compute; reflexivity).
  assert (H2 : datetime_ok y = true) by (vm_compute; reflexivity).
  assert (Hs : same_calendar_hour x y) by (split; reflexivity).
  assert (Hd : year_digits (year (date_of x)) = year_digits (year (date_of y)))
    by reflexivity.
  assert (Hle : datetime_le x y = true) by (vm_compute; reflexivity).
  split; [exact H1|]. split; [exact H2|]. split; [exact Hs|]. split; [exact Hd|].
  split; [exact Hle|].
  destruct (period_key_properties E (Sample.cfg None) None w1 w2 H1 H2)
    as (_ & _ & _ & Hsame & _ & Hmono).
  split; [exact (Hsame Hs) | exact (Hmono Hd Hle)].
Defined.

(** C8 with a steady clock. *)
Lemma file_names_follow_clock_witness :
  let E := Sample.miner_env Sample.steady Sample.accepting Sample.no_snapshot in
  let w := initial_world Sample.small_fs in
  same_calendar_hour (env_clock E (n_now w)) (env_clock E (S (n_now w))) /\
  strftime_YmdH (env_clock E (n_now w)) = strftime_YmdH (env_clock E (S (n_now w))).
Proof.
  intros E w.
  assert (Hs : same_calendar_hour (env_clock E (n_now w)) (env_clock E (S (n_now w))))
    by (split; reflexivity).
  split; [exact Hs|].
  destruct (file_names_follow_clock E 1 (Sample.cfg None) w) as (_ & _ & Hk).
  exact (Hk Hs).
Defined.

(** C9 on a snapshot download that fails. *)
Lemma download_failure_surfaces_downstream_witness :
  let E := Sample.miner_env Sample.steady Sample.accepting Sample.failed_snapshot in
  let w := initial_world Sample.stale_fs in
  env_get_hg_revision E (repo (env_competition E)) (env_eval_commit E) = Ok "abc123" /\
  env_snapshot_download E (repo (env_competition E)) "abc123"
  = ([], Some (ExternalError "ConnectionError" "unreachable")) /\
  (exists w', download_dataset E "flock-io/eval-data" "abc123" "data/eval_data" true w
              = (Ok tt, w')) /\
  exists w',
    load_dataset E "data/eval_data" "eval_data_2026110413.jsonl" w
    = (Raise (FileNotFoundError (join "data/eval_data" "data.jsonl")), w').
Proof.
  intros E w. split; [reflexivity|]. split; [reflexivity|].
  destruct (download_failure_surfaces_downstream E "flock-io/eval-data" "abc123"
              "data/eval_data" true w) as [(w1 & Hd & _) Hdown].
  split; [exists w1; exact Hd|].
  destruct (Hdown "eval_data_2026110413.jsonl" "abc123" []
              (ExternalError "ConnectionError" "unreachable") eq_refl eq_refl)
    as (w' & Hl & _).
  { intros rc Hin. inversion Hin. }
  exists w'. exact Hl.
Defined.

(** C10 on a directory holding only stale files. *)
Lemma forced_refresh_purges_witness :
  let E := Sample.miner_env Sample.steady Sample.accepting Sample.failed_snapshot in
  let w := initial_world Sample.stale_fs in
  fs w !! key E (join "data/eval_data" (eval_file_name (period_key E w))) = None /\
  env_get_hg_revision E (repo (env_competition E)) (env_eval_commit E) = Ok "abc123" /\
  env_snapshot_download E (repo (env_competition E)) "abc123"
  = ([], Some (ExternalError "ConnectionError" "unreachable")) /\
  fs w !! Sample.eval_key "notes.txt" = Some ["keep"] /\
  exists w1,
    refresh_gate E (Sample.cfg None) w
    = (let* _ := os_rename E (join "data/eval_data" "data.jsonl")
                   (join "data/eval_data" (eval_file_name (period_key E w)))
       in ret (eval_file_name (period_key E w))) w1 /\
    fs w1 !! Sample.eval_key "notes.txt" = None /\
    fs w1 !! Sample.eval_key "eval_data_2026110412.jsonl" = None.
Proof.
  intros E w. split; [reflexivity|]. split; [reflexivity|]. split; [reflexivity|].
  split; [reflexivity|].
  destruct (forced_refresh_purges E (Sample.cfg None) w "abc123" []
              (Some (ExternalError "ConnectionError" "unreachable"))
              eq_refl eq_refl eq_refl)
    as (w1 & Hrun & _ & _ & _ & _ & _ & Hgone).
  exists w1. split; [exact Hrun|]. split.
  - apply Hgone.
    + split; [exists ["notes.txt"]; reflexivity | discriminate].
    + intros rc Hin. inversion Hin.
  - apply Hgone.
    + split; [exists ["eval_data_2026110412.jsonl"]; reflexivity | discriminate].
    + intros rc Hin. inversion Hin.
Defined.

(** * Further properties of the script *)

(** ** Dataset download and refresh *)

Lemma place_outside (d k : list string) (files : list (list string * list string))
    (f : gmap (list string) (list string)) :
  ~ d `prefix_of` k -> place d files f !! k = f !! k.
Proof.
  intros H. apply place_elsewhere. intros rc _ <-. apply H.
  exists (fst rc). reflexivity.
Qed.

Lemma purge_outside (d k : list string) (f : gmap (list string) (list string)) :
  ~ d `prefix_of` k -> purge d f !! k = f !! k.
Proof. intros H. apply purge_elsewhere. intros [Hp _]. exact (H Hp). Qed.

Lemma failure_log_no_rmtree (failure : option exn) :
  filter (fun e => is_rmtree e = true) (failure_log failure) = [].
Proof. destruct failure; reflexivity. Qed.

Section FurtherFetch.
Context {record : Type} (E : env record).

(** X1.  Whatever [download_dataset] does, forced or not, and however it
    ends, it changes no file outside [local_dir]: a path that [local_dir]
    is not a prefix of holds after the call what it held before.  It reads
    no clock, draws no random number and calls no ledger. *)
Theorem download_dataset_stays_inside
    (ns rev dir : string) (force : bool) (w w' : world) (r : result unit)
    (k : list string) :
  ~ key E dir `prefix_of` k ->
  download_dataset E ns rev dir force w = (r, w') ->
  fs w' !! k = fs w !! k /\
  n_now w' = n_now w /\ n_rand w' = n_rand w /\ n_announce w' = n_announce w.
Proof.
  intros Hk.
  destruct (env_snapshot_download E ns rev) as [files failure] eqn:Hs.
  destruct force.
  - rewrite (download_dataset_forced E ns rev dir w files failure Hs).
    intros [= <- <-]. cbn [fs n_now n_rand n_announce].
    rewrite place_outside, purge_outside by exact Hk. auto.
  - rewrite (download_dataset_unforced E ns rev dir w files failure Hs).
    intros [= <- <-]. cbn [fs n_now n_rand n_announce].
    rewrite place_outside by exact Hk. auto.
Qed.

(** X2.  Without [force], [download_dataset] deletes nothing: every path
    the snapshot does not write, inside [local_dir] or not, holds after the
    call what it held before, and no [rmtree] is performed. *)
Theorem unforced_download_deletes_nothing
    (ns rev dir : string) (w : world) (k : list string) :
  (forall rc, rc ∈ fst (env_snapshot_download E ns rev) -> key E dir ++ fst rc <> k) ->
  exists w',
    download_dataset E ns rev dir false w = (Ok tt, w') /\
    fs w' !! k = fs w !! k /\
    filter (fun e => is_rmtree e = true) (trace w')
    = filter (fun e => is_rmtree e = true) (trace w).
Proof.
  destruct (env_snapshot_download E ns rev) as [files failure] eqn:Hs.
  cbn [fst]. intros Hk.
  rewrite (download_dataset_unforced E ns rev dir w files failure Hs).
  eexists. split; [reflexivity|]. cbn [fs trace]. split.
  - apply place_elsewhere. exact Hk.
  - rewrite !filter_app, failure_log_no_rmtree.
    cbn. rewrite app_nil_r. reflexivity.
Qed.

Lemma join_keys_differ (dir f g : string) :
  plain_name f = true -> plain_name g = true -> f <> g ->
  key E (PyPath.join dir f) <> key E (PyPath.join dir g).
Proof.
  intros Hf Hg Hne. rewrite !key_join by assumption.
  intros H. apply app_inv_head in H. congruence.
Qed.

Lemma key_join_inside (dir f : string) (k : list string) :
  plain_name f = true -> ~ key E dir `prefix_of` k -> key E (PyPath.join dir f) <> k.
Proof.
  intros Hf Hk <-. apply Hk. rewrite key_join by exact Hf.
  exists [f]. reflexivity.
Qed.

(** What [load_dataset] leaves when the revision resolves and the snapshot
    wrote [data.jsonl]. *)
Lemma load_dataset_renames (dir file rev : string) (w : world)
    (lines : list string) (rest : list (list string * list string))
    (failure : option exn) :
  let ns := repo (env_competition E) in
  let src := key E (PyPath.join dir "data.jsonl") in
  env_get_hg_revision E ns (env_eval_commit E) = Ok rev ->
  env_snapshot_download E ns rev = ((["data.jsonl"], lines) :: rest, failure) ->
  load_dataset E dir file w
  = (Ok tt,
     mkworld (<[key E (PyPath.join dir file) := lines]>
                (delete src (<[src := lines]>
                   (place (key E dir) rest (purge (key E dir) (fs w))))))
       (n_now w) (n_rand w) (n_announce w)
       (trace w ++
        [EGetRevision ns (env_eval_commit E);
         ELog (L_force_download ns rev (absolute E dir));
         ERmtree (absolute E dir); EMakedirs (absolute E dir);
         ELog (L_downloading ns rev (absolute E dir));
         ESnapshotDownload ns (absolute E dir) rev] ++ failure_log failure ++
        [ERename (PyPath.join dir "data.jsonl") (PyPath.join dir file)])).
Proof.
  intros ns src Hrev Hs.
  rewrite (load_dataset_spec E dir file rev w _ failure Hrev Hs).
  assert (Hsrc : src = key E dir ++ ["data.jsonl"])
    by (apply key_join, data_jsonl_plain).
  erewrite os_rename_present.
  - cbn [fs n_now n_rand n_announce trace place foldr fst snd]. fold src.
    rewrite <- Hsrc. rewrite <- !app_assoc. reflexivity.
  - cbn [fs place foldr fst snd]. fold src. rewrite <- Hsrc.
    apply lookup_insert_eq.
Qed.

(** X3.  When the revision resolves and the snapshot wrote [data.jsonl],
    [load_dataset] returns normally, whether or not the download then
    failed; afterwards the eval file holds the lines of that [data.jsonl],
    [data.jsonl] itself is gone unless it is the eval file, and nothing
    outside the eval-data directory has changed. *)
Theorem load_dataset_installs_eval_file
    (dir file rev : string) (w : world)
    (lines : list string) (rest : list (list string * list string))
    (failure : option exn) :
  let ns := repo (env_competition E) in
  plain_name file = true ->
  env_get_hg_revision E ns (env_eval_commit E) = Ok rev ->
  env_snapshot_download E ns rev = ((["data.jsonl"], lines) :: rest, failure) ->
  exists w',
    load_dataset E dir file w = (Ok tt, w') /\
    fs w' !! key E (PyPath.join dir file) = Some lines /\
    (file <> "data.jsonl" -> fs w' !! key E (PyPath.join dir "data.jsonl") = None) /\
    (forall k, ~ key E dir `prefix_of` k -> fs w' !! k = fs w !! k).
Proof.
  intros ns Hplain Hrev Hs.
  rewrite (load_dataset_renames dir file rev w lines rest failure Hrev Hs).
  eexists. split; [reflexivity|]. cbn [fs]. split; [|split].
  - apply lookup_insert_eq.
  - intros Hne. rewrite lookup_insert_ne
      by (apply join_keys_differ; [exact Hplain | apply data_jsonl_plain | exact Hne]).
    apply lookup_delete_eq.
  - intros k Hk.
    rewrite lookup_insert_ne by (apply key_join_inside; assumption).
    rewrite lookup_delete_ne by (apply key_join_inside; [apply data_jsonl_plain | exact Hk]).
    rewrite lookup_insert_ne by (apply key_join_inside; [apply data_jsonl_plain | exact Hk]).
    rewrite place_outside, purge_outside by exact Hk. reflexivity.
Qed.

(** X5.  Whenever the refresh gate returns, the file it names is the eval
    file of the period and that file exists: [make_submission] is never
    started on a missing eval file. *)
Theorem refresh_gate_leaves_eval_file
    (cfg : config) (w w' : world) (file : string) :
  refresh_gate E cfg w = (Ok file, w') ->
  file = eval_file_name (period_key E w) /\
  is_Some (fs w' !! key E (PyPath.join (eval_data_dir cfg) file)).
Proof.
  set (name := eval_file_name (period_key E w)).
  destruct (fs w !! key E (PyPath.join (eval_data_dir cfg) name)) as [lines|] eqn:Hf.
  - rewrite (refresh_gate_present E cfg w lines Hf). intros [= <- <-].
    split; [reflexivity|]. cbn [fs]. fold name. rewrite Hf. eauto.
  - rewrite (refresh_gate_missing E cfg w Hf). fold name. unfold bind at 1.
    destruct (env_get_hg_revision E (repo (env_competition E)) (env_eval_commit E))
      as [rev|e|] eqn:Hrev.
    + destruct (env_snapshot_download E (repo (env_competition E)) rev)
        as [files failure] eqn:Hs.
      rewrite (load_dataset_spec E _ name rev _ files failure Hrev Hs).
      cbn [fs n_now n_rand n_announce trace].
      match goal with |- context [os_rename E ?s ?d ?w0] =>
        destruct (fs w0 !! key E s) as [ls|] eqn:Hd;
          [rewrite (os_rename_present E s d w0 ls Hd)
          |rewrite (os_rename_missing E s d w0 Hd)]
      end; [|discriminate].
      unfold ret. intros [= <- <-]. split; [reflexivity|]. cbn [fs].
      rewrite lookup_insert_eq. eauto.
    + unfold load_dataset, get_hg_revision. mrun. rewrite Hrev. discriminate.
    + unfold load_dataset, get_hg_revision. mrun. rewrite Hrev. discriminate.
Qed.

End FurtherFetch.

(** ** The submission builder at its edges *)

Lemma string_app_inv_head (a b c : string) : a +:+ b = a +:+ c -> b = c.
Proof.
  induction a as [|x a IH]; [rewrite !string_app_nil; auto|].
  rewrite !string_app_cons. intros [= H]. exact (IH H).
Qed.

Lemma submission_file_name_sized_plain (date : string) (size : option Z) :
  no_sep date = true -> plain_name (submission_file_name date size) = true.
Proof.
  intros Hd. destruct size as [k|]; [|apply submission_file_name_plain; exact Hd].
  apply plain_name_intro; try discriminate.
  unfold submission_file_name.
  repeat apply no_sep_app; try reflexivity; [exact Hd | apply str_of_int_no_sep].
Qed.

Lemma submission_file_name_inj (date : string) (size1 size2 : option Z) :
  submission_file_name date size1 = submission_file_name date size2 -> size1 = size2.
Proof.
  unfold submission_file_name.
  destruct size1 as [k1|], size2 as [k2|]; intros H;
    apply string_app_inv_head in H; apply string_app_inv_head in H.
  - apply string_app_inv_head in H. apply string_app_inv_tail in H.
    f_equal. apply str_of_int_inj. exact H.
  - discriminate H.
  - discriminate H.
  - reflexivity.
Qed.

Section FurtherBuilder.
Context {record : Type} (E : env record).

(** X6.  When the eval file is missing, or [load_jsonl] fails on it,
    [make_submission] raises that error ([FileNotFoundError] for a missing
    file) before anything else happens: no directory is created, the clock
    is not read, no random number is drawn and no file is written. *)
Theorem make_submission_needs_its_input
    (dir file sdir : string) (size : option Z) (w : world) (e : exn) :
  (fs w !! key E (join dir file) = None /\ e = FileNotFoundError (join dir file)) \/
  (exists lines, fs w !! key E (join dir file) = Some lines /\
                 env_load_jsonl E lines = Raise e) ->
  make_submission E dir file sdir size w
  = (Raise e,
     mkworld (fs w) (n_now w) (n_rand w) (n_announce w)
       (trace w ++ [ELoadJsonl (join dir file)])).
Proof.
  intros [[Hf ->]|(lines & Hf & Hl)];
    unfold make_submission, load_jsonl; mrun; rewrite Hf; mrun.
  - reflexivity.
  - rewrite Hl. reflexivity.
Qed.

(** X7.  With a size [k], whatever integer it is, the file written holds
    an initial part of the shuffled records: [min k n] of the [n] records
    when [k] is not negative (all of them once [k] exceeds [n], none for
    zero), and all but the last [-k] when [k] is negative (none once [-k]
    exceeds [n]). *)
Theorem submission_size_slices
    (dir file sdir : string) (k : Z) (w : world)
    (lines : list string) (data : list record) :
  fs w !! key E (join dir file) = Some lines ->
  env_load_jsonl E lines = Ok data ->
  exists shuffled written path w',
    shuffled ≡ₚ data /\
    make_submission E dir file sdir (Some k) w = (Ok path, w') /\
    fs w' !! key E path = Some (map (jsonl_line E) written) /\
    written `prefix_of` shuffled /\
    (0 <= k -> Z.of_nat (length written) = Z.min k (Z.of_nat (length data))) /\
    (k < 0 -> Z.of_nat (length written) = Z.max 0 (Z.of_nat (length data) + k)).
Proof.
  intros Hf Hl.
  destruct (make_submission_spec E dir file sdir (Some k) w lines data Hf Hl)
    as (shuffled & Hperm & Hrun). cbn zeta in Hrun.
  exists shuffled, (slice_to k shuffled). eexists _, _.
  split; [exact Hperm|]. split; [exact Hrun|]. cbn [fs written_items].
  split; [apply lookup_insert_eq|].
  pose proof (Permutation_length Hperm) as Hlen.
  unfold slice_to. destruct (Z.leb_spec 0 k).
  - split; [apply prefix_take|]. rewrite length_take. lia.
  - split; [apply prefix_take|]. rewrite length_take. lia.
Qed.

(** X8.  In one directory and for one period key, submissions of different
    sizes, and a sized and an unsized one, are different files. *)
Theorem submission_names_tell_sizes_apart
    (sdir : string) (x : datetime) (size1 size2 : option Z) :
  size1 <> size2 ->
  key E (join sdir (submission_file_name (strftime_YmdH x) size1))
  <> key E (join sdir (submission_file_name (strftime_YmdH x) size2)).
Proof.
  intros Hne. rewrite !key_join
    by (apply submission_file_name_sized_plain, strftime_YmdH_no_sep).
  intros H. apply app_inv_head in H. injection H as H.
  apply submission_file_name_inj in H. contradiction.
Qed.

(** X9.  Two calls of [make_submission] whose clock readings fall in the
    same period write to the same path: the second replaces what the first
    wrote, and of the two only one file is left, a rearrangement of the
    same eval file. *)
Theorem same_period_submissions_overwrite
    (dir file sdir : string) (size : option Z) (w : world)
    (lines : list string) (data : list record) :
  let t1 := env_clock E (n_now w) in
  let t2 := env_clock E (S (n_now w)) in
  let path := join sdir (submission_file_name (strftime_YmdH t1) size) in
  fs w !! key E (join dir file) = Some lines ->
  env_load_jsonl E lines = Ok data ->
  key E (join dir file) <> key E path ->
  strftime_YmdH t2 = strftime_YmdH t1 ->
  exists first second w1 w2,
    make_submission E dir file sdir size w = (Ok path, w1) /\
    make_submission E dir file sdir size w1 = (Ok path, w2) /\
    first ≡ₚ data /\ second ≡ₚ data /\
    fs w1 = <[key E path := map (jsonl_line E) (written_items size first)]> (fs w) /\
    fs w2 = <[key E path := map (jsonl_line E) (written_items size second)]> (fs w).
Proof.
  intros t1 t2 path Hf Hl Hdiff Hsame.
  destruct (make_submission_spec E dir file sdir size w lines data Hf Hl)
    as (first & Hperm1 & Hrun1). cbn zeta in Hrun1. fold t1 path in Hrun1.
  set (w1 := snd (make_submission E dir file sdir size w)).
  assert (Hw1 : make_submission E dir file sdir size w = (Ok path, w1))
    by (unfold w1; rewrite Hrun1; reflexivity).
  assert (Hfs1 : fs w1 = <[key E path := map (jsonl_line E) (written_items size first)]> (fs w))
    by (unfold w1; rewrite Hrun1; reflexivity).
  assert (Hn1 : n_now w1 = S (n_now w)) by (unfold w1; rewrite Hrun1; reflexivity).
  assert (Hf1 : fs w1 !! key E (join dir file) = Some lines).
  { rewrite Hfs1, lookup_insert_ne by (intros H; apply Hdiff; symmetry; exact H).
    exact Hf. }
  destruct (make_submission_spec E dir file sdir size w1 lines data Hf1 Hl)
    as (second & Hperm2 & Hrun2). cbn zeta in Hrun2.
  rewrite Hn1 in Hrun2. fold t2 in Hrun2. rewrite Hsame in Hrun2. fold path in Hrun2.
  exists first, second, w1. eexists.
  split; [exact Hw1|]. split; [exact Hrun2|].
  split; [exact Hperm1|]. split; [exact Hperm2|]. split; [exact Hfs1|].
  cbn [fs]. rewrite Hfs1. apply insert_insert_eq.
Qed.

End FurtherBuilder.

(** ** The schedule *)

Lemma below_100 (P : Z -> Prop) :
  (forall k : nat, (k < 100)%nat -> P (Z.of_nat k)) ->
  forall n, 0 <= n < 100 -> P n.
Proof.
  intros H n Hn. rewrite <- (Z2Nat.id n) by lia. apply H. lia.
Qed.

(** The code points of two zero-filled digits. *)
Lemma decode_ascii (c : ascii) (s : string) :
  (N_of_ascii c < 128)%N ->
  PyStr.decode (String c s) = N_of_ascii c :: PyStr.decode s.
Proof.
  intros H. cbn [PyStr.decode].
  destruct (N.ltb_spec (N_of_ascii c) 128); [reflexivity | lia].
Qed.

Lemma decode_zfill (n : Z) (rest : string) :
  PyStr.decode (zfill 2 n +:+ rest)
  = (48 + Z.to_N (n / 10 mod 10))%N :: (48 + Z.to_N (n mod 10))%N
    :: PyStr.decode rest.
Proof.
  cbn [zfill]. rewrite !string_app_cons, string_app_nil.
  change (10 ^ Z.of_nat 1) with 10. change (10 ^ Z.of_nat 0) with 1.
  rewrite Z.div_1_r.
  pose proof (Z.mod_pos_bound (n / 10) 10 ltac:(lia)).
  pose proof (Z.mod_pos_bound n 10 ltac:(lia)).
  assert (Hd : forall d, 0 <= d < 10 ->
                         N_of_ascii (digit_char d) = (48 + Z.to_N d)%N)
    by (intros d Hd; unfold digit_char; apply N_ascii_embedding; lia).
  rewrite !decode_ascii by (rewrite Hd by assumption; lia).
  rewrite !Hd by assumption. reflexivity.
Qed.

(** Two digits read back as the number they were made from. *)
Lemma int_of_two_digits (n : Z) :
  0 <= n < 100 ->
  PyStr.int_of_points [(48 + Z.to_N (n / 10 mod 10))%N; (48 + Z.to_N (n mod 10))%N]
  = Some n.
Proof.
  revert n. apply below_100. intros k Hk.
  assert (Hall : forallb (fun k => bool_decide
                   (PyStr.int_of_points
                      [(48 + Z.to_N (Z.of_nat k / 10 mod 10))%N;
                       (48 + Z.to_N (Z.of_nat k mod 10))%N] = Some (Z.of_nat k)))
                   (seq 0 100) = true) by (vm_compute; reflexivity).
  rewrite forallb_forall in Hall.
  assert (Hin : In k (seq 0 100)) by (apply in_seq; lia).
  exact (proj1 (bool_decide_eq_true _) (Hall k Hin)).
Qed.

Lemma digit_point_plain (d : Z) :
  0 <= d < 10 ->
  PyStr.is_space (48 + Z.to_N d) = false /\ (48 + Z.to_N d =? 58)%N = false.
Proof.
  intros Hd.
  assert (Hc : d = 0 \/ d = 1 \/ d = 2 \/ d = 3 \/ d = 4 \/ d = 5 \/ d = 6 \/
               d = 7 \/ d = 8 \/ d = 9) by lia.
  repeat (destruct Hc as [->|Hc]; [split; reflexivity|]). subst. split; reflexivity.
Qed.

Lemma rstrip_last (blank : N -> bool) (l : list N) (c : N) :
  blank c = false -> PyStr.rstrip blank (l ++ [c]) = l ++ [c].
Proof.
  intros Hc. induction l as [|x l IH]; cbn [app PyStr.rstrip].
  - rewrite Hc. reflexivity.
  - rewrite IH. destruct l; reflexivity.
Qed.

(** The fields of the two documented forms. *)
Lemma schedule_fields_HM (h m : Z) :
  0 <= h < 100 -> 0 <= m < 100 ->
  schedule_fields (format_HM h m) = [Some h; Some m].
Proof.
  intros Hh Hm. unfold schedule_fields, format_HM.
  change (":" +:+ zfill 2 m) with (String ":" (zfill 2 m +:+ EmptyString)).
  rewrite decode_zfill, decode_ascii by (cbn; lia). rewrite decode_zfill.
  change (N_of_ascii ":") with 58%N. cbn [PyStr.decode].
  pose proof (Z.mod_pos_bound (h / 10) 10 ltac:(lia)).
  pose proof (Z.mod_pos_bound h 10 ltac:(lia)).
  pose proof (Z.mod_pos_bound (m / 10) 10 ltac:(lia)).
  pose proof (Z.mod_pos_bound m 10 ltac:(lia)).
  destruct (digit_point_plain (h / 10 mod 10)) as [S1 C1]; [assumption|].
  destruct (digit_point_plain (h mod 10)) as [S2 C2]; [assumption|].
  destruct (digit_point_plain (m / 10 mod 10)) as [S3 C3]; [assumption|].
  destruct (digit_point_plain (m mod 10)) as [S4 C4]; [assumption|].
  unfold PyStr.strip. cbn [PyStr.lstrip]. rewrite S1.
  change [?a; ?b; ?c; ?d; ?e] with ([a; b; c; d] ++ [e]).
  rewrite rstrip_last by exact S4.
  cbn [app PyStr.split_points]. rewrite C1, C2, C3, C4.
  change (58 =? 58)%N with true. cbn iota. cbn [map].
  rewrite !int_of_two_digits by assumption. reflexivity.
Qed.

Lemma schedule_fields_HMS (h m s : Z) :
  0 <= h < 100 -> 0 <= m < 100 -> 0 <= s < 100 ->
  schedule_fields (format_HMS h m s) = [Some h; Some m; Some s].
Proof.
  intros Hh Hm Hs. unfold schedule_fields, format_HMS.
  change (":" +:+ zfill 2 m +:+ ":" +:+ zfill 2 s)
    with (String ":" (zfill 2 m +:+ String ":" (zfill 2 s +:+ EmptyString))).
  rewrite decode_zfill, decode_ascii by (cbn; lia).
  rewrite decode_zfill, decode_ascii by (cbn; lia). rewrite decode_zfill.
  change (N_of_ascii ":") with 58%N. cbn [PyStr.decode].
  pose proof (Z.mod_pos_bound (h / 10) 10 ltac:(lia)).
  pose proof (Z.mod_pos_bound h 10 ltac:(lia)).
  pose proof (Z.mod_pos_bound (m / 10) 10 ltac:(lia)).
  pose proof (Z.mod_pos_bound m 10 ltac:(lia)).
  pose proof (Z.mod_pos_bound (s / 10) 10 ltac:(lia)).
  pose proof (Z.mod_pos_bound s 10 ltac:(lia)).
  destruct (digit_point_plain (h / 10 mod 10)) as [S1 C1]; [assumption|].
  destruct (digit_point_plain (h mod 10)) as [S2 C2]; [assumption|].
  destruct (digit_point_plain (m / 10 mod 10)) as [S3 C3]; [assumption|].
  destruct (digit_point_plain (m mod 10)) as [S4 C4]; [assumption|].
  destruct (digit_point_plain (s / 10 mod 10)) as [S5 C5]; [assumption|].
  destruct (digit_point_plain (s mod 10)) as [S6 C6]; [assumption|].
  unfold PyStr.strip. cbn [PyStr.lstrip]. rewrite S1.
  change [?a; ?b; ?c; ?d; ?e; ?f; ?g; ?i] with ([a; b; c; d; e; f; g] ++ [i]).
  rewrite rstrip_last by exact S6.
  cbn [app PyStr.split_points]. rewrite C1, C2, C3, C4, C5, C6.
  change (58 =? 58)%N with true. cbn iota. cbn [map].
  rewrite !int_of_two_digits by assumption. reflexivity.
Qed.

(** The time a schedule denotes is read off its fields. *)
Lemma parse_run_at_fields (s : string) (h m : Z) (sec : option Z) :
  schedule_fields s
  = Some h :: Some m :: match sec with Some x => [Some x] | None => [] end ->
  in_range 0 23 h = true -> in_range 0 59 m = true ->
  in_range 0 59 (match sec with Some x => x | None => 0 end) = true ->
  parse_run_at s = Ok (mktime h m (match sec with Some x => x | None => 0 end) 0).
Proof.
  unfold schedule_fields, parse_run_at, int_of_field.
  intros H Hh Hm Hs.
  pose proof (dt_time_outcome h m (match sec with Some x => x | None => 0 end)) as Hd.
  rewrite Hh, Hm, Hs in Hd. cbn [andb] in Hd.
  destruct (PyStr.split_points 58 (PyStr.strip (PyStr.decode s)))
    as [|p0 [|p1 [|p2 [|p3 ps]]]];
    destruct sec as [x|]; cbn [map] in H; try discriminate H;
    injection H as H0 H1; rewrite ?H0, ?H1; try (rewrite H);
    cbn [mbind result_bind]; exact Hd.
Qed.

Section FurtherTimeGate.
Context {record : Type} (E : env record).

(** What a call of [wait_until] that returns has done. *)
Lemma wait_until_outcome (s : string) (w w' : world) :
  datetime_ok (env_clock E (n_now w)) = true ->
  wait_until E s w = (Ok tt, w') ->
  exists r,
    w' = mkworld (fs w) (S (n_now w)) (n_rand w) (n_announce w)
           (trace w ++ [ELog (L_scheduled r (micros_between r (env_clock E (n_now w))));
                        ESleep (micros_between r (env_clock E (n_now w)))]) /\
    0 < micros_between r (env_clock E (n_now w)) <= MICROS_PER_DAY /\
    datetime_ok r = true.
Proof.
  intros Hnow Hrun. set (now := env_clock E (n_now w)) in *.
  destruct (parse_run_at s) as [target|e|] eqn:Hp;
    [|unfold wait_until, bind, lift in Hrun; rewrite Hp in Hrun; discriminate..].
  pose proof (parse_run_at_time_ok _ _ Hp) as Ht.
  unfold wait_until, bind, lift, datetime_now in Hrun. rewrite Hp in Hrun.
  cbn [fs n_now n_rand n_announce trace] in Hrun. fold now in Hrun.
  destruct (next_run target now) as [r|e|] eqn:Hr; [|discriminate..].
  assert (Hcond : date_of now <> date_max \/
                  datetime_le (combine (date_of now) target) now = false).
  { destruct (datetime_le (combine (date_of now) target) now) eqn:Hle; [left|right; reflexivity].
    intros Hmax. unfold next_run in Hr. rewrite Hle in Hr.
    unfold add_one_day in Hr. cbn [combine date_of] in Hr. rewrite Hmax in Hr.
    discriminate Hr. }
  destruct (next_run_future target now Ht Hnow Hcond)
    as (r' & Hr' & _ & Hpos & Htime & Hroll & Hsame).
  rewrite Hr in Hr'. injection Hr' as <-.
  exists r.
  unfold log, emit, time_sleep in Hrun. cbn [fs n_now n_rand n_announce trace] in Hrun.
  destruct (Z.ltb_spec (micros_between r now) 0); [lia|].
  unfold emit in Hrun. cbn [fs n_now n_rand n_announce trace] in Hrun.
  injection Hrun as <-. split; [rewrite <- app_assoc; reflexivity|].
  pose proof Hnow as Hnow'.
  apply andb_true_iff in Hnow' as [Hd Hn].
  pose proof (micros_of_time_bounds _ Ht) as Bt.
  pose proof (micros_of_time_bounds _ Hn) as Bn.
  destruct (datetime_le (combine (date_of now) target) now) eqn:Hle.
  - destruct (Hroll eq_refl) as [Htom _].
    pose proof (toordinal_tomorrow _ _ Hd Htom) as Hord.
    pose proof (tomorrow_date_ok _ _ Hd Htom) as Hd'.
    unfold datetime_le, datetime_cmp in Hle. cbn [combine date_of time_of] in Hle.
    rewrite date_cmp_refl in Hle. cbn [lex] in Hle.
    rewrite time_cmp_micros in Hle by assumption.
    assert (micros_of_time target <= micros_of_time (time_of now)).
    { destruct (Z.compare_spec (micros_of_time target) (micros_of_time (time_of now)));
        try discriminate; lia. }
    split.
    + split; [exact Hpos|]. unfold micros_between. rewrite Hord, Htime. lia.
    + unfold datetime_ok. rewrite Hd', Htime, Ht. reflexivity.
  - rewrite (Hsame eq_refl) in *. split.
    + split; [exact Hpos|]. unfold micros_between. cbn [combine date_of time_of]. lia.
    + unfold datetime_ok. cbn [combine date_of time_of]. rewrite Hd, Ht. reflexivity.
Qed.

(** X10.  A call of [wait_until] that returns has read the clock once,
    printed one line and slept once, for a positive length of at most 24
    hours, until a valid instant; it has touched no file. *)
Theorem wait_until_sleeps_at_most_a_day (s : string) (w w' : world) :
  datetime_ok (env_clock E (n_now w)) = true ->
  wait_until E s w = (Ok tt, w') ->
  exists r delta,
    delta = micros_between r (env_clock E (n_now w)) /\
    0 < delta <= 86400 * 1000000 /\
    datetime_ok r = true /\
    trace w' = trace w ++ [ELog (L_scheduled r delta); ESleep delta] /\
    fs w' = fs w /\ n_now w' = S (n_now w).
Proof.
  intros Hnow Hrun.
  destruct (wait_until_outcome s w w' Hnow Hrun) as (r & -> & Hd & Hok).
  exists r, (micros_between r (env_clock E (n_now w))).
  split; [reflexivity|]. split; [exact Hd|]. split; [exact Hok|].
  cbn [trace fs n_now]. auto.
Qed.

End FurtherTimeGate.

(** X11.  The two documented forms of a schedule, HH:MM and HH:MM:SS with
    two digits a field, are accepted for every hour within 0..23 and minute
    and second within 0..59, and denote that very time of day, the seconds
    being zero in the short form. *)
Theorem documented_schedules_are_accepted (h m s : Z) :
  in_range 0 23 h = true -> in_range 0 59 m = true -> in_range 0 59 s = true ->
  parse_run_at (format_HM h m) = Ok (mktime h m 0 0) /\
  parse_run_at (format_HMS h m s) = Ok (mktime h m s 0).
Proof.
  intros Hh Hm Hs.
  assert (Bh : 0 <= h < 100) by (unfold in_range in Hh; lia).
  assert (Bm : 0 <= m < 100) by (unfold in_range in Hm; lia).
  assert (Bs : 0 <= s < 100) by (unfold in_range in Hs; lia).
  split.
  - apply (parse_run_at_fields _ h m None); try assumption; [|reflexivity].
    apply schedule_fields_HM; assumption.
  - apply (parse_run_at_fields _ h m (Some s)); try assumption.
    apply schedule_fields_HMS; assumption.
Qed.

(** ** The retry loop, whatever the ledger answers *)

Lemma concat_retry_sleeps (uid payload : string) (errs : list exn) :
  filter (fun e => is_sleep e = true) (concat (map (retry_events uid payload) errs))
  = replicate (length errs) (ESleep (seconds RETRY_SECONDS)).
Proof.
  rewrite <- (commit_trace_sleeps uid payload errs). unfold commit_trace.
  rewrite filter_app. cbn. rewrite app_nil_r. reflexivity.
Qed.

Section FurtherRetrier.
Context {record : Type} (E : env record).

Lemma commit_attempt_frame (uid : string) (m : ModelId) (w : world) :
  exists r new,
    commit_attempt E uid m w
    = (r, mkworld (fs w) (n_now w) (n_rand w) (S (n_announce w)) (trace w ++ new)) /\
    Forall (is_retry_event uid (env_to_compressed_str E m)) new /\
    (forall e, r <> Raise e).
Proof.
  destruct (env_store_model_metadata E (n_announce w) uid (env_to_compressed_str E m))
    as [[]|e|] eqn:Hs.
  - rewrite (commit_attempt_succeeds E uid m w Hs).
    eexists _, _. split; [reflexivity|]. split; [|discriminate].
    repeat (apply Forall_cons; split; [cbn; eauto|]). constructor.
  - rewrite (commit_attempt_fails E uid m e w Hs).
    eexists _, _. split; [reflexivity|]. split; [|discriminate].
    repeat (apply Forall_cons; split; [cbn; eauto|]). constructor.
  - unfold commit_attempt, try_except, bind, store_model_metadata. rewrite Hs.
    eexists _, _. split; [reflexivity|]. split; [|discriminate].
    repeat (apply Forall_cons; split; [cbn; eauto|]). constructor.
Qed.

Lemma commit_loop_frame (uid : string) (m : ModelId) (fuel : nat) :
  forall w : world,
  exists r k new,
    commit_loop E fuel uid m w
    = (r, mkworld (fs w) (n_now w) (n_rand w) (n_announce w + k) (trace w ++ new)) /\
    (k <= fuel)%nat /\
    Forall (is_retry_event uid (env_to_compressed_str E m)) new /\
    (forall e, r <> Raise e).
Proof.
  induction fuel as [|fuel IH]; intros w.
  - exists OutOfFuel, 0%nat, []. cbn. rewrite Nat.add_0_r, app_nil_r.
    destruct w. repeat split; [lia | constructor | discriminate].
  - cbn [commit_loop]. unfold bind.
    destruct (commit_attempt_frame uid m w) as (r & new & Hrun & Hnew & Hr).
    rewrite Hrun. destruct r as [[|]|e|].
    + exists (Ok tt), 1%nat, new. rewrite Nat.add_1_r.
      repeat split; [lia | exact Hnew | discriminate].
    + match goal with |- context [commit_loop E fuel uid m ?w0] =>
        destruct (IH w0) as (r' & k & new' & Hrun' & Hk & Hnew' & Hr') end.
      rewrite Hrun'. cbn [fs n_now n_rand n_announce trace].
      exists r', (S k), (new ++ new').
      replace (n_announce w + S k)%nat with (S (n_announce w) + k)%nat by lia.
      rewrite app_assoc.
      repeat split; [lia | apply Forall_app; split; assumption | exact Hr'].
    + exfalso. exact (Hr e eq_refl).
    + exists OutOfFuel, 1%nat, new. rewrite Nat.add_1_r.
      repeat split; [lia | exact Hnew | discriminate].
Qed.

Lemma commit_loop_rejected (uid : string) (m : ModelId) (fuel : nat) :
  forall w : world,
  (forall k, exists e,
     env_store_model_metadata E k uid (env_to_compressed_str E m) = Raise e) ->
  exists errs,
    length errs = fuel /\
    commit_loop E fuel uid m w
    = (OutOfFuel,
       mkworld (fs w) (n_now w) (n_rand w) (n_announce w + fuel)
         (trace w ++ concat (map (retry_events uid (env_to_compressed_str E m)) errs))).
Proof.
  induction fuel as [|fuel IH]; intros w Hfail.
  - exists []. cbn. rewrite Nat.add_0_r, app_nil_r. destruct w. auto.
  - cbn [commit_loop]. unfold bind.
    destruct (Hfail (n_announce w)) as [e He].
    rewrite (commit_attempt_fails E uid m e w He).
    match goal with |- context [commit_loop E fuel uid m ?w0] =>
      destruct (IH w0 Hfail) as (errs & Hlen & Hrun) end.
    exists (e :: errs). split; [cbn; lia|].
    rewrite Hrun. cbn [fs n_now n_rand n_announce trace map concat].
    rewrite <- app_assoc. do 2 f_equal. lia.
Qed.

(** X12.  However the ledger answers and however long it is observed, the
    retry loop does nothing but call the ledger with the same subnet and the
    same payload, print its status lines and pause for 120 seconds: it
    never raises, changes no file, reads no clock, draws no random number,
    and makes at most one ledger call per turn. *)
Theorem commit_loop_only_retries
    (uid : string) (m : ModelId) (fuel : nat) (w : world) :
  exists r w' new,
    commit_loop E fuel uid m w = (r, w') /\
    (forall e, r <> Raise e) /\
    fs w' = fs w /\ n_now w' = n_now w /\ n_rand w' = n_rand w /\
    (n_announce w <= n_announce w' <= n_announce w + fuel)%nat /\
    trace w' = trace w ++ new /\
    Forall (is_retry_event uid (env_to_compressed_str E m)) new.
Proof.
  destruct (commit_loop_frame uid m fuel w) as (r & k & new & Hrun & Hk & Hnew & Hr).
  eexists r, _, new. split; [exact Hrun|]. cbn [fs n_now n_rand n_announce trace].
  repeat split; try assumption; lia.
Qed.

(** X13.  While the ledger rejects every call the loop goes on: observed
    for any number of turns it has neither returned nor raised, has called
    the ledger once a turn and has paused 120 seconds after each call. *)
Theorem rejected_announce_is_retried_forever
    (uid : string) (m : ModelId) (fuel : nat) (w : world) :
  (forall k, exists e,
     env_store_model_metadata E k uid (env_to_compressed_str E m) = Raise e) ->
  exists w' new,
    commit_loop E fuel uid m w = (OutOfFuel, w') /\
    n_announce w' = (n_announce w + fuel)%nat /\
    trace w' = trace w ++ new /\
    filter (fun e => is_sleep e = true) new
    = replicate fuel (ESleep (120 * 1000000)).
Proof.
  intros Hfail.
  destruct (commit_loop_rejected uid m fuel w Hfail) as (errs & Hlen & Hrun).
  eexists _, _. split; [exact Hrun|]. cbn [n_announce trace].
  split; [reflexivity|]. split; [reflexivity|].
  rewrite concat_retry_sleeps, Hlen. reflexivity.
Qed.

End FurtherRetrier.

(** ** Failures of a run *)

Lemma raises_after_bind {A B} (c : M A) (k : A -> M B) (w : world) (P : event -> Prop) :
  emits_at c w P ->
  (forall a w', c w = (Ok a, w') -> raises_after (k a) w' P) ->
  raises_after (bind c k) w P.
Proof.
  intros (new1 & H1 & HP1) Hk e w2. unfold bind.
  destruct (c w) as [[a|e1|] w1] eqn:Hc; cbn [snd] in H1.
  - intros Hrun. destruct (Hk a w1 eq_refl e w2 Hrun) as (new2 & H2 & HP2).
    exists (new1 ++ new2). rewrite H2, H1, app_assoc.
    split; [reflexivity | apply Forall_app; split; assumption].
  - intros [= <- <-]. exists new1. split; assumption.
  - discriminate.
Qed.

Lemma gate_event_before_announce (dir path : string) (e : event) :
  is_gate_event dir path e -> before_announce e.
Proof. destruct e; cbn; intros H; try contradiction; split; reflexivity. Qed.

Lemma submission_event_before_announce (in_path sdir out_path : string) (e : event) :
  is_submission_event in_path sdir out_path e -> before_announce e.
Proof. destruct e; cbn; intros H; try contradiction; split; reflexivity. Qed.

(** The set-up of [main] (lines 125-134), when every step succeeds. *)
Ltac run_setup Hbt Hint Hmg Hreg :=
  unfold main, int; rewrite Hint;
  unfold bind at 1; unfold lift at 1; rewrite Hbt;
  unfold bind at 1; unfold lift at 1;
  unfold bind at 1; unfold lift at 1; rewrite Hmg;
  unfold bind at 1; unfold log at 1, emit at 1;
  unfold bind at 1; unfold lift at 1; rewrite Hreg.

Section FurtherRun.
Context {record : Type} (E : env record).

Lemma refresh_gate_emits (cfg : config) (w : world) :
  emits_at (refresh_gate E cfg) w before_announce.
Proof.
  destruct (refresh_gate_outcome E cfg w) as (r & w' & Hg & _ & _ & new & Hnew & HP).
  eapply emits_at_these; [rewrite Hg; exact Hnew|].
  eapply Forall_impl; [exact HP|]. intros e. apply gate_event_before_announce.
Qed.

Lemma make_submission_emits (dir file sdir : string) (size : option Z) (w : world) :
  emits_at (make_submission E dir file sdir size) w before_announce.
Proof.
  destruct (make_submission_outcome E dir file sdir size w)
    as (r & w' & Hm & _ & new & Hnew & HP).
  eapply emits_at_these; [rewrite Hm; exact Hnew|].
  eapply Forall_impl; [exact HP|]. intros e. apply submission_event_before_announce.
Qed.

(** X14.  No failure of an announce escapes [main]: when a run ends with
    an exception, it was raised before the retry loop, so that no ledger
    call was made and no pause taken. *)
Theorem announce_failures_never_escape
    (fuel : nat) (cfg : config) (w w' : world) (e : exn) :
  main E fuel cfg w = (Raise e, w') ->
  exists new,
    trace w' = trace w ++ new /\
    Forall (fun ev => is_announce ev = false /\ is_sleep ev = false) new.
Proof.
  revert e w'. change (raises_after (main E fuel cfg) w before_announce).
  assert (Hlog : forall l, before_announce (ELog l)) by (intros l; split; reflexivity).
  unfold main.
  apply raises_after_bind; [apply emits_at_lift|]. intros ? w1 _.
  apply raises_after_bind; [apply emits_at_lift|]. intros uid w2 _.
  apply raises_after_bind; [apply emits_at_lift|]. intros ? w3 _.
  apply raises_after_bind; [apply emits_at_log, Hlog|]. intros ? w4 _.
  apply raises_after_bind; [apply emits_at_lift|]. intros ? w5 _.
  apply raises_after_bind; [apply refresh_gate_emits|]. intros file w6 _.
  apply raises_after_bind; [apply emits_at_log, Hlog|]. intros ? w7 _.
  apply raises_after_bind; [apply make_submission_emits|]. intros p w8 _.
  apply raises_after_bind.
  { eapply emits_at_these; [unfold upload_data; mrun; reflexivity|].
    repeat constructor. }
  intros commit_id w9 _.
  apply raises_after_bind; [apply emits_at_log, Hlog|]. intros ? w10 _.
  apply raises_after_bind; [apply emits_at_log, Hlog|]. intros ? w11 _.
  intros e w' Hrun.
  destruct (commit_loop_frame E (netuid cfg)
              (mkModelId (hf_repo_id cfg) commit_id (id (env_competition E))) fuel w11)
    as (r & k & new & Hrun' & _ & _ & Hr).
  rewrite Hrun' in Hrun. injection Hrun as Hrun _. exfalso. exact (Hr e Hrun).
Qed.

(** X15.  When a step of the set-up does not succeed ([bittensor] set-up,
    [int] on the subnet identifier, the metagraph, the registration check),
    [main] stops there: it does not return normally, touches no file, reads
    no clock, draws no random number, calls no ledger, and has printed at
    most its starting line. *)
Theorem failed_setup_touches_nothing (fuel : nat) (cfg : config) (w : world) :
  ~ (env_bittensor E = Ok tt /\
     exists uid, PyStr.py_int (netuid cfg) = Some uid /\
                 env_metagraph E uid = Ok tt /\
                 env_assert_registered E = Ok tt) ->
  exists r w',
    main E fuel cfg w = (r, w') /\
    (forall a, r <> Ok a) /\
    fs w' = fs w /\ n_now w' = n_now w /\ n_rand w' = n_rand w /\
    n_announce w' = n_announce w /\
    (trace w' = trace w \/ trace w' = trace w ++ [ELog L_starting]).
Proof.
  intros Hno. unfold main, int.
  unfold bind at 1. unfold lift at 1.
  destruct (env_bittensor E) as [[]|e|] eqn:Hbt;
    [|eexists _, _; split; [reflexivity|]; repeat split; auto; discriminate..].
  unfold bind at 1. unfold lift at 1.
  destruct (PyStr.py_int (netuid cfg)) as [uid|] eqn:Hint;
    [|eexists _, _; split; [reflexivity|]; repeat split; auto; discriminate].
  unfold bind at 1. unfold lift at 1.
  destruct (env_metagraph E uid) as [[]|e|] eqn:Hmg;
    [|eexists _, _; split; [reflexivity|]; repeat split; auto; discriminate..].
  unfold bind at 1. unfold log at 1, emit at 1.
  unfold bind at 1. unfold lift at 1.
  destruct (env_assert_registered E) as [[]|e|] eqn:Hreg;
    [|eexists _, _; split; [reflexivity|]; cbn [fs n_now n_rand n_announce trace];
      repeat split; auto; discriminate..].
  exfalso. apply Hno. split; [reflexivity|]. exists uid. auto.
Qed.

(** X4.  When the eval file of the period is missing and the revision
    lookup fails, [main] raises that failure right after the lookup:
    nothing was deleted or downloaded, the files of the eval-data directory
    are all still there, and no submission was built. *)
Theorem failed_revision_lookup_deletes_nothing
    (fuel : nat) (cfg : config) (w : world) (uid : Z) (e : exn) :
  let path := join (eval_data_dir cfg) (eval_file_name (period_key E w)) in
  let ns := repo (env_competition E) in
  env_bittensor E = Ok tt ->
  PyStr.py_int (netuid cfg) = Some uid ->
  env_metagraph E uid = Ok tt ->
  env_assert_registered E = Ok tt ->
  fs w !! key E path = None ->
  env_get_hg_revision E ns (env_eval_commit E) = Raise e ->
  main E fuel cfg w
  = (Raise e,
     mkworld (fs w) (S (n_now w)) (n_rand w) (n_announce w)
       (trace w ++ [ELog L_starting; ELog (L_eval_missing path); ELog L_download_first;
                    EGetRevision ns (env_eval_commit E)])).
Proof.
  intros path ns Hbt Hint Hmg Hreg Hf Hrev.
  pose proof (refresh_gate_missing E cfg
                (mkworld (fs w) (n_now w) (n_rand w) (n_announce w)
                   (trace w ++ [ELog L_starting])) Hf) as Hg.
  cbn zeta in Hg. cbn [fs n_now n_rand n_announce trace] in Hg.
  change (period_key E (mkworld (fs w) (n_now w) (n_rand w) (n_announce w)
                          (trace w ++ [ELog L_starting])))
    with (period_key E w) in Hg.
  fold path in Hg.
  run_setup Hbt Hint Hmg Hreg.
  unfold bind at 1. rewrite Hg.
  unfold load_dataset, get_hg_revision. mrun. fold ns. rewrite Hrev.
  rewrite <- !app_assoc. reflexivity.
Qed.

(** X16.  A failure of the upload ends the run with that failure: the
    submission file has been written and stays on disk, the upload was
    tried once, and the ledger was not called. *)
Theorem failed_upload_is_fatal
    (fuel : nat) (cfg : config) (w : world) (lines : list string)
    (data : list record) (uid : Z) (e : exn) :
  let path := join (eval_data_dir cfg) (eval_file_name (period_key E w)) in
  let sub_path :=
    join (submission_dir cfg)
      (submission_file_name (strftime_YmdH (env_clock E (S (n_now w)))) None) in
  env_bittensor E = Ok tt ->
  PyStr.py_int (netuid cfg) = Some uid ->
  env_metagraph E uid = Ok tt ->
  env_assert_registered E = Ok tt ->
  fs w !! key E path = Some lines ->
  env_load_jsonl E lines = Ok data ->
  (forall content, env_upload_data E (hf_repo_id cfg) sub_path content = Raise e) ->
  exists shuffled w',
    shuffled ≡ₚ data /\
    main E fuel cfg w = (Raise e, w') /\
    fs w' = <[key E sub_path := map (jsonl_line E) shuffled]> (fs w) /\
    n_announce w' = n_announce w /\
    filter (fun ev => is_upload ev = true) (trace w')
    = filter (fun ev => is_upload ev = true) (trace w)
      ++ [EUpload (hf_repo_id cfg) sub_path] /\
    filter (fun ev => is_announce ev = true) (trace w')
    = filter (fun ev => is_announce ev = true) (trace w).
Proof.
  intros path sub_path Hbt Hint Hmg Hreg Hf Hl Hup.
  pose proof (refresh_gate_present E cfg
                (mkworld (fs w) (n_now w) (n_rand w) (n_announce w)
                   (trace w ++ [ELog L_starting])) lines Hf) as Hg.
  cbn zeta in Hg. cbn [fs n_now n_rand n_announce trace] in Hg.
  change (period_key E (mkworld (fs w) (n_now w) (n_rand w) (n_announce w)
                          (trace w ++ [ELog L_starting])))
    with (period_key E w) in Hg.
  fold path in Hg.
  destruct (make_submission_spec E (eval_data_dir cfg) (eval_file_name (period_key E w))
              (submission_dir cfg) None
              (mkworld (fs w) (S (n_now w)) (n_rand w) (n_announce w)
                 (trace w ++ [ELog L_starting; ELog (L_eval_exists path);
                              ELog L_submission_mode]))
              lines data Hf Hl)
    as (shuffled & Hperm & Hrun).
  cbn zeta in Hrun. cbn [written_items fs n_now n_rand n_announce trace] in Hrun.
  fold sub_path in Hrun.
  exists shuffled. eexists. split; [exact Hperm|]. split.
  - run_setup Hbt Hint Hmg Hreg.
    unfold bind at 1. rewrite Hg.
    unfold bind at 1. unfold log at 1, emit at 1.
    cbn [fs n_now n_rand n_announce trace].
    rewrite <- !app_assoc. cbn [app].
    unfold bind at 1. rewrite Hrun.
    unfold bind at 1. unfold upload_data. mrun. rewrite Hup. reflexivity.
  - cbn [fs n_announce trace]. split; [reflexivity|]. split; [reflexivity|].
    rewrite !filter_app. cbn. rewrite !app_nil_r. split; reflexivity.
Qed.

End FurtherRun.

(** ** A run after a refresh *)

Section FurtherEndToEnd.
Context {record : Type} (E : env record).

Lemma refresh_gate_refreshes (cfg : config) (w : world) (rev : string)
    (lines : list string) (rest : list (list string * list string))
    (failure : option exn) :
  let file := eval_file_name (period_key E w) in
  let dir := eval_data_dir cfg in
  let ns := repo (env_competition E) in
  fs w !! key E (join dir file) = None ->
  env_get_hg_revision E ns (env_eval_commit E) = Ok rev ->
  env_snapshot_download E ns rev = ((["data.jsonl"], lines) :: rest, failure) ->
  exists w',
    refresh_gate E cfg w = (Ok file, w') /\
    fs w' !! key E (join dir file) = Some lines /\
    n_now w' = S (n_now w) /\ n_rand w' = n_rand w /\ n_announce w' = n_announce w.
Proof.
  intros file dir ns Hf Hrev Hs.
  rewrite (refresh_gate_missing E cfg w Hf). fold file dir. unfold bind at 1.
  rewrite (load_dataset_renames E dir file rev _ lines rest failure Hrev Hs).
  eexists. split; [reflexivity|]. cbn [fs n_now n_rand n_announce].
  split; [apply lookup_insert_eq | auto].
Qed.

(** X20.  When the eval file of the period is missing and the refresh
    delivers [data.jsonl], the run goes through: the downloaded lines become
    the eval file of the period, the submission written is a rearrangement
    of the records they hold, it is uploaded, and the first ledger call, if
    accepted, ends the run. *)
Theorem refreshed_run_submits_the_download
    (fuel : nat) (cfg : config) (w : world) (rev : string)
    (lines : list string) (rest : list (list string * list string))
    (failure : option exn) (data : list record) (uid : Z) (commit_id : string) :
  let path := join (eval_data_dir cfg) (eval_file_name (period_key E w)) in
  let sub_path :=
    join (submission_dir cfg)
      (submission_file_name (strftime_YmdH (env_clock E (S (n_now w)))) None) in
  let ns := repo (env_competition E) in
  let m := mkModelId (hf_repo_id cfg) commit_id (id (env_competition E)) in
  env_bittensor E = Ok tt ->
  PyStr.py_int (netuid cfg) = Some uid ->
  env_metagraph E uid = Ok tt ->
  env_assert_registered E = Ok tt ->
  fs w !! key E path = None ->
  env_get_hg_revision E ns (env_eval_commit E) = Ok rev ->
  env_snapshot_download E ns rev = ((["data.jsonl"], lines) :: rest, failure) ->
  env_load_jsonl E lines = Ok data ->
  (forall content, env_upload_data E (hf_repo_id cfg) sub_path content = Ok commit_id) ->
  env_store_model_metadata E (n_announce w) (netuid cfg) (env_to_compressed_str E m)
  = Ok tt ->
  exists shuffled w',
    shuffled ≡ₚ data /\
    main E (S fuel) cfg w = (Ok tt, w') /\
    fs w' !! key E path = Some lines /\
    fs w' !! key E sub_path = Some (map (jsonl_line E) shuffled) /\
    n_announce w' = S (n_announce w).
Proof.
  intros path sub_path ns m Hbt Hint Hmg Hreg Hf Hrev Hs Hl Hup Hok.
  destruct (refresh_gate_refreshes cfg
              (mkworld (fs w) (n_now w) (n_rand w) (n_announce w)
                 (trace w ++ [ELog L_starting])) rev lines rest failure Hf Hrev Hs)
    as (w1 & Hg & Hf1 & Hn1 & _ & Ha1).
  cbn [fs n_now n_rand n_announce trace] in Hg, Hf1, Hn1, Ha1.
  change (period_key E (mkworld (fs w) (n_now w) (n_rand w) (n_announce w)
                          (trace w ++ [ELog L_starting])))
    with (period_key E w) in Hg, Hf1.
  fold path in Hf1.
  destruct w1 as [f1 now1 rand1 announce1 trace1].
  cbn [fs n_now n_announce] in Hf1, Hn1, Ha1. subst now1 announce1.
  destruct (make_submission_spec E (eval_data_dir cfg) (eval_file_name (period_key E w))
              (submission_dir cfg) None
              (mkworld f1 (S (n_now w)) rand1 (n_announce w)
                 (trace1 ++ [ELog L_submission_mode]))
              lines data Hf1 Hl)
    as (shuffled & Hperm & Hrun).
  cbn zeta in Hrun. cbn [written_items fs n_now n_rand n_announce trace] in Hrun.
  fold sub_path in Hrun.
  exists shuffled. eexists. split; [exact Hperm|]. split.
  - run_setup Hbt Hint Hmg Hreg.
    unfold bind at 1. rewrite Hg.
    unfold bind at 1. unfold log at 1, emit at 1.
    cbn [fs n_now n_rand n_announce trace].
    unfold bind at 1. rewrite Hrun.
    unfold bind at 1. unfold upload_data. mrun. rewrite Hup.
    fold m.
    match goal with |- commit_loop E (S fuel) _ m ?w0 = _ =>
      rewrite (commit_loop_trace E (netuid cfg) m [] w0 (S fuel)) end.
    + reflexivity.
    + intros i e Hi. destruct i; discriminate Hi.
    + cbn [n_announce length]. rewrite Nat.add_0_r. exact Hok.
    + cbn [length]. lia.
  - cbn [fs n_announce length]. split; [|split].
    + rewrite lookup_insert_ne; [exact Hf1|].
      intros Heq. symmetry in Heq. revert Heq.
      apply eval_and_submission_keys_differ; apply strftime_YmdH_no_sep.
    + apply lookup_insert_eq.
    + lia.
Qed.

End FurtherEndToEnd.

(** ** The entry point *)

Section FurtherScript.
Context {record : Type} (E : env record).

Lemma wait_until_emits (s : string) (w : world) :
  emits_at (wait_until E s) w (fun _ => True).
Proof.
  unfold wait_until.
  apply emits_at_bind; [apply emits_at_lift|]. intros target w1 _.
  apply emits_at_bind; [apply emits_at_silent; reflexivity|]. intros now w2 _.
  apply emits_at_bind; [apply emits_at_lift|]. intros r w3 _.
  apply emits_at_bind; [apply emits_at_log; exact I|]. intros ? w4 _.
  unfold time_sleep. destruct (_ <? 0).
  - apply emits_at_silent. reflexivity.
  - eapply emits_at_these; [reflexivity | repeat constructor].
Qed.

Lemma main_emits_something (fuel : nat) (cfg : config) (w : world) :
  emits_at (main E fuel cfg) w (fun _ => True).
Proof.
  apply main_emits; try (intros; exact I).
  intros w1 _ _. split.
  { eapply emits_at_weaken; [|apply refresh_gate_emits]. intros; exact I. }
  intros file w2 _ w3 _ _. split; [|intros; exact I].
  eapply emits_at_weaken; [|apply make_submission_emits]. intros; exact I.
Qed.

Lemma daily_loop_emits (cfg : config) (at_ : string) (fuel : nat) :
  forall w, emits_at (daily_loop E fuel cfg at_) w (fun _ => True).
Proof.
  induction fuel as [|fuel IH]; intros w.
  - apply emits_at_silent. reflexivity.
  - cbn [daily_loop].
    apply emits_at_bind; [apply wait_until_emits|]. intros ? w1 _.
    apply emits_at_bind; [apply main_emits_something|]. intros ? w2 _.
    apply emits_at_bind; [apply emits_at_log; exact I|]. intros ? w3 _.
    apply IH.
Qed.

Lemma daily_loop_goes_on (cfg : config) (at_ : string) (fuel : nat) :
  forall (w : world) (a : unit), fst (daily_loop E fuel cfg at_ w) <> Ok a.
Proof.
  induction fuel as [|fuel IH]; intros w a; [discriminate|].
  cbn [daily_loop]. unfold bind at 1.
  destruct (wait_until E at_ w) as [[?|?|] w1]; [|discriminate..].
  unfold bind at 1.
  destruct (main E (S fuel) cfg w1) as [[?|?|] w2]; [|discriminate..].
  unfold bind at 1, log at 1, emit at 1.
  apply IH.
Qed.

(** X17.  With a malformed [--run-at] the scheduled script ends with an
    error at its first step, [ValueError] or, for a field too large for a C
    [int], [OverflowError]: no run of [main] is started, and the state is
    the one the script was started in. *)
Theorem malformed_schedule_stops_the_script
    (fuel : nat) (cfg : config) (at_ : string) (w : world) :
  run_at cfg = Some at_ -> at_ <> EmptyString ->
  well_formed_schedule at_ = false ->
  exists e, script E (S fuel) cfg w = (Raise e, w) /\ schedule_error at_ e.
Proof.
  intros Hat Hne Hbad.
  pose proof (parse_run_at_outcome at_) as H. rewrite Hbad in H.
  destruct H as (e & He & Hcls).
  exists e. split; [|exact Hcls]. unfold script. rewrite Hat.
  destruct (decide (at_ = EmptyString)) as [|_]; [contradiction|].
  cbn [daily_loop]. unfold bind at 1. unfold wait_until, bind, lift.
  rewrite He. reflexivity.
Qed.

(** X18.  With a non-empty [--run-at] the script never returns normally:
    however long it is observed, it has either raised or is still going
    through its cycles. *)
Theorem scheduled_script_never_returns
    (fuel : nat) (cfg : config) (at_ : string) (w : world) :
  run_at cfg = Some at_ -> at_ <> EmptyString ->
  forall a, fst (script E fuel cfg w) <> Ok a.
Proof.
  intros Hat Hne a. unfold script. rewrite Hat.
  destruct (decide (at_ = EmptyString)) as [|_]; [contradiction|].
  apply daily_loop_goes_on.
Qed.

(** X19.  A scheduled script starts by waiting: when its first
    [wait_until] returns, the first two things the script has done are the
    schedule line and a pause of a positive length of at most 24 hours;
    whatever a run does comes after them. *)
Theorem scheduled_script_waits_first
    (fuel : nat) (cfg : config) (at_ : string) (w w1 : world) :
  run_at cfg = Some at_ -> at_ <> EmptyString ->
  datetime_ok (env_clock E (n_now w)) = true ->
  wait_until E at_ w = (Ok tt, w1) ->
  exists r delta rest,
    0 < delta <= 86400 * 1000000 /\
    trace (snd (script E (S fuel) cfg w))
    = trace w ++ [ELog (L_scheduled r delta); ESleep delta] ++ rest.
Proof.
  intros Hat Hne Hnow Hwait.
  destruct (wait_until_outcome E at_ w w1 Hnow Hwait) as (r & Hw1 & Hd & _).
  exists r, (micros_between r (env_clock E (n_now w))).
  unfold script. rewrite Hat.
  destruct (decide (at_ = EmptyString)) as [|_]; [contradiction|].
  cbn [daily_loop]. unfold bind at 1. rewrite Hwait.
  match goal with |- context [snd (?c w1)] =>
    assert (Hrest : emits_at c w1 (fun _ => True)) end.
  { apply emits_at_bind; [apply main_emits_something|]. intros ? w2 _.
    apply emits_at_bind; [apply emits_at_log; exact I|]. intros ? w3 _.
    apply daily_loop_emits. }
  destruct Hrest as (rest & Hrest & _). exists rest.
  split; [exact Hd|]. rewrite Hrest, Hw1. cbn [trace].
  rewrite <- app_assoc. reflexivity.
Qed.

End FurtherScript.

(** ** The directory of a download *)

Section FurtherPaths.
Context {record : Type} (E : env record).

(** X21.  The directory [download_dataset] works on is an absolute path;
    making it absolute a second time changes nothing, and it names the
    directory that [local_dir] names from the working directory. *)
Theorem local_dir_is_made_absolute (d : string) :
  isabs (absolute E d) = true /\
  absolute E (absolute E d) = absolute E d /\
  key E (absolute E d) = key E d.
Proof.
  assert (Habs : isabs (absolute E d) = true).
  { unfold absolute. destruct (isabs d) eqn:Hd; cbn [negb]; [exact Hd|].
    unfold abspath. destruct (resolve (env_cwd E) d) as [|c rest]; [reflexivity|].
    cbn [render]. rewrite string_app_cons. reflexivity. }
  split; [exact Habs|]. split; [|apply key_absolute].
  unfold absolute at 1. rewrite Habs. reflexivity.
Qed.

End FurtherPaths.

(** ** Sample runs of the further properties *)

(** X1 on a forced download beside an earlier submission. *)
Lemma download_dataset_stays_inside_witness :
  let E := Sample.miner_env Sample.steady Sample.accepting MoreSamples.fresh_snapshot in
  let w := initial_world MoreSamples.busy_fs in
  let k := Sample.submission_key "submission_2026110412.jsonl" in
  let run := download_dataset E "flock-io/eval-data" "abc123" "data/eval_data" true w in
  ~ key E "data/eval_data" `prefix_of` k /\
  run = (fst run, snd run) /\
  fs (snd run) !! k = Some ["{a}"].
Proof.
  intros E w k run.
  assert (H1 : ~ key E "data/eval_data" `prefix_of` k).
  { intros [x Hx]. vm_compute in Hx. discriminate Hx. }
  assert (H2 : run = (fst run, snd run)) by (destruct run; reflexivity).
  assert (H3 : fs w !! k = Some ["{a}"]) by (vm_compute; reflexivity).
  split; [exact H1|]. split; [exact H2|].
  destruct (download_dataset_stays_inside E "flock-io/eval-data" "abc123"
              "data/eval_data" true w (snd run) (fst run) k H1 H2) as [Hk _].
  rewrite Hk. exact H3.
Defined.

(** X2 on an unforced download into a directory holding notes. *)
Lemma unforced_download_deletes_nothing_witness :
  let E := Sample.miner_env Sample.steady Sample.accepting MoreSamples.fresh_snapshot in
  let w := initial_world Sample.stale_fs in
  let k := Sample.eval_key "notes.txt" in
  (forall rc, rc ∈ fst (env_snapshot_download E "flock-io/eval-data" "abc123") ->
     key E "data/eval_data" ++ fst rc <> k) /\
  exists w',
    download_dataset E "flock-io/eval-data" "abc123" "data/eval_data" false w = (Ok tt, w') /\
    fs w' !! k = Some ["keep"].
Proof.
  intros E w k.
  assert (H1 : forall rc,
             rc ∈ fst (env_snapshot_download E "flock-io/eval-data" "abc123") ->
             key E "data/eval_data" ++ fst rc <> k).
  { intros rc Hin. apply list_elem_of_singleton in Hin. subst rc.
    intros Hx. vm_compute in Hx. discriminate Hx. }
  assert (H2 : fs w !! k = Some ["keep"]) by (vm_compute; reflexivity).
  split; [exact H1|].
  destruct (unforced_download_deletes_nothing E "flock-io/eval-data" "abc123"
              "data/eval_data" w k H1) as (w' & Hrun & Hk & _).
  exists w'. split; [exact Hrun|]. rewrite Hk. exact H2.
Defined.

(** X3 on a download that breaks off after [data.jsonl]. *)
Lemma load_dataset_installs_eval_file_witness :
  let E := Sample.miner_env Sample.steady Sample.accepting
             MoreSamples.interrupted_snapshot in
  let w := initial_world Sample.stale_fs in
  let file := "eval_data_2026110413.jsonl" in
  plain_name file = true /\
  env_get_hg_revision E (repo (env_competition E)) (env_eval_commit E) = Ok "abc123" /\
  env_snapshot_download E (repo (env_competition E)) "abc123"
  = ([(["data.jsonl"], ["{a}"])], Some (ExternalError "ConnectionError" "reset")) /\
  exists w',
    load_dataset E "data/eval_data" file w = (Ok tt, w') /\
    fs w' !! key E (join "data/eval_data" file) = Some ["{a}"] /\
    fs w' !! key E (join "data/eval_data" "data.jsonl") = None.
Proof.
  intros E w file.
  assert (H1 : plain_name file = true) by (vm_compute; reflexivity).
  assert (H2 : env_get_hg_revision E (repo (env_competition E)) (env_eval_commit E)
               = Ok "abc123") by reflexivity.
  assert (H3 : env_snapshot_download E (repo (env_competition E)) "abc123"
               = ([(["data.jsonl"], ["{a}"])],
                  Some (ExternalError "ConnectionError" "reset"))) by reflexivity.
  assert (H4 : file <> "data.jsonl") by discriminate.
  split; [exact H1|]. split; [exact H2|]. split; [exact H3|].
  destruct (load_dataset_installs_eval_file E "data/eval_data" file "abc123" w
              ["{a}"] [] (Some (ExternalError "ConnectionError" "reset")) H1 H2 H3)
    as (w' & Hrun & Hfile & Hgone & _).
  exists w'. split; [exact Hrun|]. split; [exact Hfile | exact (Hgone H4)].
Defined.

(** X4 on a miner whose revision lookup fails. *)
Lemma failed_revision_lookup_deletes_nothing_witness :
  let E := MoreSamples.miner_env_no_revision in
  let w := initial_world Sample.stale_fs in
  let cfg := Sample.cfg None in
  env_bittensor E = Ok tt /\
  PyStr.py_int (netuid cfg) = Some 96 /\
  env_metagraph E 96 = Ok tt /\
  env_assert_registered E = Ok tt /\
  fs w !! key E (join (eval_data_dir cfg) (eval_file_name (period_key E w))) = None /\
  env_get_hg_revision E (repo (env_competition E)) (env_eval_commit E)
  = Raise MoreSamples.unknown_revision /\
  fst (main E 1 cfg w) = Raise MoreSamples.unknown_revision /\
  fs (snd (main E 1 cfg w)) = Sample.stale_fs.
Proof.
  intros E w cfg.
  assert (H1 : env_bittensor E = Ok tt) by reflexivity.
  assert (H2 : PyStr.py_int (netuid cfg) = Some 96) by (vm_compute; reflexivity).
  assert (H3 : env_metagraph E 96 = Ok tt) by reflexivity.
  assert (H4 : env_assert_registered E = Ok tt) by reflexivity.
  assert (H5 : fs w !! key E (join (eval_data_dir cfg) (eval_file_name (period_key E w)))
               = None) by (vm_compute; reflexivity).
  assert (H6 : env_get_hg_revision E (repo (env_competition E)) (env_eval_commit E)
               = Raise MoreSamples.unknown_revision) by reflexivity.
  repeat (split; [assumption|]).
  rewrite (failed_revision_lookup_deletes_nothing E 1 cfg w 96
             MoreSamples.unknown_revision H1 H2 H3 H4 H5 H6).
  split; reflexivity.
Defined.

(** X5 on a gate that refreshes. *)
Lemma refresh_gate_leaves_eval_file_witness :
  let E := Sample.miner_env Sample.steady Sample.accepting MoreSamples.fresh_snapshot in
  let w := initial_world Sample.stale_fs in
  let cfg := Sample.cfg None in
  let file := "eval_data_2026110413.jsonl" in
  refresh_gate E cfg w = (Ok file, snd (refresh_gate E cfg w)) /\
  is_Some (fs (snd (refresh_gate E cfg w)) !! key E (join (eval_data_dir cfg) file)).
Proof.
  intros E w cfg file.
  assert (H1 : refresh_gate E cfg w = (Ok file, snd (refresh_gate E cfg w)))
    by (vm_compute; reflexivity).
  split; [exact H1|].
  exact (proj2 (refresh_gate_leaves_eval_file E cfg w _ file H1)).
Defined.

(** X6 on an empty file system. *)
Lemma make_submission_needs_its_input_witness :
  let E := Sample.miner_env Sample.steady Sample.accepting Sample.no_snapshot in
  let w := initial_world ∅ in
  let path := join "data/eval_data" "eval_data_2026110413.jsonl" in
  fs w !! key E path = None /\
  make_submission E "data/eval_data" "eval_data_2026110413.jsonl" "data/submissions"
    None w
  = (Raise (FileNotFoundError path), mkworld ∅ 0 0 0 [ELoadJsonl path]).
Proof.
  intros E w path.
  assert (H1 : fs w !! key E path = None) by (vm_compute; reflexivity).
  split; [exact H1|].
  exact (make_submission_needs_its_input E "data/eval_data" "eval_data_2026110413.jsonl"
           "data/submissions" None w (FileNotFoundError path)
           (or_introl (conj H1 eq_refl))).
Defined.

(** X7 on four records and the size -1. *)
Lemma submission_size_slices_witness :
  let E := Sample.miner_env Sample.steady Sample.accepting Sample.no_snapshot in
  let w := initial_world Sample.small_fs in
  fs w !! key E (join "data/eval_data" "eval_data_2026110413.jsonl")
  = Some Sample.four_records /\
  env_load_jsonl E Sample.four_records = Ok Sample.four_records /\
  exists written path w',
    make_submission E "data/eval_data" "eval_data_2026110413.jsonl"
      "data/submissions" (Some (-1)) w = (Ok path, w') /\
    fs w' !! key E path = Some (map (jsonl_line E) written) /\
    Z.of_nat (length written) = 3.
Proof.
  intros E w.
  assert (H1 : fs w !! key E (join "data/eval_data" "eval_data_2026110413.jsonl")
               = Some Sample.four_records) by (vm_compute; reflexivity).
  assert (H2 : env_load_jsonl E Sample.four_records = Ok Sample.four_records)
    by reflexivity.
  assert (H3 : -1 < 0) by lia.
  split; [exact H1|]. split; [exact H2|].
  destruct (submission_size_slices E "data/eval_data" "eval_data_2026110413.jsonl"
              "data/submissions" (-1) w Sample.four_records Sample.four_records H1 H2)
    as (shuffled & written & path & w' & _ & Hrun & Hfile & _ & _ & Hneg).
  exists written, path, w'. split; [exact Hrun|]. split; [exact Hfile|].
  rewrite (Hneg H3). reflexivity.
Defined.

(** X8 on the sizes 500 and none. *)
Lemma submission_names_tell_sizes_apart_witness :
  let E := Sample.miner_env Sample.steady Sample.accepting Sample.no_snapshot in
  Some 500 <> (None : option Z) /\
  key E (join "data/submissions"
           (submission_file_name (strftime_YmdH Sample.one_pm) (Some 500)))
  <> key E (join "data/submissions"
              (submission_file_name (strftime_YmdH Sample.one_pm) None)).
Proof.
  intros E.
  assert (H1 : Some 500 <> (None : option Z)) by discriminate.
  split; [exact H1|].
  exact (submission_names_tell_sizes_apart E "data/submissions" Sample.one_pm
           (Some 500) None H1).
Defined.

(** X9 on two submissions at one o'clock. *)
Lemma same_period_submissions_overwrite_witness :
  let E := Sample.miner_env Sample.steady Sample.accepting Sample.no_snapshot in
  let w := initial_world Sample.small_fs in
  let file := "eval_data_2026110413.jsonl" in
  let path := join "data/submissions"
                (submission_file_name (strftime_YmdH (env_clock E (n_now w))) None) in
  fs w !! key E (join "data/eval_data" file) = Some Sample.four_records /\
  env_load_jsonl E Sample.four_records = Ok Sample.four_records /\
  key E (join "data/eval_data" file) <> key E path /\
  strftime_YmdH (env_clock E (S (n_now w))) = strftime_YmdH (env_clock E (n_now w)) /\
  exists w1 w2,
    make_submission E "data/eval_data" file "data/submissions" None w = (Ok path, w1) /\
    make_submission E "data/eval_data" file "data/submissions" None w1 = (Ok path, w2).
Proof.
  intros E w file path.
  assert (H1 : fs w !! key E (join "data/eval_data" file) = Some Sample.four_records)
    by (vm_compute; reflexivity).
  assert (H2 : env_load_jsonl E Sample.four_records = Ok Sample.four_records)
    by reflexivity.
  assert (H3 : key E (join "data/eval_data" file) <> key E path).
  { intros Hx. vm_compute in Hx. discriminate Hx. }
  assert (H4 : strftime_YmdH (env_clock E (S (n_now w)))
               = strftime_YmdH (env_clock E (n_now w))) by reflexivity.
  split; [exact H1|]. split; [exact H2|]. split; [exact H3|]. split; [exact H4|].
  destruct (same_period_submissions_overwrite E "data/eval_data" file "data/submissions"
              None w Sample.four_records Sample.four_records H1 H2 H3 H4)
    as (first & second & w1 & w2 & Hr1 & Hr2 & _).
  exists w1, w2. split; [exact Hr1 | exact Hr2].
Defined.

(** X10 at one o'clock for a run scheduled at 14:30. *)
Lemma wait_until_sleeps_at_most_a_day_witness :
  let E := Sample.miner_env Sample.steady Sample.accepting Sample.no_snapshot in
  let w := initial_world ∅ in
  datetime_ok (env_clock E (n_now w)) = true /\
  wait_until E "14:30" w = (Ok tt, snd (wait_until E "14:30" w)) /\
  exists r delta,
    0 < delta <= 86400 * 1000000 /\
    trace (snd (wait_until E "14:30" w))
    = trace w ++ [ELog (L_scheduled r delta); ESleep delta].
Proof.
  intros E w.
  assert (H1 : datetime_ok (env_clock E (n_now w)) = true) by (vm_compute; reflexivity).
  assert (H2 : wait_until E "14:30" w = (Ok tt, snd (wait_until E "14:30" w)))
    by (vm_compute; reflexivity).
  split; [exact H1|]. split; [exact H2|].
  destruct (wait_until_sleeps_at_most_a_day E "14:30" w _ H1 H2)
    as (r & delta & _ & Hd & _ & Htr & _).
  exists r, delta. split; [exact Hd | exact Htr].
Defined.

(** X11 on half past two. *)
Lemma documented_schedules_are_accepted_witness :
  in_range 0 23 14 = true /\ in_range 0 59 30 = true /\ in_range 0 59 5 = true /\
  parse_run_at (format_HM 14 30) = Ok (mktime 14 30 0 0) /\
  parse_run_at (format_HMS 14 30 5) = Ok (mktime 14 30 5 0).
Proof.
  assert (H1 : in_range 0 23 14 = true) by reflexivity.
  assert (H2 : in_range 0 59 30 = true) by reflexivity.
  assert (H3 : in_range 0 59 5 = true) by reflexivity.
  split; [exact H1|]. split; [exact H2|]. split; [exact H3|].
  exact (documented_schedules_are_accepted 14 30 5 H1 H2 H3).
Defined.

(** X13 on a ledger that rejects every call, observed for five turns. *)
Lemma rejected_announce_is_retried_forever_witness :
  let E := Sample.miner_env Sample.steady MoreSamples.always_rejecting
             Sample.no_snapshot in
  let m := mkModelId "miner/submissions" "c0ffee" "1" in
  (forall k, exists e,
     env_store_model_metadata E k "96" (env_to_compressed_str E m) = Raise e) /\
  exists w',
    commit_loop E 5 "96" m (initial_world ∅) = (OutOfFuel, w') /\
    n_announce w' = 5%nat.
Proof.
  intros E m.
  assert (H1 : forall k, exists e,
             env_store_model_metadata E k "96" (env_to_compressed_str E m) = Raise e).
  { intros k. exists Sample.too_soon. reflexivity. }
  split; [exact H1|].
  destruct (rejected_announce_is_retried_forever E "96" m 5 (initial_world ∅) H1)
    as (w' & new & Hrun & Hn & _).
  exists w'. split; [exact Hrun | exact Hn].
Defined.

(** X14 on a run whose upload is refused. *)
Lemma announce_failures_never_escape_witness :
  let E := MoreSamples.miner_env_no_upload in
  let w := initial_world Sample.small_fs in
  let cfg := Sample.cfg None in
  main E 1 cfg w = (Raise MoreSamples.refused, snd (main E 1 cfg w)) /\
  exists new,
    trace (snd (main E 1 cfg w)) = trace w ++ new /\
    Forall (fun ev => is_announce ev = false /\ is_sleep ev = false) new.
Proof.
  intros E w cfg.
  assert (H1 : main E 1 cfg w = (Raise MoreSamples.refused, snd (main E 1 cfg w)))
    by (vm_compute; reflexivity).
  split; [exact H1|].
  exact (announce_failures_never_escape E 1 cfg w _ MoreSamples.refused H1).
Defined.

(** X15 on a subnet identifier that is no number. *)
Lemma failed_setup_touches_nothing_witness :
  let E := Sample.miner_env Sample.steady Sample.accepting Sample.no_snapshot in
  let w := initial_world Sample.small_fs in
  let cfg := MoreSamples.cfg_bad_netuid in
  ~ (env_bittensor E = Ok tt /\
     exists uid, PyStr.py_int (netuid cfg) = Some uid /\
                 env_metagraph E uid = Ok tt /\
                 env_assert_registered E = Ok tt) /\
  exists r w',
    main E 1 cfg w = (r, w') /\ (forall a, r <> Ok a) /\ fs w' = fs w.
Proof.
  intros E w cfg.
  assert (H1 : ~ (env_bittensor E = Ok tt /\
                  exists uid, PyStr.py_int (netuid cfg) = Some uid /\
                              env_metagraph E uid = Ok tt /\
                              env_assert_registered E = Ok tt)).
  { intros [_ (uid & Hx & _)]. vm_compute in Hx. discriminate Hx. }
  split; [exact H1|].
  destruct (failed_setup_touches_nothing E 1 cfg w H1) as (r & w' & Hrun & Hr & Hfs & _).
  exists r, w'. split; [exact Hrun|]. split; [exact Hr | exact Hfs].
Defined.

(** X16 on a miner whose repository refuses the upload. *)
Lemma failed_upload_is_fatal_witness :
  let E := MoreSamples.miner_env_no_upload in
  let w := initial_world Sample.small_fs in
  let cfg := Sample.cfg None in
  let sub_path :=
    join (submission_dir cfg)
      (submission_file_name (strftime_YmdH (env_clock E (S (n_now w)))) None) in
  env_bittensor E = Ok tt /\
  PyStr.py_int (netuid cfg) = Some 96 /\
  env_metagraph E 96 = Ok tt /\
  env_assert_registered E = Ok tt /\
  fs w !! key E (join (eval_data_dir cfg) (eval_file_name (period_key E w)))
  = Some Sample.four_records /\
  env_load_jsonl E Sample.four_records = Ok Sample.four_records /\
  (forall content,
     env_upload_data E (hf_repo_id cfg) sub_path content = Raise MoreSamples.refused) /\
  exists w',
    main E 1 cfg w = (Raise MoreSamples.refused, w') /\
    is_Some (fs w' !! key E sub_path) /\
    n_announce w' = 0%nat.
Proof.
  intros E w cfg sub_path.
  assert (H1 : env_bittensor E = Ok tt) by reflexivity.
  assert (H2 : PyStr.py_int (netuid cfg) = Some 96) by (vm_compute; reflexivity).
  assert (H3 : env_metagraph E 96 = Ok tt) by reflexivity.
  assert (H4 : env_assert_registered E = Ok tt) by reflexivity.
  assert (H5 : fs w !! key E (join (eval_data_dir cfg) (eval_file_name (period_key E w)))
               = Some Sample.four_records) by (vm_compute; reflexivity).
  assert (H6 : env_load_jsonl E Sample.four_records = Ok Sample.four_records)
    by reflexivity.
  assert (H7 : forall content,
             env_upload_data E (hf_repo_id cfg) sub_path content
             = Raise MoreSamples.refused) by (intros content; reflexivity).
  repeat (split; [assumption|]).
  destruct (failed_upload_is_fatal E 1 cfg w Sample.four_records Sample.four_records 96
              MoreSamples.refused H1 H2 H3 H4 H5 H6 H7)
    as (shuffled & w' & _ & Hrun & Hfs & Hn & _).
  exists w'. split; [exact Hrun|]. split; [|exact Hn].
  fold sub_path in Hfs. rewrite Hfs, lookup_insert_eq. eauto.
Defined.

(** X17 on the schedule 25:00. *)
Lemma malformed_schedule_stops_the_script_witness :
  let E := Sample.miner_env Sample.steady Sample.accepting Sample.no_snapshot in
  let cfg := MoreSamples.scheduled "25:00" in
  run_at cfg = Some "25:00" /\ "25:00" <> EmptyString /\
  well_formed_schedule "25:00" = false /\
  exists e,
    script E 1 cfg (initial_world Sample.small_fs)
    = (Raise e, initial_world Sample.small_fs) /\
    schedule_error "25:00" e.
Proof.
  intros E cfg.
  assert (H1 : run_at cfg = Some "25:00") by reflexivity.
  assert (H2 : "25:00" <> EmptyString) by discriminate.
  assert (H3 : well_formed_schedule "25:00" = false) by (vm_compute; reflexivity).
  split; [exact H1|]. split; [exact H2|]. split; [exact H3|].
  exact (malformed_schedule_stops_the_script E 0 cfg "25:00"
           (initial_world Sample.small_fs) H1 H2 H3).
Defined.

(** X18 on a daily schedule observed for two cycles. *)
Lemma scheduled_script_never_returns_witness :
  let E := Sample.miner_env Sample.steady Sample.accepting Sample.no_snapshot in
  let cfg := MoreSamples.scheduled "14:30" in
  run_at cfg = Some "14:30" /\ "14:30" <> EmptyString /\
  forall a, fst (script E 2 cfg (initial_world Sample.small_fs)) <> Ok a.
Proof.
  intros E cfg.
  assert (H1 : run_at cfg = Some "14:30") by reflexivity.
  assert (H2 : "14:30" <> EmptyString) by discriminate.
  split; [exact H1|]. split; [exact H2|].
  exact (scheduled_script_never_returns E 2 cfg "14:30"
           (initial_world Sample.small_fs) H1 H2).
Defined.

(** X19 on a daily schedule started at one o'clock. *)
Lemma scheduled_script_waits_first_witness :
  let E := Sample.miner_env Sample.steady Sample.accepting Sample.no_snapshot in
  let cfg := MoreSamples.scheduled "14:30" in
  let w := initial_world Sample.small_fs in
  run_at cfg = Some "14:30" /\ "14:30" <> EmptyString /\
  datetime_ok (env_clock E (n_now w)) = true /\
  wait_until E "14:30" w = (Ok tt, snd (wait_until E "14:30" w)) /\
  exists r delta rest,
    0 < delta <= 86400 * 1000000 /\
    trace (snd (script E 1 cfg w))
    = trace w ++ [ELog (L_scheduled r delta); ESleep delta] ++ rest.
Proof.
  intros E cfg w.
  assert (H1 : run_at cfg = Some "14:30") by reflexivity.
  assert (H2 : "14:30" <> EmptyString) by discriminate.
  assert (H3 : datetime_ok (env_clock E (n_now w)) = true) by (vm_compute; reflexivity).
  assert (H4 : wait_until E "14:30" w = (Ok tt, snd (wait_until E "14:30" w)))
    by (vm_compute; reflexivity).
  split; [exact H1|]. split; [exact H2|]. split; [exact H3|]. split; [exact H4|].
  exact (scheduled_script_waits_first E 0 cfg "14:30" w _ H1 H2 H3 H4).
Defined.

(** X20 on a run that refreshes a directory of stale files. *)
Lemma refreshed_run_submits_the_download_witness :
  let E := Sample.miner_env Sample.steady Sample.accepting MoreSamples.fresh_snapshot in
  let w := initial_world Sample.stale_fs in
  let cfg := Sample.cfg None in
  let m := mkModelId (hf_repo_id cfg) "c0ffee" (id (env_competition E)) in
  env_bittensor E = Ok tt /\
  PyStr.py_int (netuid cfg) = Some 96 /\
  env_metagraph E 96 = Ok tt /\
  env_assert_registered E = Ok tt /\
  fs w !! key E (join (eval_data_dir cfg) (eval_file_name (period_key E w))) = None /\
  env_get_hg_revision E (repo (env_competition E)) (env_eval_commit E) = Ok "abc123" /\
  env_snapshot_download E (repo (env_competition E)) "abc123"
  = ([(["data.jsonl"], Sample.four_records)], None) /\
  env_load_jsonl E Sample.four_records = Ok Sample.four_records /\
  env_store_model_metadata E (n_announce w) (netuid cfg) (env_to_compressed_str E m)
  = Ok tt /\
  exists shuffled w',
    shuffled ≡ₚ Sample.four_records /\
    main E 1 cfg w = (Ok tt, w') /\
    n_announce w' = 1%nat.
Proof.
  intros E w cfg m.
  assert (H1 : env_bittensor E = Ok tt) by reflexivity.
  assert (H2 : PyStr.py_int (netuid cfg) = Some 96) by (vm_compute; reflexivity).
  assert (H3 : env_metagraph E 96 = Ok tt) by reflexivity.
  assert (H4 : env_assert_registered E = Ok tt) by reflexivity.
  assert (H5 : fs w !! key E (join (eval_data_dir cfg) (eval_file_name (period_key E w)))
               = None) by (vm_compute; reflexivity).
  assert (H6 : env_get_hg_revision E (repo (env_competition E)) (env_eval_commit E)
               = Ok "abc123") by reflexivity.
  assert (H7 : env_snapshot_download E (repo (env_competition E)) "abc123"
               = ([(["data.jsonl"], Sample.four_records)], None)) by reflexivity.
  assert (H8 : env_load_jsonl E Sample.four_records = Ok Sample.four_records)
    by reflexivity.
  assert (H9 : forall content,
             env_upload_data E (hf_repo_id cfg)
               (join (submission_dir cfg)
                  (submission_file_name
                     (strftime_YmdH (env_clock E (S (n_now w)))) None)) content
             = Ok "c0ffee") by (intros content; reflexivity).
  assert (H10 : env_store_model_metadata E (n_announce w) (netuid cfg)
                  (env_to_compressed_str E m) = Ok tt) by reflexivity.
  repeat (split; [assumption|]).
  destruct (refreshed_run_submits_the_download E 0 cfg w "abc123" Sample.four_records []
              None Sample.four_records 96 "c0ffee" H1 H2 H3 H4 H5 H6 H7 H8 H9 H10)
    as (shuffled & w' & Hperm & Hrun & _ & _ & Hn).
  exists shuffled, w'. split; [exact Hperm|]. split; [exact Hrun | exact Hn].
Defined.
